(** * Market-data processing pipeline: a shallow embedding and its properties

    The pipeline of [netlify/functions/fetch-market-data.js] (second part,
    "process-market-data") and the indicator engine of
    [netlify/functions/calculate-indicators.js].

    Modelling conventions.
    - A candle is a record.  [timestamp] is an integer number of epoch
      milliseconds ([Z]); prices and volume are finite real numbers ([R]),
      the idealisation of the doubles the program computes with.
    - An optional property of a JS object is an [option] field; [None]
      stands for an absent property and for [undefined].
    - A division whose divisor may be zero, and the [Infinity] seeds of a
      running minimum, leave the finite numbers: such values are [JsNum].
    - A [dict] keyed by a number is a [gmap Z _].
    - Runtime functions the stages call ([Math.floor] of a quotient,
      [new Date(t).toISOString()]) are modelled on the integers. *)

From Stdlib Require Import ZArith List Reals Lra Lia Ascii.
From stdpp Require Import base option list gmap strings sorting.

Local Open Scope Z_scope.

(** ** JS numbers that may leave the finite reals *)

Inductive JsNum : Type :=
| Finite (r : R)
| PosInfinity
| NegInfinity
| NaN.

Definition Rltb (x y : R) : bool := if Rlt_dec x y then true else false.
Definition Reqb (x y : R) : bool := if Req_dec_T x y then true else false.

(** [x / y] on two finite numbers. *)
Definition js_div (x y : R) : JsNum :=
  if Reqb y 0 then
    if Reqb x 0 then NaN
    else if Rltb 0 x then PosInfinity else NegInfinity
  else Finite (x / y).

(** [Math.abs]. *)
Definition js_abs (z : JsNum) : JsNum :=
  match z with
  | Finite r => Finite (Rabs r)
  | PosInfinity | NegInfinity => PosInfinity
  | NaN => NaN
  end.

(** [z > t] for a finite [t]; every comparison with [NaN] is false. *)
Definition js_gt (z : JsNum) (t : R) : bool :=
  match z with
  | Finite r => Rltb t r
  | PosInfinity => true
  | NegInfinity | NaN => false
  end.

(** [Math.min(m, v)] and [Math.max(m, v)] for a running extremum [m] and a
    finite [v]. *)
Definition js_min (m : JsNum) (v : R) : JsNum :=
  match m with
  | Finite r => Finite (Rmin r v)
  | PosInfinity => Finite v
  | NegInfinity => NegInfinity
  | NaN => NaN
  end.

Definition js_max (m : JsNum) (v : R) : JsNum :=
  match m with
  | Finite r => Finite (Rmax r v)
  | NegInfinity => Finite v
  | PosInfinity => PosInfinity
  | NaN => NaN
  end.

(** [a - b]. *)
Definition js_sub (a b : JsNum) : JsNum :=
  match a, b with
  | NaN, _ | _, NaN => NaN
  | Finite x, Finite y => Finite (x - y)
  | Finite _, PosInfinity => NegInfinity
  | Finite _, NegInfinity => PosInfinity
  | PosInfinity, PosInfinity => NaN
  | PosInfinity, _ => PosInfinity
  | NegInfinity, NegInfinity => NaN
  | NegInfinity, _ => NegInfinity
  end.

(** [a || 1]: zero and [NaN] are falsy. *)
Definition js_or_one (a : JsNum) : JsNum :=
  match a with
  | Finite r => if Reqb r 0 then Finite 1 else a
  | NaN => Finite 1
  | _ => a
  end.

(** [a / b]. *)
Definition js_quot (a b : JsNum) : JsNum :=
  match a, b with
  | NaN, _ | _, NaN => NaN
  | Finite x, Finite y => js_div x y
  | Finite _, _ => Finite 0
  | PosInfinity, Finite y => if Rltb y 0 then NegInfinity else PosInfinity
  | NegInfinity, Finite y => if Rltb y 0 then PosInfinity else NegInfinity
  | _, _ => NaN
  end.

(** ** Candles *)

Record Candle : Type := mkCandle {
  timestamp : Z;
  datetime : string;
  open : R;
  high : R;
  low : R;
  close : R;
  volume : R;
  interpolated : option bool;
  outlierCorrected : option bool;
  originalTimestamp : option Z;
  normalizedOpen : option JsNum;
  normalizedHigh : option JsNum;
  normalizedLow : option JsNum;
  normalizedClose : option JsNum;
  normalizedVolume : option JsNum
}.

(** ** Timeframe inference: [getTimeframeFromData] *)

(** The state of the mode search: the count table and the running best. *)
Record ModeState : Type := mkModeState {
  differenceCounts : gmap Z nat;
  maxCount : nat;
  mostCommonDiff : option Z
}.

(** The first loop: [data[i].timestamp - data[i-1].timestamp] for
    [1 <= i < Math.min(data.length, 10)].  Both reads are in range. *)
Definition timestampDifferences (data : list Candle) : list Z :=
  omap (fun i : nat =>
          match data !! i, data !! (i - 1)%nat with
          | Some cur, Some prev => Some (timestamp cur - timestamp prev)
          | _, _ => None
          end)
       (seq 1 (Nat.min (length data) 10 - 1)).

(** One turn of [differences.forEach]. *)
Definition countDifference (st : ModeState) (diff : Z) : ModeState :=
  let count := (default 0%nat (differenceCounts st !! diff) + 1)%nat in
  let counts := <[diff := count]> (differenceCounts st) in
  if (maxCount st <? count)%nat
  then mkModeState counts count (Some diff)
  else mkModeState counts (maxCount st) (mostCommonDiff st).

(** [None] is the [null] of a sequence too short to have a delta. *)
Definition getTimeframeFromData (data : list Candle) : option Z :=
  if (length data <? 2)%nat then None
  else
    let differences := timestampDifferences data in
    mostCommonDiff
      (fold_left countDifference differences
                 (mkModeState ∅ 0 (head differences))).

(** [if (!timeframe)]: [null] and [0] are falsy. *)
Definition detectable (timeframe : option Z) : option Z :=
  match timeframe with
  | Some tf => if tf =? 0 then None else Some tf
  | None => None
  end.

(** ** Dates *)

(** [new Date(t).toISOString()]: the UTC date of [t] milliseconds after the
    epoch in the proleptic Gregorian calendar, as
    [YYYY-MM-DDTHH:mm:ss.sssZ] (a year outside 0..9999 is signed and has six
    digits).  The runtime refuses a time value beyond 8.64e15 in magnitude;
    the model is total. *)
Fixpoint decimalDigits (width : nat) (z : Z) : string :=
  match width with
  | O => EmptyString
  | S width' =>
      decimalDigits width' (z / 10)
      +:+ String (Ascii.ascii_of_nat (48 + Z.to_nat (z mod 10))) EmptyString
  end.

Definition civilFromDays (days : Z) : Z * Z * Z :=
  let z := days + 719468 in
  let era := z / 146097 in
  let doe := z - era * 146097 in
  let yoe := (doe - doe / 1460 + doe / 36524 - doe / 146096) / 365 in
  let doy := doe - (365 * yoe + yoe / 4 - yoe / 100) in
  let mp := (5 * doy + 2) / 153 in
  let day := doy - (153 * mp + 2) / 5 + 1 in
  let month := if mp <? 10 then mp + 3 else mp - 9 in
  let year := yoe + era * 400 + (if month <=? 2 then 1 else 0) in
  (year, month, day).

Definition toISOString (t : Z) : string :=
  let '(year, month, day) := civilFromDays (t / 86400000) in
  let msOfDay := t mod 86400000 in
  let yearText :=
    if (0 <=? year) && (year <=? 9999) then decimalDigits 4 year
    else (if year <? 0 then "-" else "+") +:+ decimalDigits 6 (Z.abs year) in
  yearText +:+ "-" +:+ decimalDigits 2 month +:+ "-" +:+ decimalDigits 2 day
  +:+ "T" +:+ decimalDigits 2 (msOfDay / 3600000)
  +:+ ":" +:+ decimalDigits 2 (msOfDay / 60000 mod 60)
  +:+ ":" +:+ decimalDigits 2 (msOfDay / 1000 mod 60)
  +:+ "." +:+ decimalDigits 3 (msOfDay mod 1000) +:+ "Z".

(** *** [alignTimestamps] *)

(** The callback of [data.map].  [Math.floor(timestamp / timeframe)] is the
    division of [Z], which rounds down for a divisor of either sign. *)
Definition alignCandle (timeframe : Z) (candle : Candle) : Candle :=
  let timestamp0 := timestamp candle in
  let alignedTimestamp := timestamp0 / timeframe * timeframe in
  mkCandle alignedTimestamp (toISOString alignedTimestamp)
           (open candle) (high candle) (low candle) (close candle)
           (volume candle) (interpolated candle) (outlierCorrected candle)
           (if timestamp0 =? alignedTimestamp then None else Some timestamp0)
           (normalizedOpen candle) (normalizedHigh candle)
           (normalizedLow candle) (normalizedClose candle)
           (normalizedVolume candle).

Definition alignTimestamps (data : list Candle) : list Candle :=
  match data with
  | [] => []
  | _ =>
      match detectable (getTimeframeFromData data) with
      | None => data
      | Some timeframe => map (alignCandle timeframe) data
      end
  end.

(** *** [handleMissingValues] *)

(** [[...data].sort((a, b) => a.timestamp - b.timestamp)]: a stable sort, as
    the language requires of [Array.prototype.sort]. *)
Fixpoint insertByTimestamp (c : Candle) (sorted : list Candle) : list Candle :=
  match sorted with
  | [] => [c]
  | x :: rest =>
      if timestamp c <=? timestamp x then c :: sorted
      else x :: insertByTimestamp c rest
  end.

Definition sortByTimestamp (data : list Candle) : list Candle :=
  foldr insertByTimestamp [] data.

(** The [while] loop of [generateExpectedTimestamps]; [None] when [fuel] turns
    of the loop do not reach its exit. *)
Fixpoint generateExpectedTimestampsLoop (fuel : nat) (timestamps : list Z)
    (currentTimestamp endTimestamp timeframeMs : Z) : option (list Z) :=
  if currentTimestamp <=? endTimestamp then
    match fuel with
    | O => None
    | S fuel' =>
        generateExpectedTimestampsLoop fuel' (timestamps ++ [currentTimestamp])
          (currentTimestamp + timeframeMs) endTimestamp timeframeMs
    end
  else Some timestamps.

Definition generateExpectedTimestamps (fuel : nat)
    (startTimestamp endTimestamp timeframeMs : Z) : option (list Z) :=
  generateExpectedTimestampsLoop fuel [] startTimestamp endTimestamp timeframeMs.

(** [sortedData.forEach(candle => dataMap[candle.timestamp] = candle)]. *)
Definition buildDataMap (sortedData : list Candle) : gmap Z Candle :=
  fold_left (fun dataMap candle => <[timestamp candle := candle]> dataMap)
            sortedData ∅.

(** The candle pushed for a missing timestamp. *)
Definition forwardFill (lastValidCandle : Candle) (timestamp0 : Z) : Candle :=
  mkCandle timestamp0 (toISOString timestamp0)
           (close lastValidCandle) (close lastValidCandle)
           (close lastValidCandle) (close lastValidCandle)
           0%R (Some true) None None None None None None None.

(** One turn of [expectedTimestamps.forEach]; the state is [filledData] and
    [lastValidCandle]. *)
Definition fillTimestamp (dataMap : gmap Z Candle)
    (st : list Candle * option Candle) (timestamp0 : Z)
    : list Candle * option Candle :=
  let '(filledData, lastValidCandle) := st in
  match dataMap !! timestamp0 with
  | Some candle => (filledData ++ [candle], Some candle)
  | None =>
      match lastValidCandle with
      | Some lastValid =>
          (filledData ++ [forwardFill lastValid timestamp0], lastValidCandle)
      | None => st
      end
  end.

(** [None]: no result within [fuel] turns of the timestamp loop (the reads
    [sortedData[0]] and [sortedData[length - 1]] are guarded by the emptiness
    test). *)
Definition handleMissingValues (fuel : nat) (data : list Candle)
    : option (list Candle) :=
  match data with
  | [] => Some []
  | _ =>
      let sortedData := sortByTimestamp data in
      match detectable (getTimeframeFromData sortedData) with
      | None => Some sortedData
      | Some timeframe =>
          firstCandle ← head sortedData;
          lastCandle ← last sortedData;
          expectedTimestamps ←
            generateExpectedTimestamps fuel (timestamp firstCandle)
                                       (timestamp lastCandle) timeframe;
          let dataMap := buildDataMap sortedData in
          Some (fold_left (fillTimestamp dataMap) expectedTimestamps
                          ([], None)).1
      end
  end.

(** ** [removeOutliers] *)

Local Open Scope R_scope.

(** The first [forEach]: the two running sums. *)
Definition sumHighLow (data : list Candle) : R * R :=
  fold_left (fun '(sumHigh, sumLow) candle =>
               (sumHigh + high candle, sumLow + low candle))
            data (0, 0).

Definition meanHigh (data : list Candle) : R :=
  (sumHighLow data).1 / INR (length data).

Definition meanLow (data : list Candle) : R :=
  (sumHighLow data).2 / INR (length data).

(** The second [forEach]: the two sums of squared deviations. *)
Definition sumSquaredDev (data : list Candle) : R * R :=
  fold_left (fun '(sumSquaredDevHigh, sumSquaredDevLow) candle =>
               (sumSquaredDevHigh + (high candle - meanHigh data) ^ 2,
                sumSquaredDevLow + (low candle - meanLow data) ^ 2))
            data (0, 0).

Definition stdDevHigh (data : list Candle) : R :=
  sqrt ((sumSquaredDev data).1 / INR (length data)).

Definition stdDevLow (data : list Candle) : R :=
  sqrt ((sumSquaredDev data).2 / INR (length data)).

Definition highZScore (data : list Candle) (candle : Candle) : JsNum :=
  js_abs (js_div (high candle - meanHigh data) (stdDevHigh data)).

Definition lowZScore (data : list Candle) (candle : Candle) : JsNum :=
  js_abs (js_div (low candle - meanLow data) (stdDevLow data)).

(** The callback of the final [data.map]. *)
Definition correctCandle (data : list Candle) (threshold : R)
    (candle : Candle) : Candle :=
  if js_gt (highZScore data candle) threshold then
    mkCandle (timestamp candle) (datetime candle) (open candle)
             (Rmin (high candle) (meanHigh data + threshold * stdDevHigh data))
             (low candle) (close candle) (volume candle)
             (interpolated candle) (Some true) (originalTimestamp candle)
             (normalizedOpen candle) (normalizedHigh candle)
             (normalizedLow candle) (normalizedClose candle)
             (normalizedVolume candle)
  else if js_gt (lowZScore data candle) threshold then
    mkCandle (timestamp candle) (datetime candle) (open candle)
             (high candle)
             (Rmax (low candle) (meanLow data - threshold * stdDevLow data))
             (close candle) (volume candle)
             (interpolated candle) (Some true) (originalTimestamp candle)
             (normalizedOpen candle) (normalizedHigh candle)
             (normalizedLow candle) (normalizedClose candle)
             (normalizedVolume candle)
  else candle.

Definition removeOutliers (data : list Candle) (threshold : R) : list Candle :=
  if (length data <? 10)%nat then data
  else map (correctCandle data threshold) data.

(** ** [normalizeData] *)

(** The running [(min, max)] of one field over the batch, seeded with
    [(Infinity, -Infinity)]; the source keeps the five pairs in one loop. *)
Definition fieldRange (field : Candle -> R) (data : list Candle)
    : JsNum * JsNum :=
  fold_left (fun '(minField, maxField) candle =>
               (js_min minField (field candle), js_max maxField (field candle)))
            data (PosInfinity, NegInfinity).

(** [(candle.f - minF) / (maxF - minF || 1)]. *)
Definition normalizeField (field : Candle -> R) (data : list Candle)
    (candle : Candle) : JsNum :=
  let '(minField, maxField) := fieldRange field data in
  js_quot (js_sub (Finite (field candle)) minField)
          (js_or_one (js_sub maxField minField)).

Definition normalizeCandle (data : list Candle) (candle : Candle) : Candle :=
  mkCandle (timestamp candle) (datetime candle) (open candle) (high candle)
           (low candle) (close candle) (volume candle)
           (interpolated candle) (outlierCorrected candle)
           (originalTimestamp candle)
           (Some (normalizeField open data candle))
           (Some (normalizeField high data candle))
           (Some (normalizeField low data candle))
           (Some (normalizeField close data candle))
           (Some (normalizeField volume data candle)).

Definition normalizeData (data : list Candle) : list Candle :=
  match data with
  | [] => []
  | _ => map (normalizeCandle data) data
  end.

Local Close Scope R_scope.

(** ** Results that may be an exception *)

Inductive Outcome (A : Type) : Type :=
| Returns (value : A)
| Throws (message : string).

Arguments Returns {A} value.
Arguments Throws {A} message.

Definition outcomeBind {A B : Type} (f : A -> Outcome B) (m : Outcome A)
    : Outcome B :=
  match m with
  | Returns a => f a
  | Throws message => Throws message
  end.

#[global] Instance Outcome_bind : MBind Outcome := @outcomeBind.
#[global] Instance Outcome_ret : MRet Outcome := @Returns.

(** ** The indicator engine *)

(** An element of an indicator series. *)
Inductive JsVal : Type :=
| VNull
| VUndefined
| VNumber (n : JsNum).

(** What the [technicalindicators] package returns per bar. *)
Record MACDOutput : Type := mkMACDOutput {
  item_MACD : JsVal;
  item_signal : JsVal;
  item_histogram : JsVal
}.

Record BollingerBandsOutput : Type := mkBollingerBandsOutput {
  item_upper : JsVal;
  item_middle : JsVal;
  item_lower : JsVal
}.

Record StochasticOutput : Type := mkStochasticOutput {
  item_k : JsVal;
  item_d : JsVal
}.

(** The entry points of the [technicalindicators] package the engine calls.
    The package is a dependency, not code of the repository: the engine is
    modelled over any implementation of this interface. *)
Class TechnicalIndicators : Type := {
  SMA_calculate : nat -> list R -> list JsVal;
  EMA_calculate : nat -> list R -> list JsVal;
  RSI_calculate : nat -> list R -> list JsVal;
  MACD_calculate : nat -> nat -> nat -> list R -> list MACDOutput;
  BollingerBands_calculate : nat -> R -> list R -> list BollingerBandsOutput;
  ATR_calculate : nat -> list R -> list R -> list R -> list JsVal;
  Stochastic_calculate :
    nat -> nat -> list R -> list R -> list R -> list StochasticOutput
}.

(** [Array(dataLength - resultLength).fill(null)]; [Array] of a negative
    length is a [RangeError]. *)
Definition nullPadding (dataLength resultLength : nat) : Outcome (list JsVal) :=
  if (dataLength <? resultLength)%nat then Throws "Invalid array length"
  else Returns (replicate (dataLength - resultLength) VNull).

Record MACDSeries : Type := mkMACDSeries {
  macd : list JsVal;
  signal : list JsVal;
  histogram : list JsVal
}.

Record BollingerSeries : Type := mkBollingerSeries {
  upper : list JsVal;
  middle : list JsVal;
  lower : list JsVal
}.

Record StochasticSeries : Type := mkStochasticSeries {
  k : list JsVal;
  d : list JsVal
}.

Section IndicatorEngine.

Context `{!TechnicalIndicators}.

Definition calculateSMA (data : list Candle) (period : nat)
    : Outcome (list JsVal) :=
  if (length data <? period)%nat then Returns []
  else
    let closes := map close data in
    let sma := SMA_calculate period closes in
    padding ← nullPadding (length data) (length sma);
    Returns (padding ++ sma).

Definition calculateEMA (data : list Candle) (period : nat)
    : Outcome (list JsVal) :=
  if (length data <? period)%nat then Returns []
  else
    let closes := map close data in
    let ema := EMA_calculate period closes in
    padding ← nullPadding (length data) (length ema);
    Returns (padding ++ ema).

Definition calculateRSI (data : list Candle) (period : nat)
    : Outcome (list JsVal) :=
  if (length data <? period + 1)%nat then Returns []
  else
    let closes := map close data in
    let rsi := RSI_calculate period closes in
    padding ← nullPadding (length data) (length rsi);
    Returns (padding ++ rsi).

Definition calculateMACD (data : list Candle)
    (fastPeriod slowPeriod signalPeriod : nat) : Outcome MACDSeries :=
  if (length data <? slowPeriod + signalPeriod)%nat
  then Returns (mkMACDSeries [] [] [])
  else
    let closes := map close data in
    let macdResult := MACD_calculate fastPeriod slowPeriod signalPeriod closes in
    let macd0 := map item_MACD macdResult in
    let signal0 := map item_signal macdResult in
    let histogram0 := map item_histogram macdResult in
    padding ← nullPadding (length data) (length macd0);
    Returns (mkMACDSeries (padding ++ macd0) (padding ++ signal0)
                          (padding ++ histogram0)).

Definition calculateBollingerBands (data : list Candle) (period : nat)
    (stdDev : R) : Outcome BollingerSeries :=
  if (length data <? period)%nat
  then Returns (mkBollingerSeries [] [] [])
  else
    let closes := map close data in
    let bbResult := BollingerBands_calculate period stdDev closes in
    let upper0 := map item_upper bbResult in
    let middle0 := map item_middle bbResult in
    let lower0 := map item_lower bbResult in
    padding ← nullPadding (length data) (length upper0);
    Returns (mkBollingerSeries (padding ++ upper0) (padding ++ middle0)
                               (padding ++ lower0)).

Definition calculateATR (data : list Candle) (period : nat)
    : Outcome (list JsVal) :=
  if (length data <? period + 1)%nat then Returns []
  else
    let atrInput := map (fun candle => (high candle, low candle, close candle))
                        data in
    let atr := ATR_calculate period (map (fun item => item.1.1) atrInput)
                             (map (fun item => item.1.2) atrInput)
                             (map (fun item => item.2) atrInput) in
    padding ← nullPadding (length data) (length atr);
    Returns (padding ++ atr).

Definition calculateStochastic (data : list Candle)
    (period signalPeriod : nat) : Outcome StochasticSeries :=
  if (length data <? period)%nat then Returns (mkStochasticSeries [] [])
  else
    let stochInput := map (fun candle => (high candle, low candle, close candle))
                          data in
    let stoch := Stochastic_calculate period signalPeriod
                   (map (fun item => item.1.1) stochInput)
                   (map (fun item => item.1.2) stochInput)
                   (map (fun item => item.2) stochInput) in
    let k0 := map item_k stoch in
    let d0 := map item_d stoch in
    padding ← nullPadding (length data) (length k0);
    Returns (mkStochasticSeries (padding ++ k0) (padding ++ d0)).

End IndicatorEngine.

(** [calculateOBV]: the loop pushes one value per index [1 <= i < length];
    the reads [data[i]], [data[i-1]] and [obv[i-1]] are in range. *)
Definition obvStep (data : list Candle) (obv : list R) (i : nat) : list R :=
  match data !! i, data !! (i - 1)%nat, obv !! (i - 1)%nat with
  | Some current, Some previous, Some obvPrevious =>
      let currentClose := close current in
      let previousClose := close previous in
      let currentVolume := volume current in
      if Rltb previousClose currentClose
      then obv ++ [(obvPrevious + currentVolume)%R]
      else if Rltb currentClose previousClose
      then obv ++ [(obvPrevious - currentVolume)%R]
      else obv ++ [obvPrevious]
  | _, _, _ => obv
  end.

Definition calculateOBV (data : list Candle) : list R :=
  if (length data <? 2)%nat then []
  else fold_left (obvStep data) (seq 1 (length data - 1)) [0%R].

(** [a * k] for a finite [k]. *)
Definition js_times (a : JsNum) (k : R) : JsNum :=
  match a with
  | Finite r => Finite (r * k)
  | NaN => NaN
  | PosInfinity =>
      if Reqb k 0 then NaN else if Rltb 0 k then PosInfinity else NegInfinity
  | NegInfinity =>
      if Reqb k 0 then NaN else if Rltb 0 k then NegInfinity else PosInfinity
  end.

Definition returnsStep (data : list Candle) (returns : list JsVal) (i : nat)
    : list JsVal :=
  match data !! i, data !! (i - 1)%nat with
  | Some current, Some previous =>
      let currentClose := close current in
      let previousClose := close previous in
      let returnValue :=
        js_times (js_div (currentClose - previousClose) previousClose) 100 in
      returns ++ [VNumber returnValue]
  | _, _ => returns
  end.

Definition calculateReturns (data : list Candle) : list JsVal :=
  if (length data <? 2)%nat then []
  else fold_left (returnsStep data) (seq 1 (length data - 1)) [VNull].

(** ** The two request handlers *)

(** The [data] property of a request body, by JS type. *)
Inductive DataParam : Type :=
| DataUndefined
| DataNull
| DataBoolean (b : bool)
| DataNumber (r : R)
| DataString (s : string)
| DataObject
| DataArray (candles : list Candle).

(** [!!data]. *)
Definition truthy (data : DataParam) : bool :=
  match data with
  | DataUndefined | DataNull => false
  | DataBoolean b => b
  | DataNumber r => negb (Reqb r 0)
  | DataString s => negb (String.eqb s "")
  | DataObject | DataArray _ => true
  end.

(** [Array.isArray(data)]. *)
Definition isArray (data : DataParam) : bool :=
  match data with
  | DataArray _ => true
  | _ => false
  end.

(** [JSON.parse(event.body)] followed by the destructuring of the handler:
    the parse may throw, [null] cannot be destructured, and any other value
    yields its properties (all [undefined] for a scalar). *)
Inductive ParsedBody (Request : Type) : Type :=
| SyntaxError (message : string)
| BodyNull
| BodyValue (request : Request).

Arguments SyntaxError {Request} message.
Arguments BodyNull {Request}.
Arguments BodyValue {Request} request.

Record Event (Request : Type) : Type := mkEvent {
  httpMethod : string;
  body : ParsedBody Request
}.

Arguments mkEvent {Request} httpMethod body.
Arguments httpMethod {Request} e.
Arguments body {Request} e.

(** [options] of the process request; [None] in a field is an absent
    property. *)
Record ProcessingOptions : Type := mkProcessingOptions {
  opt_alignTimestamps : option bool;
  opt_handleMissingValues : option bool;
  opt_removeOutliers : option bool;
  opt_outlierThreshold : option R;
  opt_normalize : option bool
}.

(** [options = {}] applies to [undefined] only: [process_options] is [None]
    for an explicit [null], whose property reads throw. *)
Record ProcessRequest : Type := mkProcessRequest {
  process_data : DataParam;
  process_options : option ProcessingOptions
}.

Record IndicatorParameters : Type := mkIndicatorParameters {
  smaPeriod : option nat;
  emaPeriod : option nat;
  rsiPeriod : option nat;
  macdFastPeriod : option nat;
  macdSlowPeriod : option nat;
  macdSignalPeriod : option nat;
  bollingerPeriod : option nat;
  bollingerStdDev : option R;
  atrPeriod : option nat;
  stochasticPeriod : option nat;
  stochasticSignalPeriod : option nat;
  combineWithData : option bool
}.

(** [indicators] is [None] when absent (the default list applies);
    [indicator_parameters] is [None] for an explicit [null]. *)
Record IndicatorRequest : Type := mkIndicatorRequest {
  indicator_data : DataParam;
  indicators : option (list string);
  indicator_parameters : option IndicatorParameters
}.

(** A value of [result.indicators]. *)
Inductive IndicatorValue : Type :=
| Series (values : list JsVal)
| SubSeries (entries : list (string * list JsVal)).

(** A candle of [combinedData]: the candle's own properties and the added
    ones, in insertion order. *)
Record CombinedCandle : Type := mkCombinedCandle {
  combined_candle : Candle;
  combined_extra : list (string * JsVal)
}.

(** The object serialised into the response body. *)
Inductive ResponseBody : Type :=
| MessageBody (message : string)
| ErrorBody (error : string)
| ValidationErrorBody (error : string) (required : string)
| InternalErrorBody (error : string) (message : string)
| RequiredParamsBody (error : string) (requiredParams : list string)
| ProcessedBody (originalCount processedCount : nat)
                (processingSteps : list string) (data : list Candle)
| IndicatorsBody (originalData : list Candle)
                 (indicatorSeries : list (string * IndicatorValue))
                 (combinedData : option (list CombinedCandle)).

Record Response : Type := mkResponse {
  statusCode : nat;
  headers : list (string * string);
  responseBody : ResponseBody
}.

Definition corsHeaders : list (string * string) :=
  [("Access-Control-Allow-Origin", "*");
   ("Access-Control-Allow-Headers", "Content-Type");
   ("Access-Control-Allow-Methods", "GET, POST, OPTIONS")].

(** [n || fallback] on an optional count. *)
Definition orDefault (n : option nat) (fallback : nat) : nat :=
  match n with
  | Some 0%nat | None => fallback
  | Some n => n
  end.

(** [r || fallback] on an optional number. *)
Definition orDefaultR (r : option R) (fallback : R) : R :=
  match r with
  | Some r => if Reqb r 0 then fallback else r
  | None => fallback
  end.

(** [obj[key] = value]: an existing property keeps its place. *)
Fixpoint setProperty {V : Type} (key : string) (value : V)
    (obj : list (string * V)) : list (string * V) :=
  match obj with
  | [] => [(key, value)]
  | (key0, value0) :: rest =>
      if String.eqb key0 key then (key, value) :: rest
      else (key0, value0) :: setProperty key value rest
  end.

(** [toLowerCase] on the ASCII letters. *)
Definition lowerAscii (c : Ascii.ascii) : Ascii.ascii :=
  let n := Ascii.nat_of_ascii c in
  if ((65 <=? n) && (n <=? 90))%nat then Ascii.ascii_of_nat (n + 32) else c.

Fixpoint toLowerCase (s : string) : string :=
  match s with
  | EmptyString => EmptyString
  | String c rest => String (lowerAscii c) (toLowerCase rest)
  end.

(** The four optional stages, threading [processedData] and
    [processingSteps].  [None]: the gap filler has no result within [fuel]. *)
Definition applyCleaning (fuel : nat) (options : ProcessingOptions)
    (data : list Candle) : option (list Candle * list string) :=
  let processedData := data in
  let processingSteps : list string := [] in
  let '(processedData, processingSteps) :=
    if bool_decide (opt_alignTimestamps options ≠ Some false)
    then (alignTimestamps processedData,
          processingSteps ++ ["alignTimestamps"])
    else (processedData, processingSteps) in
  '(processedData, processingSteps) ←
    (if bool_decide (opt_handleMissingValues options ≠ Some false)
     then filled ← handleMissingValues fuel processedData;
          Some (filled, processingSteps ++ ["handleMissingValues"])
     else Some (processedData, processingSteps));
  let '(processedData, processingSteps) :=
    if bool_decide (opt_removeOutliers options ≠ Some false)
    then
      let threshold := orDefaultR (opt_outlierThreshold options) 3 in
      (removeOutliers processedData threshold,
       processingSteps ++ ["removeOutliers"])
    else (processedData, processingSteps) in
  let '(processedData, processingSteps) :=
    if bool_decide (opt_normalize options = Some true)
    then (normalizeData processedData, processingSteps ++ ["normalize"])
    else (processedData, processingSteps) in
  Some (processedData, processingSteps).

(** [exports.handler] of process-market-data.  The text of a [TypeError] is
    the engine's; the model fixes one. *)
Definition processHandler (fuel : nat) (event : Event ProcessRequest)
    : option Response :=
  if String.eqb (httpMethod event) "OPTIONS" then
    Some (mkResponse 200 corsHeaders
            (MessageBody "CORS preflight request successful"))
  else if negb (String.eqb (httpMethod event) "POST") then
    Some (mkResponse 405 corsHeaders (ErrorBody "Method not allowed"))
  else
    match body event with
    | SyntaxError message =>
        Some (mkResponse 500 corsHeaders
                (InternalErrorBody "Internal server error" message))
    | BodyNull =>
        Some (mkResponse 500 corsHeaders
                (InternalErrorBody "Internal server error"
                   "Cannot destructure property 'data' of 'requestBody' as it is null."))
    | BodyValue request =>
        let data := process_data request in
        if negb (truthy data) || negb (isArray data) then
          Some (mkResponse 400 corsHeaders
                  (ValidationErrorBody "Missing or invalid data parameter"
                                       "Array of OHLCV data objects"))
        else
          match data, process_options request with
          | DataArray candles, Some options =>
              '(processedData, processingSteps) ←
                applyCleaning fuel options candles;
              Some (mkResponse 200 corsHeaders
                      (ProcessedBody (length candles) (length processedData)
                                     processingSteps processedData))
          | _, _ =>
              Some (mkResponse 500 corsHeaders
                      (InternalErrorBody "Internal server error"
                         "Cannot read properties of null (reading 'alignTimestamps')"))
          end
    end.


Section IndicatorHandler.

Context `{!TechnicalIndicators}.

(** A property read on [parameters]; reading a property of [null] throws. *)
Definition readParameters (parameters : option IndicatorParameters)
    : Outcome IndicatorParameters :=
  match parameters with
  | Some parameters => Returns parameters
  | None => Throws "Cannot read properties of null"
  end.

Definition numberSeries (values : list R) : list JsVal :=
  map (fun r => VNumber (Finite r)) values.

(** One turn of [for (const indicator of indicators)]: the [switch]. *)
Definition computeIndicator (data : list Candle)
    (parameters : option IndicatorParameters)
    (result : list (string * IndicatorValue)) (indicator : string)
    : Outcome (list (string * IndicatorValue)) :=
  let name := toLowerCase indicator in
  if String.eqb name "sma" then
    parameters ← readParameters parameters;
    values ← calculateSMA data (orDefault (smaPeriod parameters) 20);
    Returns (setProperty "sma" (Series values) result)
  else if String.eqb name "ema" then
    parameters ← readParameters parameters;
    values ← calculateEMA data (orDefault (emaPeriod parameters) 20);
    Returns (setProperty "ema" (Series values) result)
  else if String.eqb name "rsi" then
    parameters ← readParameters parameters;
    values ← calculateRSI data (orDefault (rsiPeriod parameters) 14);
    Returns (setProperty "rsi" (Series values) result)
  else if String.eqb name "macd" then
    parameters ← readParameters parameters;
    series ← calculateMACD data (orDefault (macdFastPeriod parameters) 12)
                           (orDefault (macdSlowPeriod parameters) 26)
                           (orDefault (macdSignalPeriod parameters) 9);
    Returns (setProperty "macd"
               (SubSeries [("macd", macd series); ("signal", signal series);
                           ("histogram", histogram series)]) result)
  else if String.eqb name "bollinger" then
    parameters ← readParameters parameters;
    series ← calculateBollingerBands data
               (orDefault (bollingerPeriod parameters) 20)
               (orDefaultR (bollingerStdDev parameters) 2);
    Returns (setProperty "bollinger"
               (SubSeries [("upper", upper series); ("middle", middle series);
                           ("lower", lower series)]) result)
  else if String.eqb name "atr" then
    parameters ← readParameters parameters;
    values ← calculateATR data (orDefault (atrPeriod parameters) 14);
    Returns (setProperty "atr" (Series values) result)
  else if String.eqb name "stochastic" then
    parameters ← readParameters parameters;
    series ← calculateStochastic data
               (orDefault (stochasticPeriod parameters) 14)
               (orDefault (stochasticSignalPeriod parameters) 3);
    Returns (setProperty "stochastic"
               (SubSeries [("k", k series); ("d", d series)]) result)
  else if String.eqb name "obv" then
    Returns (setProperty "obv" (Series (numberSeries (calculateOBV data)))
                         result)
  else if String.eqb name "returns" then
    Returns (setProperty "returns" (Series (calculateReturns data)) result)
  else Returns result.

Fixpoint computeIndicators (data : list Candle)
    (parameters : option IndicatorParameters) (requested : list string)
    (result : list (string * IndicatorValue))
    : Outcome (list (string * IndicatorValue)) :=
  match requested with
  | [] => Returns result
  | indicator :: rest =>
      result' ← computeIndicator data parameters result indicator;
      computeIndicators data parameters rest result'
  end.

(** The callback of [data.map((candle, index) => ...)]; a read past the end
    of a series is [undefined]. *)
Definition combineCandle (indicatorSeries : list (string * IndicatorValue))
    (index : nat) (candle : Candle) : CombinedCandle :=
  mkCombinedCandle candle
    (fold_left
       (fun combined '(indicatorName, indicatorValues) =>
          match indicatorValues with
          | Series values =>
              setProperty indicatorName (default VUndefined (values !! index))
                          combined
          | SubSeries entries =>
              fold_left
                (fun combined '(subName, subValues) =>
                   setProperty (indicatorName +:+ "_" +:+ subName)
                               (default VUndefined (subValues !! index))
                               combined)
                entries combined
          end)
       indicatorSeries []).

(** [exports.handler] of calculate-indicators. *)
Definition indicatorHandler (event : Event IndicatorRequest) : Response :=
  if String.eqb (httpMethod event) "OPTIONS" then
    mkResponse 200 corsHeaders (MessageBody "CORS preflight request successful")
  else if negb (String.eqb (httpMethod event) "POST") then
    mkResponse 405 corsHeaders (ErrorBody "Method not allowed")
  else
    match body event with
    | SyntaxError message =>
        mkResponse 500 corsHeaders
          (InternalErrorBody "Internal server error" message)
    | BodyNull =>
        mkResponse 500 corsHeaders
          (InternalErrorBody "Internal server error"
             "Cannot destructure property 'data' of 'requestBody' as it is null.")
    | BodyValue request =>
        let data := indicator_data request in
        if negb (truthy data) || negb (isArray data) then
          mkResponse 400 corsHeaders
            (ValidationErrorBody "Missing or invalid data parameter"
                                 "Array of OHLCV data objects")
        else
          let candles := match data with DataArray candles => candles | _ => [] end in
          let requested := default ["sma"; "ema"; "rsi"] (indicators request) in
          let parameters := indicator_parameters request in
          let outcome :=
            indicatorSeries ← computeIndicators candles parameters requested [];
            parameters ← readParameters parameters;
            Returns
              (IndicatorsBody candles indicatorSeries
                 (if bool_decide (combineWithData parameters = Some true)
                  then Some (imap (combineCandle indicatorSeries) candles)
                  else None)) in
          match outcome with
          | Returns result => mkResponse 200 corsHeaders result
          | Throws message =>
              mkResponse 500 corsHeaders
                (InternalErrorBody "Internal server error" message)
          end
    end.

End IndicatorHandler.

(** ** The fetch handler: [timeframeToMs], [initializeExchange], the chunked
    download *)

(** [parseInt(s)] without a radix, on ASCII text: leading white space and a
    sign are skipped, a [0x] prefix selects base 16, and the longest run of
    digits is read; [None] is [NaN] (no digit at all).  The value is exact
    (no rounding to a double). *)
Definition isWhiteSpace (c : Ascii.ascii) : bool :=
  let n := Ascii.nat_of_ascii c in
  ((9 <=? n) && (n <=? 13) || (n =? 32))%nat.

Fixpoint trimStart (s : string) : string :=
  match s with
  | EmptyString => EmptyString
  | String c rest => if isWhiteSpace c then trimStart rest else s
  end.

Definition digitValue (c : Ascii.ascii) : option Z :=
  let n := Z.of_nat (Ascii.nat_of_ascii c) in
  if (48 <=? n) && (n <=? 57) then Some (n - 48)
  else if (97 <=? n) && (n <=? 122) then Some (n - 87)
  else if (65 <=? n) && (n <=? 90) then Some (n - 55)
  else None.

Fixpoint parseDigits (radix : Z) (acc : option Z) (s : string) : option Z :=
  match s with
  | EmptyString => acc
  | String c rest =>
      match digitValue c with
      | Some digit =>
          if digit <? radix
          then parseDigits radix (Some (default 0 acc * radix + digit)) rest
          else acc
      | None => acc
      end
  end.

Definition parseInt (s : string) : option Z :=
  let s := trimStart s in
  let '(sign, s) :=
    match s with
    | String "-"%char rest => (-1, rest)
    | String "+"%char rest => (1, rest)
    | _ => (1, s)
    end in
  let '(radix, s) :=
    match s with
    | String "0"%char (String "x"%char rest)
    | String "0"%char (String "X"%char rest) => (16, rest)
    | _ => (10, s)
    end in
  Z.mul sign <$> parseDigits radix None s.

(** [s.slice(-1)] and [s.slice(0, -1)]. *)
Definition sliceLast (s : string) : string :=
  String.substring (String.length s - 1) 1 s.

Definition sliceInit (s : string) : string :=
  String.substring 0 (String.length s - 1) s.

(** [None] in the result is [NaN]: the product of a [NaN] count. *)
Definition timeframeToMs (timeframe : string) : Outcome (option Z) :=
  let unit := sliceLast timeframe in
  let value := parseInt (sliceInit timeframe) in
  if String.eqb unit "m" then Returns ((fun v => v * 60 * 1000) <$> value)
  else if String.eqb unit "h" then
    Returns ((fun v => v * 60 * 60 * 1000) <$> value)
  else if String.eqb unit "d" then
    Returns ((fun v => v * 24 * 60 * 60 * 1000) <$> value)
  else if String.eqb unit "w" then
    Returns ((fun v => v * 7 * 24 * 60 * 60 * 1000) <$> value)
  else Throws ("Invalid timeframe: " +:+ timeframe).

(** The exchange classes of the [ccxt] package the handler constructs. *)
Inductive ExchangeClass : Type :=
| Binance
| Bybit
| CoinbasePro
| Kraken.

(** A bar as [fetchOHLCV] returns it: [[timestamp, open, high, low, close,
    volume]]. *)
Definition Bar : Type := (Z * R * R * R * R * R)%type.

Definition barTimestamp (bar : Bar) : Z := bar.1.1.1.1.1.

(** What lies outside the handler during one request: whether a constructor
    of [ccxt] throws, the answer of the exchange to the call number [call]
    of [fetchOHLCV] with a given [since] ([null] is the empty list), and the
    answers to [fetchOrderBook] and [fetchTicker]. *)
Record ExchangeWorld : Type := mkExchangeWorld {
  construct : ExchangeClass -> Outcome unit;
  fetchOHLCV : nat -> Z -> Outcome (list Bar);
  fetchOrderBook : Outcome string;
  fetchTicker : Outcome string
}.

Definition initializeExchange (world : ExchangeWorld) (exchange : string)
    : Outcome ExchangeClass :=
  let attempt : Outcome ExchangeClass :=
    if String.eqb exchange "binance" then
      _ ← construct world Binance; Returns Binance
    else if String.eqb exchange "bybit" then
      _ ← construct world Bybit; Returns Bybit
    else if String.eqb exchange "coinbase" then
      _ ← construct world CoinbasePro; Returns CoinbasePro
    else if String.eqb exchange "kraken" then
      _ ← construct world Kraken; Returns Kraken
    else Throws ("Unsupported exchange: " +:+ exchange) in
  match attempt with
  | Returns exchangeInstance => Returns exchangeInstance
  | Throws message => Throws ("Failed to initialize exchange: " +:+ message)
  end.

(** A date of the request: the value sent and [new Date(value).getTime()],
    [None] for an invalid date ([NaN]). *)
Record DateParam : Type := mkDateParam {
  date_raw : string;
  date_time : option Z
}.

(** The body of a fetch request; [None] is a missing or falsy property. *)
Record FetchRequest : Type := mkFetchRequest {
  fetch_exchange : option string;
  fetch_symbol : option string;
  fetch_timeframe : option string;
  fetch_startDate : option DateParam;
  fetch_endDate : option DateParam;
  fetch_includeOrderbook : bool;
  fetch_includeTickers : bool
}.

(** [s] read as a condition: the empty string is falsy. *)
Definition nonEmpty (s : option string) : option string :=
  match s with
  | Some text => if String.eqb text "" then None else Some text
  | None => None
  end.

(** The [while (currentSince < until)] loop.  [currentSince] is [None] when
    it has become [NaN]; [call] counts the requests made.  [None] as a
    result: the loop has not ended within [fuel] turns. *)
Fixpoint fetchChunks (world : ExchangeWorld) (until : option Z)
    (timeframeMs : option Z) (fuel call : nat) (allCandles : list Bar)
    (currentSince : option Z) : option (Outcome (list Bar)) :=
  match currentSince, until with
  | Some current, Some untilTime =>
      if current <? untilTime then
        match fuel with
        | O => None
        | S fuel' =>
            match fetchOHLCV world call current with
            | Throws message => Some (Throws message)
            | Returns candles =>
                match last candles with
                | Some lastCandle =>
                    fetchChunks world until timeframeMs fuel' (S call)
                      (allCandles ++ candles)
                      ((fun tf => barTimestamp lastCandle + tf) <$> timeframeMs)
                | None =>
                    fetchChunks world until timeframeMs fuel' (S call)
                      allCandles
                      ((fun tf => current + 1000 * tf) <$> timeframeMs)
                end
            end
        end
      else Some (Returns allCandles)
  | _, _ => Some (Returns allCandles)
  end.

(** [orderBookData] and [tickerData]: [null], the answer, or
    [{ error: message }]. *)
Inductive Optional : Type :=
| NotRequested
| Answer (payload : string)
| Failed (error : string).

Definition optionalFetch (requested : bool) (answer : Outcome string)
    : Optional :=
  if requested then
    match answer with
    | Returns payload => Answer payload
    | Throws message => Failed message
    end
  else NotRequested.

(** The callback of [allCandles.map]. *)
Definition formatCandle (candle : Bar) : Candle :=
  let '(t, o, h, l, c, v) := candle in
  mkCandle t (toISOString t) o h l c v None None None None None None None None.

(** The body of the fetch responses. *)
Inductive FetchBody : Type :=
| FetchMessage (message : string)
| FetchError (error : string)
| FetchMissingParameters (error : string) (requiredParams : list string)
| FetchInternalError (error : string) (message : string)
| FetchedData (exchange symbol timeframe startDate endDate : string)
              (dataPoints : nat) (ohlcv : list Candle)
              (orderBook ticker : Optional).

Record FetchResponse : Type := mkFetchResponse {
  fetch_statusCode : nat;
  fetch_headers : list (string * string);
  fetch_body : FetchBody
}.

(** [exports.handler] of fetch-market-data.  [None]: the download loop has
    not ended within [fuel] turns. *)
Definition fetchHandler (world : ExchangeWorld) (fuel : nat)
    (event : Event FetchRequest) : option FetchResponse :=
  if String.eqb (httpMethod event) "OPTIONS" then
    Some (mkFetchResponse 200 corsHeaders
            (FetchMessage "CORS preflight request successful"))
  else if negb (String.eqb (httpMethod event) "POST") then
    Some (mkFetchResponse 405 corsHeaders (FetchError "Method not allowed"))
  else
    let internalError message :=
      Some (mkFetchResponse 500 corsHeaders
              (FetchInternalError "Internal server error" message)) in
    match body event with
    | SyntaxError message => internalError message
    | BodyNull =>
        internalError
          "Cannot destructure property 'exchange' of 'requestBody' as it is null."
    | BodyValue request =>
        match nonEmpty (fetch_exchange request), nonEmpty (fetch_symbol request),
              nonEmpty (fetch_timeframe request), fetch_startDate request,
              fetch_endDate request with
        | Some exchange, Some symbol, Some timeframe, Some startDate,
          Some endDate =>
            match initializeExchange world exchange with
            | Throws message => internalError message
            | Returns _ =>
                let since := date_time startDate in
                let until := date_time endDate in
                match timeframeToMs timeframe with
                | Throws message => internalError message
                | Returns timeframeMs =>
                    downloaded ← fetchChunks world until timeframeMs fuel 0 []
                                             since;
                    match downloaded with
                    | Throws message => internalError message
                    | Returns allCandles =>
                        let orderBookData :=
                          optionalFetch (fetch_includeOrderbook request)
                                        (fetchOrderBook world) in
                        let tickerData :=
                          optionalFetch (fetch_includeTickers request)
                                        (fetchTicker world) in
                        let formattedCandles := map formatCandle allCandles in
                        Some (mkFetchResponse 200 corsHeaders
                                (FetchedData exchange symbol timeframe
                                   (date_raw startDate) (date_raw endDate)
                                   (length formattedCandles) formattedCandles
                                   orderBookData tickerData))
                    end
                end
            end
        | _, _, _, _, _ =>
            Some (mkFetchResponse 400 corsHeaders
                    (FetchMissingParameters "Missing required parameters"
                       ["exchange"; "symbol"; "timeframe"; "startDate";
                        "endDate"]))
        end
    end.

(** ** Loops over chunks of an array: [storeInFirestore]
    (store-market-data.js), [processArrayInChunks] and [optimizeChartData]
    (utils/performance.js) *)

(** [array.slice(from, to)] for [0 <= from]. *)
Definition arraySlice {A : Type} (from to : nat) (array : list A) : list A :=
  take (to - from) (drop from array).

(** [Math.ceil(n / k)] for a length [n] and a positive [k]. *)
Definition ceilDiv (n k : nat) : nat :=
  if (n mod k =? 0)%nat then (n / k)%nat else (n / k + 1)%nat.

(** *** [storeInFirestore] *)

Definition chunkSize : nat := 500.

(** A document of the [chunks] sub-collection. *)
Record ChunkDocument (A : Type) : Type := mkChunkDocument {
  chunk_data : list A;
  chunk_index : nat;
  chunk_count : nat
}.
Arguments mkChunkDocument {A} _ _ _.
Arguments chunk_data {A} _.
Arguments chunk_index {A} _.
Arguments chunk_count {A} _.

(** The [for (let i = 0; i < data.length; i += chunkSize)] loop on the
    [chunks] sub-collection of the dataset, a map from document ids to
    documents; [.doc(id).set(d)] replaces the document of that id.  The id
    is the decimal string of [i / chunkSize + 1], kept here as that number
    ([i] is a multiple of [chunkSize]).  The writes are taken to succeed.
    [None]: the loop has not ended within [fuel] turns. *)
Fixpoint storeChunks {A : Type} (fuel : nat) (data : list A) (i : nat)
    (chunks : gmap nat (ChunkDocument A))
    : option (gmap nat (ChunkDocument A)) :=
  if (i <? length data)%nat then
    match fuel with
    | O => None
    | S fuel' =>
        let chunk := arraySlice i (i + chunkSize) data in
        let chunkId := (i / chunkSize + 1)%nat in
        storeChunks fuel' data (i + chunkSize)
          (<[chunkId := mkChunkDocument chunk i (length chunk)]> chunks)
    end
  else Some chunks.

(** The sub-collection after the call and the [chunks] count of the value
    returned; [existing] is the sub-collection before the call (not empty
    when [metadata.id] names a dataset stored before).  The dataset document
    written first (the metadata, [recordCount], [status]) is left out. *)
Definition storeInFirestore {A : Type} (fuel : nat) (data : list A)
    (existing : gmap nat (ChunkDocument A))
    : option (gmap nat (ChunkDocument A) * nat) :=
  chunks ← storeChunks fuel data 0 existing;
  Some (chunks, ceilDiv (length data) chunkSize).

(** *** [processArrayInChunks] *)

(** [await Promise.all(chunk.map(processFunc))]: the values when every call
    resolves, [None] when one is rejected (the reason is not modelled).
    [processFunc] is read as a function of the item alone; [map] also hands
    it the index within the chunk. *)
Definition promiseAll {A B : Type} (processFunc : A -> option B)
    (chunk : list A) : option (list B) :=
  mapM processFunc chunk.

(** The outer [option] is the fuel of the loop, the inner one the rejection
    of the promise returned.  The delay between chunks changes no value. *)
Fixpoint processChunks {A B : Type} (processFunc : A -> option B)
    (chunkSize : nat) (fuel : nat) (array : list A) (i : nat)
    (results : list B) : option (option (list B)) :=
  if (i <? length array)%nat then
    match fuel with
    | O => None
    | S fuel' =>
        let chunk := arraySlice i (i + chunkSize) array in
        match promiseAll processFunc chunk with
        | None => Some None
        | Some chunkResults =>
            processChunks processFunc chunkSize fuel' array (i + chunkSize)
              (results ++ chunkResults)
        end
    end
  else Some (Some results).

(** [chunkSize] defaults to 100. *)
Definition processArrayInChunks {A B : Type} (fuel : nat) (array : list A)
    (processFunc : A -> option B) (chunkSize : option nat)
    : option (option (list B)) :=
  processChunks processFunc (default 100%nat chunkSize) fuel array 0 [].

(** *** [optimizeChartData] *)

(** The representative candle of an interval; its extremes start from the
    infinities. *)
Record ChartCandle : Type := mkChartCandle {
  chart_timestamp : Z;
  chart_datetime : string;
  chart_open : R;
  chart_high : JsNum;
  chart_low : JsNum;
  chart_close : R;
  chart_volume : R
}.

(** The body of the loop for one chunk: [None] when [chunk.length > 0]
    fails and nothing is pushed. *)
Definition representative (chunk : list Candle) : option ChartCandle :=
  match head chunk, last chunk with
  | Some first, Some lastCandle =>
      let highestHigh :=
        fold_left (fun highestHigh candle => js_max highestHigh (high candle))
                  chunk NegInfinity in
      let lowestLow :=
        fold_left (fun lowestLow candle => js_min lowestLow (low candle))
                  chunk PosInfinity in
      let totalVolume :=
        fold_left (fun totalVolume candle => (totalVolume + volume candle)%R)
                  chunk 0%R in
      Some (mkChartCandle (timestamp first) (datetime first) (open first)
                          highestHigh lowestLow (close lastCandle) totalVolume)
  | _, _ => None
  end.

(** [Math.ceil(data.length / maxPoints)] for a non-empty [data]: [None] is
    [Infinity], the quotient by 0. *)
Definition samplingInterval (n maxPoints : nat) : option nat :=
  if (maxPoints =? 0)%nat then None else Some (ceilDiv n maxPoints).

(** The sampling loop.  With an infinite interval the first chunk is the
    whole array and [i] becomes [Infinity], which ends the loop. *)
Fixpoint sampleChunks (fuel : nat) (data : list Candle) (interval : option nat)
    (i : nat) (sampledData : list ChartCandle) : option (list ChartCandle) :=
  if (i <? length data)%nat then
    match fuel with
    | O => None
    | S fuel' =>
        let stop := match interval with
                    | Some step => Nat.min (i + step) (length data)
                    | None => length data
                    end in
        let chunk := arraySlice i stop data in
        let sampledData' := match representative chunk with
                            | Some candle => sampledData ++ [candle]
                            | None => sampledData
                            end in
        match interval with
        | Some step => sampleChunks fuel' data interval (i + step) sampledData'
        | None => Some sampledData'
        end
    end
  else Some sampledData.

(** What the chart is given: the candles as they were, or the sampled
    ones. *)
Inductive ChartData : Type :=
  | Unchanged (data : list Candle)
  | Sampled (sampledData : list ChartCandle).

(** [maxPoints], a count, defaults to 1000.  The memoization around the
    function changes no value. *)
Definition optimizeChartData (fuel : nat) (data : list Candle)
    (maxPoints : option nat) : option ChartData :=
  let maxPoints := default 1000%nat maxPoints in
  if (length data <=? maxPoints)%nat then Some (Unchanged data)
  else
    Sampled <$> sampleChunks fuel data
                  (samplingInterval (length data) maxPoints) 0 [].

(** * Vocabulary of the statements and sample inputs *)

(** ** Timestamps *)

(** How many times [d] occurs in [l]. *)
Definition occurrences (d : Z) (l : list Z) : nat :=
  length (filter (fun x => x = d) l).

(** [l] read as the timestamps of consecutive candles: every step is
    exactly [timeframe]. *)
Definition stepsBy (timeframe : Z) (l : list Z) : Prop :=
  forall (i : nat) (a b : Z),
    l !! i = Some a -> l !! S i = Some b -> b - a = timeframe.

(** The order the sort establishes. *)
Definition timestampLe (a b : Candle) : Prop := timestamp a <= timestamp b.

(** [n] timestamps from [start] at stride [timeframe]. *)
Definition timestampGrid (start timeframe : Z) (n : nat) : list Z :=
  map (fun j : nat => start + Z.of_nat j * timeframe) (seq 0 n).

(** What position [i] of the filled sequence holds for the expected
    timestamp [t]: the candle of the map, or else the forward fill of the
    candle just before it in the output. *)
Definition filledAt (dataMap : gmap Z Candle) (out : list Candle) (i : nat)
    (t : Z) : Prop :=
  match dataMap !! t with
  | Some candle => out !! i = Some candle
  | None =>
      exists previous,
        (0 < i)%nat /\ out !! (i - 1)%nat = Some previous /\
        out !! i = Some (forwardFill previous t)
  end.

(** ** Sample inputs *)

(** A raw candle, as the exchange collaborator formats it. *)
Definition rawCandle (t : Z) (o h l c v : R) : Candle :=
  mkCandle t (toISOString t) o h l c v None None None None None None None None.

(** Hourly candles from 00:00 to 04:00, the 02:00 one missing. *)
Definition hourlyWithGap : list Candle :=
  [rawCandle 0 100 105 98 102 10;
   rawCandle 3600000 102 108 101 106 12;
   rawCandle 10800000 106 109 104 107 8;
   rawCandle 14400000 107 110 105 108 9].

(** A sequence whose fourth candle is off the hourly grid of the others. *)
Definition hourlyWithStray : list Candle :=
  [rawCandle 0 100 105 98 102 10;
   rawCandle 3600000 102 108 101 106 12;
   rawCandle 7200000 106 109 104 107 8;
   rawCandle 9000000 107 110 105 108 9;
   rawCandle 10800000 108 111 106 109 7].

(** Timestamps 1, 4, 5: the deltas 3 and 1 give timeframe 3, and so do the
    deltas 3 and 0 of the aligned timestamps 0, 3, 3. *)
Definition driftingCandles : list Candle :=
  [rawCandle 1 100 105 98 102 10;
   rawCandle 4 102 108 101 106 12;
   rawCandle 5 106 109 104 107 8].

(** Timestamps 0, 2, 7, 10: the deltas 2, 5, 3 give timeframe 2; the aligned
    timestamps 0, 2, 6, 10 have deltas 2, 4, 4, which give timeframe 4. *)
Definition unevenCandles : list Candle :=
  [rawCandle 0 100 105 98 102 10;
   rawCandle 2 102 108 101 106 12;
   rawCandle 7 106 109 104 107 8;
   rawCandle 10 107 110 105 108 9].

(** Sixteen quiet candles and one whose high and low both lie four standard
    deviations from their means. *)
Definition spikeData : list Candle :=
  map (fun i : nat => rawCandle (Z.of_nat i * 3600000) 19 20 18 19 1) (seq 0 16)
  ++ [rawCandle 57600000 19 37 1 19 1].

(** ** Candle fields and series shapes *)

(** Every field of a candle but [originalTimestamp]. *)
Definition forgetOriginalTimestamp (candle : Candle) : Candle :=
  mkCandle (timestamp candle) (datetime candle) (open candle) (high candle)
           (low candle) (close candle) (volume candle) (interpolated candle)
           (outlierCorrected candle) None
           (normalizedOpen candle) (normalizedHigh candle)
           (normalizedLow candle) (normalizedClose candle)
           (normalizedVolume candle).


(** [series] is [values] left-padded with [null] to [dataLength]. *)
Definition leftPadded (dataLength : nat) (values series : list JsVal) : Prop :=
  length series = dataLength /\
  (forall i, (i < dataLength - length values)%nat -> series !! i = Some VNull) /\
  drop (dataLength - length values) series = values.

(** The shape of an indicator series: empty below the minimum required
    length, left-padded to the input length from it on. *)
Definition alignedOrEmpty (dataLength minimum : nat)
    (values series : list JsVal) : Prop :=
  if (dataLength <? minimum)%nat then series = []
  else leftPadded dataLength values series.

(** The periods the engine is called with. *)
Record Periods : Type := mkPeriods {
  period_sma : nat;
  period_ema : nat;
  period_rsi : nat;
  period_macdFast : nat;
  period_macdSlow : nat;
  period_macdSignal : nat;
  period_bollinger : nat;
  width_bollinger : R;
  period_atr : nat;
  period_stochastic : nat;
  period_stochasticSignal : nat
}.

(** No library call returns more values than there are candles. *)
Definition libraryWithinInput `{!TechnicalIndicators} (data : list Candle)
    (p : Periods) : Prop :=
  let closes := map close data in
  let highs := map high data in
  let lows := map low data in
  (length (SMA_calculate (period_sma p) closes) <= length data)%nat /\
  (length (EMA_calculate (period_ema p) closes) <= length data)%nat /\
  (length (RSI_calculate (period_rsi p) closes) <= length data)%nat /\
  (length (MACD_calculate (period_macdFast p) (period_macdSlow p)
                          (period_macdSignal p) closes) <= length data)%nat /\
  (length (BollingerBands_calculate (period_bollinger p) (width_bollinger p)
                                    closes) <= length data)%nat /\
  (length (ATR_calculate (period_atr p) highs lows closes) <= length data)%nat /\
  (length (Stochastic_calculate (period_stochastic p)
                                (period_stochasticSignal p) highs lows closes)
   <= length data)%nat.

(** Periods short enough for four candles. *)
Definition shortPeriods : Periods := mkPeriods 2 2 2 1 2 2 2 2 2 2 2.

(** A request body without [options] and one without [parameters]: the
    defaults [{}] of the destructuring. *)
Definition defaultOptions : ProcessingOptions :=
  mkProcessingOptions None None None None None.

Definition defaultParameters : IndicatorParameters :=
  mkIndicatorParameters None None None None None None None None None None
                        None None.

(** The 400 response of both handlers. *)
Definition validationError : Response :=
  mkResponse 400 corsHeaders
             (ValidationErrorBody "Missing or invalid data parameter"
                                  "Array of OHLCV data objects").

Local Open Scope R_scope.

(** [m] is the least (greatest) value of [field] over the batch. *)
Definition batchMin (field : Candle -> R) (data : list Candle) (m : R) : Prop :=
  (forall c, c ∈ data -> m <= field c) /\ exists c, c ∈ data /\ field c = m.

Definition batchMax (field : Candle -> R) (data : list Candle) (m : R) : Prop :=
  (forall c, c ∈ data -> field c <= m) /\ exists c, c ∈ data /\ field c = m.


(** The OBV recurrence at index [i]. *)
Definition obvStepHolds (data : list Candle) (obv : list R) (i : nat) : Prop :=
  exists previous current obvPrevious obvCurrent,
    data !! (i - 1)%nat = Some previous /\ data !! i = Some current /\
    obv !! (i - 1)%nat = Some obvPrevious /\ obv !! i = Some obvCurrent /\
    (close previous < close current ->
     obvCurrent - obvPrevious = volume current) /\
    (close current < close previous ->
     obvCurrent - obvPrevious = - volume current) /\
    (close current = close previous -> obvCurrent - obvPrevious = 0).

Local Close Scope R_scope.

(** ** A textbook implementation of the indicator interface

    Used to instantiate the statements about the engine at concrete inputs:
    moving averages over windows, Wilder's smoothing for RSI and ATR, the
    EMA difference for MACD, mean plus or minus deviations for the bands,
    and the position of the close in the window range for the oscillator. *)

Module Textbook.

Local Open Scope R_scope.

Definition number (r : R) : JsVal := VNumber (Finite r).

Definition sumList (l : list R) : R := foldr Rplus 0 l.

Definition mean (l : list R) : R := sumList l / INR (length l).

Definition maxList (l : list R) : R :=
  match l with
  | [] => 0
  | x :: rest => foldr Rmax x rest
  end.

Definition minList (l : list R) : R :=
  match l with
  | [] => 0
  | x :: rest => foldr Rmin x rest
  end.

(** The runs of [period] consecutive elements. *)
Definition windows {A : Type} (period : nat) (values : list A)
    : list (list A) :=
  match period with
  | O => []
  | _ => map (fun i => take period (drop i values))
             (seq 0 (length values + 1 - period))
  end.

(** A recurrence [next = step previous value] run along [values]. *)
Fixpoint smooth (step : R -> R -> R) (previous : R) (values : list R)
    : list R :=
  match values with
  | [] => []
  | v :: rest =>
      let next := step previous v in
      next :: smooth step next rest
  end.

(** A smoothed average seeded with the mean of the first [period] values. *)
Definition seeded (step : R -> R -> R) (period : nat) (values : list R)
    : list R :=
  if ((period =? 0) || (length values <? period))%nat then []
  else
    let seed := mean (take period values) in
    seed :: smooth step seed (drop period values).

Definition emaValues (period : nat) (values : list R) : list R :=
  seeded (fun previous v => (v - previous) * (2 / (INR period + 1)) + previous)
         period values.

Definition wilder (period : nat) (values : list R) : list R :=
  seeded (fun previous v => (previous * (INR period - 1) + v) / INR period)
         period values.

Definition changes (values : list R) : list R :=
  zip_with (fun previous current => current - previous) values (drop 1 values).

Definition SMA (period : nat) (values : list R) : list JsVal :=
  map (fun w => number (mean w)) (windows period values).

Definition EMA (period : nat) (values : list R) : list JsVal :=
  map number (emaValues period values).

Definition RSI (period : nat) (values : list R) : list JsVal :=
  let gains := map (fun c => Rmax c 0) (changes values) in
  let losses := map (fun c => Rmax (- c) 0) (changes values) in
  zip_with (fun gain loss =>
              if Reqb loss 0 then number 100
              else number (100 - 100 / (1 + gain / loss)))
           (wilder period gains) (wilder period losses).

Definition MACD (fastPeriod slowPeriod signalPeriod : nat) (values : list R)
    : list MACDOutput :=
  let fast := emaValues fastPeriod values in
  let slow := emaValues slowPeriod values in
  let macdLine :=
    zip_with Rminus (drop (slowPeriod - fastPeriod) fast) slow in
  let signalLine :=
    replicate (signalPeriod - 1) None
    ++ map Some (emaValues signalPeriod macdLine) in
  zip_with (fun m s =>
              match s with
              | Some s => mkMACDOutput (number m) (number s) (number (m - s))
              | None => mkMACDOutput (number m) VUndefined VUndefined
              end)
           macdLine signalLine.

Definition BollingerBands (period : nat) (stdDev : R) (values : list R)
    : list BollingerBandsOutput :=
  map (fun w =>
         let m := mean w in
         let deviation := sqrt (mean (map (fun x => (x - m) ^ 2) w)) in
         mkBollingerBandsOutput (number (m + stdDev * deviation)) (number m)
                                (number (m - stdDev * deviation)))
      (windows period values).

Definition trueRanges (highs lows closes : list R) : list R :=
  zip_with (fun '(h, l) previousClose =>
              Rmax (h - l) (Rmax (Rabs (h - previousClose))
                                 (Rabs (l - previousClose))))
           (drop 1 (zip highs lows)) closes.

Definition ATR (period : nat) (highs lows closes : list R) : list JsVal :=
  map number (wilder period (trueRanges highs lows closes)).

(** [%K] of one window of (high, low, close) bars. *)
Definition percentK (w : list (R * R * R)) : JsNum :=
  let highest := maxList (map (fun bar => bar.1.1) w) in
  let lowest := minList (map (fun bar => bar.1.2) w) in
  let lastClose := default 0 (last (map (fun bar => bar.2) w)) in
  js_times (js_div (lastClose - lowest) (highest - lowest)) 100.

(** The mean of finite numbers, [NaN] when one of them is not finite. *)
Definition meanNum (l : list JsNum) : JsNum :=
  match mapM (fun n => match n with Finite r => Some r | _ => None end) l with
  | Some rs => Finite (mean rs)
  | None => NaN
  end.

Definition Stochastic (period signalPeriod : nat) (highs lows closes : list R)
    : list StochasticOutput :=
  let ks := map percentK (windows period (zip (zip highs lows) closes)) in
  let ds :=
    replicate (signalPeriod - 1) VUndefined
    ++ map (fun w => VNumber (meanNum w)) (windows signalPeriod ks) in
  zip_with (fun kValue dValue => mkStochasticOutput (VNumber kValue) dValue)
           ks ds.

Definition library : TechnicalIndicators :=
  Build_TechnicalIndicators SMA EMA RSI MACD BollingerBands ATR Stochastic.

End Textbook.

(** ** Vocabulary and sample inputs of the further properties *)

(** Two candles stamped 01:00; the second one is kept. *)
Definition duplicatedHour : list Candle :=
  [rawCandle 0 100 105 98 102 10;
   rawCandle 3600000 102 108 101 106 12;
   rawCandle 3600000 103 109 102 107 13;
   rawCandle 7200000 106 109 104 107 8].

(** Three candles out of order, two of them at the same instant: the deltas
    of the sorted sequence are 0 and 5, and 0 comes first. *)
Definition simultaneousCandles : list Candle :=
  [rawCandle 5 106 109 104 107 8;
   rawCandle 0 100 105 98 102 10;
   rawCandle 0 102 108 101 106 12].

(** The names the [switch] of the handler knows. *)
Definition supportedIndicators : list string :=
  ["sma"; "ema"; "rsi"; "macd"; "bollinger"; "atr"; "stochastic"; "obv";
   "returns"].

(** The steps the options enable, in the order of the pipeline. *)
Definition expectedSteps (options : ProcessingOptions) : list string :=
  (if bool_decide (opt_alignTimestamps options ≠ Some false)
   then ["alignTimestamps"] else [])
  ++ (if bool_decide (opt_handleMissingValues options ≠ Some false)
      then ["handleMissingValues"] else [])
  ++ (if bool_decide (opt_removeOutliers options ≠ Some false)
      then ["removeOutliers"] else [])
  ++ (if bool_decide (opt_normalize options = Some true)
      then ["normalize"] else []).



(** The exchange never answers with bars that end before the requested
    start. *)
Definition answersFromSince (world : ExchangeWorld) : Prop :=
  forall (call : nat) (since : Z) (candles : list Bar) (lastBar : Bar),
    fetchOHLCV world call since = Returns candles ->
    last candles = Some lastBar ->
    since <= barTimestamp lastBar.

(** A well-behaved exchange: two hourly bars from the start asked for. *)
Definition hourlyWorld : ExchangeWorld :=
  mkExchangeWorld
    (fun _ => Returns tt)
    (fun _ since =>
       Returns [(since, 100%R, 105%R, 98%R, 102%R, 10%R);
                (since + 3600000, 102%R, 108%R, 101%R, 106%R, 12%R)])
    (Returns "{}") (Throws "ticker unavailable").

(** An exchange that ignores the start asked for. *)
Definition deafWorld : ExchangeWorld :=
  mkExchangeWorld
    (fun _ => Returns tt)
    (fun _ _ => Returns [(0, 100%R, 105%R, 98%R, 102%R, 10%R)])
    (Returns "{}") (Returns "{}").

(** The names [initializeExchange] knows. *)
Definition supportedExchanges : list string :=
  ["binance"; "bybit"; "coinbase"; "kraken"].

(** ** Vocabulary of the chunked loops *)

(** The document the loop writes under [id]. *)
Definition chunkDocument {A : Type} (data : list A) (id : nat)
    : ChunkDocument A :=
  let index := (chunkSize * (id - 1))%nat in
  let chunk := arraySlice index (index + chunkSize) data in
  mkChunkDocument chunk index (length chunk).

(** The chunks of [size] items the loops cut an array into. *)
Definition chunksOf {A : Type} (size : nat) (array : list A) : list (list A) :=
  map (fun j => arraySlice (size * j) (size * j + size) array)
      (seq 0 (ceilDiv (length array) size)).

(** The volume traded over the candles. *)
Definition totalVolume (data : list Candle) : R :=
  fold_left (fun total candle => (total + volume candle)%R) data 0%R.

Definition sampledVolume (sampledData : list ChartCandle) : R :=
  fold_left (fun total candle => (total + chart_volume candle)%R)
            sampledData 0%R.

(** A 5-candle series. *)
Definition fiveCandles : list Candle :=
  [rawCandle 0 100 105 98 102 10;
   rawCandle 60000 102 108 101 106 12;
   rawCandle 120000 106 109 104 107 8;
   rawCandle 180000 107 111 103 104 9;
   rawCandle 240000 104 106 99 100 11].

(** A sampled series that holds one representative for each chunk. *)
Definition representatives (chunks : list (list Candle))
    (sampledData : list ChartCandle) : Prop :=
  Forall2 (fun chunk candle => representative chunk = Some candle)
          chunks sampledData.


(** * Properties *)

(** ** Dates *)

Example toISOString_epoch : toISOString 0 = "1970-01-01T00:00:00.000Z".
Proof. reflexivity. Qed.

Example toISOString_2023 :
  toISOString 1700000000123 = "2023-11-14T22:13:20.123Z".
Proof. vm_compute. reflexivity. Qed.

Example toISOString_before_epoch :
  toISOString (-1) = "1969-12-31T23:59:59.999Z".
Proof. vm_compute. reflexivity. Qed.

Example toISOString_leap_day :
  toISOString 951782400000 = "2000-02-29T00:00:00.000Z".
Proof. vm_compute. reflexivity. Qed.

(** ** Timeframe inference *)

Lemma omap_all_Some {A B : Type} (f : A -> option B) (g : A -> B) (l : list A) :
  (forall x, x ∈ l -> f x = Some (g x)) -> omap f l = map g l.
Proof.
  induction l as [|x l IH]; intros Hall; [reflexivity|].
  cbn. rewrite (Hall x) by (left; reflexivity). cbn.
  f_equal. apply IH. intros y Hy. apply Hall. by right.
Qed.

(** Every read of the first loop is in range, so it is a plain [map]. *)
Lemma timestampDifferences_map (data : list Candle) :
  timestampDifferences data =
  map (fun i : nat =>
         match data !! i, data !! (i - 1)%nat with
         | Some cur, Some prev => timestamp cur - timestamp prev
         | _, _ => 0
         end)
      (seq 1 (Nat.min (length data) 10 - 1)).
Proof.
  unfold timestampDifferences. apply omap_all_Some.
  intros i Hi. apply elem_of_seq in Hi.
  destruct (lookup_lt_is_Some_2 data i) as [cur Hcur]; [lia|].
  destruct (lookup_lt_is_Some_2 data (i - 1)) as [prev Hprev]; [lia|].
  by rewrite Hcur, Hprev.
Qed.

Lemma timestampDifferences_length (data : list Candle) :
  length (timestampDifferences data) = (Nat.min (length data) 10 - 1)%nat.
Proof.
  rewrite timestampDifferences_map. by rewrite length_map, length_seq.
Qed.

Lemma timestampDifferences_lookup (data : list Candle) (i : nat) :
  (i < Nat.min (length data) 10 - 1)%nat ->
  exists prev cur,
    data !! i = Some prev /\ data !! S i = Some cur /\
    timestampDifferences data !! i = Some (timestamp cur - timestamp prev).
Proof.
  intros Hi.
  destruct (lookup_lt_is_Some_2 data i) as [prev Hprev]; [lia|].
  destruct (lookup_lt_is_Some_2 data (S i)) as [cur Hcur]; [lia|].
  exists prev, cur. split; [done|]. split; [done|].
  rewrite timestampDifferences_map.
  rewrite list_lookup_fmap, lookup_seq_lt by done. cbn.
  replace (i - 0)%nat with i by lia.
  by rewrite Hcur, Hprev.
Qed.

Lemma occurrences_snoc (d x : Z) (l : list Z) :
  occurrences d (l ++ [x]) =
  (occurrences d l + if decide (x = d) then 1 else 0)%nat.
Proof.
  unfold occurrences. rewrite filter_app, length_app. f_equal.
  rewrite filter_cons, filter_nil. by destruct (decide (x = d)).
Qed.

Lemma occurrences_pos_elem (d : Z) (l : list Z) :
  (0 < occurrences d l)%nat -> d ∈ l.
Proof.
  unfold occurrences. intros Hpos.
  destruct (filter (fun x => x = d) l) as [|y ys] eqn:Hf; [cbn in Hpos; lia|].
  assert (Hy : y ∈ filter (fun x => x = d) l) by (rewrite Hf; left).
  apply list_elem_of_filter in Hy as [-> Hy]. exact Hy.
Qed.

(** The invariant of the mode search after the differences [l]. *)
Lemma countDifference_invariant (l : list Z) (seed : option Z) :
  let st := fold_left countDifference l (mkModeState ∅ 0 seed) in
  (forall d, default 0%nat (differenceCounts st !! d) = occurrences d l) /\
  (forall d, (occurrences d l <= maxCount st)%nat) /\
  ((l = [] /\ mostCommonDiff st = seed) \/
   exists d, mostCommonDiff st = Some d /\ occurrences d l = maxCount st /\
             (0 < maxCount st)%nat).
Proof.
  induction l as [|x l IH] using rev_ind; cbn zeta.
  - cbn. split; [|split]; [intros d; by rewrite lookup_empty|intros; lia|by left].
  - rewrite fold_left_app. cbn [fold_left].
    set (st := fold_left countDifference l (mkModeState ∅ 0 seed)) in *.
    cbn zeta in IH. destruct IH as (Hcounts & Hmax & Hbest).
    assert (Hx : (default 0 (differenceCounts st !! x) + 1)%nat
                 = occurrences x (l ++ [x])).
    { rewrite occurrences_snoc, Hcounts. by rewrite decide_True. }
    assert (Hcounts' : forall d,
              default 0%nat (<[x := (default 0 (differenceCounts st !! x) + 1)%nat]>
                               (differenceCounts st) !! d)
              = occurrences d (l ++ [x])).
    { intros d. destruct (decide (x = d)) as [->|Hne].
      - by rewrite lookup_insert_eq.
      - rewrite lookup_insert_ne by done. rewrite occurrences_snoc, Hcounts.
        rewrite decide_False by done. lia. }
    unfold countDifference.
    destruct (maxCount st <? default 0 (differenceCounts st !! x) + 1)%nat eqn:Hlt.
    + apply Nat.ltb_lt in Hlt. cbn. split; [exact Hcounts'|]. split.
      * intros d. rewrite occurrences_snoc. specialize (Hmax d).
        destruct (decide (x = d)) as [->|]; [rewrite Hcounts|]; lia.
      * right. exists x. split; [done|]. split; [by rewrite Hx|lia].
    + apply Nat.ltb_ge in Hlt. cbn. split; [exact Hcounts'|]. split.
      * intros d. rewrite occurrences_snoc. specialize (Hmax d).
        destruct (decide (x = d)) as [->|]; [rewrite Hcounts in Hlt|]; lia.
      * right. destruct Hbest as [[-> _]|(d & Hd & Hocc & Hpos)].
        { exfalso. rewrite Hcounts in Hlt. cbn in Hlt.
          specialize (Hmax x). cbn in Hmax. lia. }
        exists d. split; [done|]. split; [|done].
        rewrite occurrences_snoc. destruct (decide (x = d)) as [->|]; [|lia].
        rewrite Hcounts in Hlt. lia.
Qed.

Lemma getTimeframeFromData_short (data : list Candle) :
  (length data < 2)%nat -> getTimeframeFromData data = None.
Proof.
  intros Hlen. unfold getTimeframeFromData.
  by rewrite (proj2 (Nat.ltb_lt _ _) Hlen).
Qed.

(** On two candles or more the result is a mode of the sampled deltas. *)
Lemma getTimeframeFromData_mode (data : list Candle) :
  (2 <= length data)%nat ->
  exists timeframe,
    getTimeframeFromData data = Some timeframe /\
    timeframe ∈ timestampDifferences data /\
    forall d, (occurrences d (timestampDifferences data)
               <= occurrences timeframe (timestampDifferences data))%nat.
Proof.
  intros Hlen. unfold getTimeframeFromData.
  rewrite (proj2 (Nat.ltb_ge _ _) Hlen). cbn zeta.
  pose proof (timestampDifferences_length data) as Hdl.
  destruct (countDifference_invariant (timestampDifferences data)
              (head (timestampDifferences data))) as (_ & Hmax & Hbest).
  destruct Hbest as [[Hnil _]|(d & Hd & Hocc & Hpos)].
  - rewrite Hnil in Hdl. cbn in Hdl. lia.
  - exists d. split; [exact Hd|]. split.
    + apply occurrences_pos_elem. lia.
    + intros d'. rewrite Hocc. apply Hmax.
Qed.

(** ** Sorting by timestamp *)

Lemma insertByTimestamp_Permutation (c : Candle) (l : list Candle) :
  insertByTimestamp c l ≡ₚ c :: l.
Proof.
  induction l as [|x l IH]; cbn; [done|].
  destruct (timestamp c <=? timestamp x); [done|].
  rewrite IH. apply Permutation_swap.
Qed.

Lemma sortByTimestamp_Permutation (data : list Candle) :
  sortByTimestamp data ≡ₚ data.
Proof.
  induction data as [|c data IH]; cbn; [done|].
  fold (sortByTimestamp data).
  by rewrite insertByTimestamp_Permutation, IH.
Qed.

Lemma sortByTimestamp_length (data : list Candle) :
  length (sortByTimestamp data) = length data.
Proof. by rewrite sortByTimestamp_Permutation. Qed.

Lemma insertByTimestamp_sorted (c : Candle) (l : list Candle) :
  StronglySorted timestampLe l ->
  StronglySorted timestampLe (insertByTimestamp c l).
Proof.
  induction 1 as [|x l Hl IH Hx]; cbn.
  - repeat constructor.
  - destruct (timestamp c <=? timestamp x) eqn:Hcx.
    + apply Z.leb_le in Hcx. constructor; [by constructor|].
      constructor; [exact Hcx|].
      eapply Forall_impl; [exact Hx|]. unfold timestampLe. intros; lia.
    + apply Z.leb_gt in Hcx. constructor; [exact IH|].
      rewrite insertByTimestamp_Permutation. constructor; [|exact Hx].
      unfold timestampLe. lia.
Qed.

Lemma sortByTimestamp_sorted (data : list Candle) :
  StronglySorted timestampLe (sortByTimestamp data).
Proof.
  induction data as [|c data IH]; cbn; [constructor|].
  by apply insertByTimestamp_sorted.
Qed.

Lemma StronglySorted_lookup_lt {A : Type} (R : A -> A -> Prop) (l : list A)
    (i j : nat) (a b : A) :
  StronglySorted R l -> (i < j)%nat ->
  l !! i = Some a -> l !! j = Some b -> R a b.
Proof.
  intros Hs. revert i j. induction Hs as [|x l Hl IH Hx]; intros i j Hij Hi Hj.
  - by rewrite lookup_nil in Hi.
  - destruct j as [|j]; [lia|]. cbn in Hj. destruct i as [|i]; cbn in Hi.
    + injection Hi as ->. rewrite Forall_forall in Hx. apply Hx.
      by eapply list_elem_of_lookup_2.
    + apply (IH i j); [lia|done|done].
Qed.

(** On a sorted sequence every sampled delta is non-negative, hence so is
    the inferred timeframe. *)
Lemma timestampDifferences_sorted_nonneg (data : list Candle) (d : Z) :
  StronglySorted timestampLe data ->
  d ∈ timestampDifferences data -> 0 <= d.
Proof.
  intros Hs Hd. apply list_elem_of_lookup in Hd as [i Hi].
  assert (Hlt : (i < Nat.min (length data) 10 - 1)%nat).
  { rewrite <- timestampDifferences_length. by eapply lookup_lt_Some. }
  destruct (timestampDifferences_lookup data i Hlt)
    as (prev & cur & Hprev & Hcur & Hdiff).
  rewrite Hdiff in Hi. injection Hi as <-.
  pose proof (StronglySorted_lookup_lt _ _ i (S i) prev cur Hs) as Hle.
  unfold timestampLe in Hle. specialize (Hle ltac:(lia) Hprev Hcur). lia.
Qed.

Lemma detectable_Some (timeframe : option Z) (tf : Z) :
  detectable timeframe = Some tf <-> timeframe = Some tf /\ tf <> 0.
Proof.
  unfold detectable. destruct timeframe as [t|].
  - destruct (t =? 0) eqn:Ht.
    + apply Z.eqb_eq in Ht. split; [done|]. intros [[= ->] Hne]. lia.
    + apply Z.eqb_neq in Ht. split.
      * intros [= ->]. done.
      * intros [[= ->] _]. done.
  - split; [done|]. intros [? _]. done.
Qed.

Lemma detectable_sorted_pos (data : list Candle) (tf : Z) :
  StronglySorted timestampLe data ->
  detectable (getTimeframeFromData data) = Some tf -> 0 < tf.
Proof.
  intros Hs [Htf Hne]%detectable_Some.
  destruct (Nat.lt_ge_cases (length data) 2) as [Hshort|Hlong].
  - by rewrite getTimeframeFromData_short in Htf.
  - destruct (getTimeframeFromData_mode data Hlong) as (tf' & Htf' & Hin & _).
    rewrite Htf in Htf'. injection Htf' as <-.
    pose proof (timestampDifferences_sorted_nonneg data tf Hs Hin). lia.
Qed.

(** ** The expected timestamps *)

Lemma timestampGrid_S (start timeframe : Z) (n : nat) :
  timestampGrid start timeframe (S n) =
  start :: timestampGrid (start + timeframe) timeframe n.
Proof.
  unfold timestampGrid. cbn [seq map]. f_equal; [lia|].
  rewrite <- seq_shift, map_map. apply map_ext. intros j. lia.
Qed.

Lemma timestampGrid_lookup (start timeframe : Z) (n i : nat) (t : Z) :
  timestampGrid start timeframe n !! i = Some t <->
  (i < n)%nat /\ t = start + Z.of_nat i * timeframe.
Proof.
  unfold timestampGrid. rewrite list_lookup_fmap. split.
  - intros H. destruct (seq 0 n !! i) as [j|] eqn:Hj; [|done].
    apply lookup_seq in Hj as [-> Hlt]. cbn in H. injection H as <-. done.
  - intros [Hlt ->]. by rewrite lookup_seq_lt.
Qed.

Lemma generateExpectedTimestampsLoop_grid (timeframeMs endTimestamp : Z)
    (n : nat) :
  0 < timeframeMs ->
  forall (fuel : nat) (timestamps : list Z) (currentTimestamp : Z),
    (n <= fuel)%nat ->
    currentTimestamp + (Z.of_nat n - 1) * timeframeMs <= endTimestamp ->
    endTimestamp < currentTimestamp + Z.of_nat n * timeframeMs ->
    generateExpectedTimestampsLoop fuel timestamps currentTimestamp
                                   endTimestamp timeframeMs
    = Some (timestamps ++ timestampGrid currentTimestamp timeframeMs n).
Proof.
  intros Htf. induction n as [|n IH]; intros fuel acc cur Hfuel Hlo Hhi.
  - assert (Hgt : (cur <=? endTimestamp) = false) by (apply Z.leb_gt; lia).
    destruct fuel; cbn; rewrite Hgt; by rewrite app_nil_r.
  - destruct fuel as [|fuel]; [lia|]. cbn [generateExpectedTimestampsLoop].
    assert (Hle : (cur <=? endTimestamp) = true) by (apply Z.leb_le; nia).
    rewrite Hle. rewrite IH by lia.
    by rewrite timestampGrid_S, <- app_assoc.
Qed.

(** With a positive stride the loop ends, on the grid from the start. *)
Lemma generateExpectedTimestamps_grid
    (startTimestamp endTimestamp timeframeMs : Z) :
  0 < timeframeMs -> startTimestamp <= endTimestamp ->
  exists n : nat,
    (0 < n)%nat /\
    forall fuel, (n <= fuel)%nat ->
      generateExpectedTimestamps fuel startTimestamp endTimestamp timeframeMs
      = Some (timestampGrid startTimestamp timeframeMs n).
Proof.
  intros Htf Hle.
  exists (Z.to_nat ((endTimestamp - startTimestamp) / timeframeMs + 1)).
  pose proof (Z.div_pos (endTimestamp - startTimestamp) timeframeMs
                ltac:(lia) Htf) as Hq.
  pose proof (Z.mul_div_le (endTimestamp - startTimestamp) timeframeMs Htf).
  pose proof (Z.mul_succ_div_gt (endTimestamp - startTimestamp) timeframeMs Htf).
  split; [lia|]. intros fuel Hfuel. unfold generateExpectedTimestamps.
  rewrite (generateExpectedTimestampsLoop_grid timeframeMs endTimestamp
             (Z.to_nat ((endTimestamp - startTimestamp) / timeframeMs + 1)));
    [done|done|done| |]; rewrite Z2Nat.id by lia; nia.
Qed.

(** ** The gap filler *)

Lemma buildDataMap_snoc (l : list Candle) (c : Candle) :
  buildDataMap (l ++ [c]) = <[timestamp c := c]> (buildDataMap l).
Proof. unfold buildDataMap. by rewrite fold_left_app. Qed.

Lemma buildDataMap_lookup (l : list Candle) (t : Z) (c : Candle) :
  buildDataMap l !! t = Some c -> c ∈ l /\ timestamp c = t.
Proof.
  induction l as [|x l IH] using rev_ind.
  - unfold buildDataMap. cbn. by rewrite lookup_empty.
  - rewrite buildDataMap_snoc. destruct (decide (timestamp x = t)) as [<-|Hne].
    + rewrite lookup_insert_eq. intros [= <-]. split; [|done].
      apply elem_of_app. right. by left.
    + rewrite lookup_insert_ne by done. intros [Hin Ht]%IH. split; [|done].
      apply elem_of_app. by left.
Qed.

Lemma buildDataMap_present (l : list Candle) (c : Candle) :
  c ∈ l -> is_Some (buildDataMap l !! timestamp c).
Proof.
  induction l as [|x l IH] using rev_ind; [by intros ?%elem_of_nil|].
  rewrite buildDataMap_snoc. intros Hin.
  destruct (decide (timestamp x = timestamp c)) as [Heq|Hne].
  - rewrite Heq, lookup_insert_eq. eauto.
  - rewrite lookup_insert_ne by done. apply IH.
    apply elem_of_app in Hin as [Hin|Hin]; [done|].
    apply list_elem_of_singleton in Hin. by subst.
Qed.


Lemma filledAt_app (dataMap : gmap Z Candle) (out more : list Candle)
    (i : nat) (t : Z) :
  (i < length out)%nat ->
  filledAt dataMap out i t -> filledAt dataMap (out ++ more) i t.
Proof.
  intros Hi. unfold filledAt. destruct (dataMap !! t) as [c|].
  - intros Hc. by rewrite lookup_app_l.
  - intros (p & Hpos & Hp & Hf). exists p.
    rewrite !lookup_app_l by lia. done.
Qed.

Lemma forwardFill_close (a b : Candle) (t : Z) :
  close a = close b -> forwardFill a t = forwardFill b t.
Proof. unfold forwardFill. by intros ->. Qed.

(** The invariant of [expectedTimestamps.forEach], when the first expected
    timestamp is in the map. *)
Lemma fillTimestamp_fold (dataMap : gmap Z Candle) (ts : list Z) :
  (forall t0, head ts = Some t0 -> is_Some (dataMap !! t0)) ->
  let st := fold_left (fillTimestamp dataMap) ts ([], None) in
  length st.1 = length ts /\
  ((ts = [] /\ st.2 = None) \/
   exists lastValid previous,
     st.2 = Some lastValid /\ last st.1 = Some previous /\
     close lastValid = close previous) /\
  forall i t, ts !! i = Some t -> filledAt dataMap st.1 i t.
Proof.
  induction ts as [|x ts IH] using rev_ind; intros Hhead; cbn zeta.
  - cbn. split; [done|]. split; [by left|]. intros i t. by rewrite lookup_nil.
  - rewrite fold_left_app. cbn [fold_left].
    destruct IH as (Hlen & Hlast & Hat).
    { intros t0 Ht0. apply Hhead. destruct ts; [done|exact Ht0]. }
    destruct (fold_left (fillTimestamp dataMap) ts ([], None))
      as [out lv] eqn:Hst.
    cbn [fst snd] in *. unfold fillTimestamp.
    assert (Hold : forall i t, (ts ++ [x]) !! i = Some t -> (i < length ts)%nat ->
                               forall more, filledAt dataMap (out ++ more) i t).
    { intros i t Hi Hlt more. apply filledAt_app; [lia|]. apply Hat.
      by rewrite lookup_app_l in Hi. }
    assert (Hnew : forall i t, (ts ++ [x]) !! i = Some t -> ~ (i < length ts)%nat ->
                               i = length out /\ t = x).
    { intros i t Hi Hge. rewrite lookup_app_r in Hi by lia.
      destruct (i - length ts)%nat as [|?] eqn:Hd; [|done].
      cbn in Hi. injection Hi as <-. split; lia. }
    destruct (dataMap !! x) as [c|] eqn:Hx.
    + cbn [fst snd]. split; [rewrite !length_app; cbn; lia|]. split.
      { right. exists c, c. by rewrite last_snoc. }
      intros i t Hi. destruct (decide (i < length ts)%nat) as [Hlt|Hge].
      { by apply Hold. }
      destruct (Hnew i t Hi Hge) as [-> ->]. unfold filledAt. rewrite Hx.
      by rewrite lookup_app_r, Nat.sub_diag.
    + destruct Hlast as [[-> ->]|(lastValid & previous & -> & Hprev & Hclose)].
      { destruct (Hhead x eq_refl) as [c Hc]. by rewrite Hc in Hx. }
      cbn [fst snd]. split; [rewrite !length_app; cbn; lia|]. split.
      { right. exists lastValid, (forwardFill lastValid x).
        by rewrite last_snoc. }
      intros i t Hi. destruct (decide (i < length ts)%nat) as [Hlt|Hge].
      { by apply Hold. }
      destruct (Hnew i t Hi Hge) as [-> ->]. unfold filledAt. rewrite Hx.
      exists previous. rewrite last_lookup in Hprev.
      assert (Hpos : (0 < length out)%nat).
      { destruct out; [done|cbn; lia]. }
      split; [done|]. split.
      * rewrite lookup_app_l by lia.
        by replace (length out - 1)%nat with (pred (length out)) by lia.
      * rewrite lookup_app_r, Nat.sub_diag by lia. cbn.
        f_equal. by apply forwardFill_close.
Qed.

(** Whatever fills position [i], it carries the expected timestamp. *)
Lemma filledAt_timestamp (sortedData out : list Candle) (i : nat) (t : Z) :
  filledAt (buildDataMap sortedData) out i t ->
  exists c, out !! i = Some c /\ timestamp c = t.
Proof.
  unfold filledAt. destruct (buildDataMap sortedData !! t) as [c|] eqn:Hc.
  - intros Hi. exists c. split; [done|].
    by destruct (buildDataMap_lookup _ _ _ Hc).
  - intros (p & _ & _ & Hi). eauto.
Qed.

(** The gap filler on a sequence with a detectable timeframe: the loop of
    expected timestamps ends on a grid from the first sorted timestamp, and
    every grid point is filled. *)
Lemma handleMissingValues_filled (data : list Candle) (tf : Z) :
  detectable (getTimeframeFromData (sortByTimestamp data)) = Some tf ->
  exists (firstCandle : Candle) (n : nat),
    head (sortByTimestamp data) = Some firstCandle /\
    0 < tf /\ (0 < n)%nat /\
    forall fuel, (n <= fuel)%nat ->
      exists out,
        handleMissingValues fuel data = Some out /\
        length out = n /\
        forall i, (i < n)%nat ->
          filledAt (buildDataMap (sortByTimestamp data)) out i
                   (timestamp firstCandle + Z.of_nat i * tf).
Proof.
  intros Hdet.
  pose proof (sortByTimestamp_sorted data) as Hsorted.
  pose proof (detectable_sorted_pos _ _ Hsorted Hdet) as Htf.
  assert (Hlen : (2 <= length (sortByTimestamp data))%nat).
  { apply detectable_Some in Hdet as [Hg _].
    destruct (Nat.lt_ge_cases (length (sortByTimestamp data)) 2); [|done].
    by rewrite getTimeframeFromData_short in Hg. }
  destruct (lookup_lt_is_Some_2 (sortByTimestamp data) 0) as [c0 Hc0]; [lia|].
  destruct (lookup_lt_is_Some_2 (sortByTimestamp data)
              (pred (length (sortByTimestamp data)))) as [cl Hcl]; [lia|].
  assert (Hhead : head (sortByTimestamp data) = Some c0).
  { by rewrite head_lookup. }
  assert (Hlastc : last (sortByTimestamp data) = Some cl).
  { by rewrite last_lookup. }
  assert (Hle : timestamp c0 <= timestamp cl).
  { apply (StronglySorted_lookup_lt timestampLe (sortByTimestamp data) 0
             (pred (length (sortByTimestamp data))) c0 cl); [done|lia|done|done]. }
  destruct (generateExpectedTimestamps_grid (timestamp c0) (timestamp cl) tf
              Htf Hle) as (n & Hn & Hgen).
  exists c0, n. split; [done|]. split; [done|]. split; [done|].
  intros fuel Hfuel. unfold handleMissingValues.
  destruct data as [|d data']; [cbn in Hlen; lia|].
  set (sortedData := sortByTimestamp (d :: data')) in *.
  rewrite Hdet, Hhead, Hlastc. cbn [mbind option_bind].
  rewrite (Hgen fuel Hfuel). cbn [mbind option_bind].
  destruct (fillTimestamp_fold (buildDataMap sortedData)
              (timestampGrid (timestamp c0) tf n)) as (Hl & _ & Hat).
  { intros t0 Ht0. rewrite head_lookup in Ht0.
    apply timestampGrid_lookup in Ht0 as [_ ->].
    replace (timestamp c0 + Z.of_nat 0 * tf) with (timestamp c0) by lia.
    apply buildDataMap_present. by eapply list_elem_of_lookup_2. }
  eexists. split; [reflexivity|]. split.
  - rewrite Hl. unfold timestampGrid. by rewrite length_map, length_seq.
  - intros i Hi. apply Hat. by apply timestampGrid_lookup.
Qed.

Lemma timestampGrid_length (start timeframe : Z) (n : nat) :
  length (timestampGrid start timeframe n) = n.
Proof. unfold timestampGrid. by rewrite length_map, length_seq. Qed.

Lemma timestampGrid_stepsBy (start timeframe : Z) (n : nat) :
  stepsBy timeframe (timestampGrid start timeframe n).
Proof.
  intros i a b [_ ->]%timestampGrid_lookup [_ ->]%timestampGrid_lookup. lia.
Qed.

Lemma timestampGrid_sorted (start timeframe : Z) (n : nat) :
  0 < timeframe -> StronglySorted Z.lt (timestampGrid start timeframe n).
Proof.
  intros Htf. revert start. induction n as [|n IH]; intros start.
  - constructor.
  - rewrite timestampGrid_S. constructor; [apply IH|].
    apply Forall_forall. intros t Ht.
    apply list_elem_of_lookup in Ht as [i [_ ->]%timestampGrid_lookup]. nia.
Qed.

(** The timestamps of the filled sequence are the grid itself. *)
Lemma handleMissingValues_timestamps (data : list Candle) (tf : Z) :
  detectable (getTimeframeFromData (sortByTimestamp data)) = Some tf ->
  exists (firstCandle : Candle) (n : nat),
    head (sortByTimestamp data) = Some firstCandle /\
    0 < tf /\ (0 < n)%nat /\
    forall fuel, (n <= fuel)%nat ->
      exists out,
        handleMissingValues fuel data = Some out /\
        map timestamp out = timestampGrid (timestamp firstCandle) tf n.
Proof.
  intros Hdet.
  destruct (handleMissingValues_filled data tf Hdet)
    as (c0 & n & Hhead & Htf & Hn & Hfill).
  exists c0, n. do 3 (split; [done|]). intros fuel Hfuel.
  destruct (Hfill fuel Hfuel) as (out & Hout & Hlen & Hat).
  exists out. split; [done|]. apply list_eq. intros i.
  rewrite list_lookup_fmap.
  destruct (decide (i < n)%nat) as [Hi|Hi].
  - destruct (filledAt_timestamp _ _ _ _ (Hat i Hi)) as (c & Hc & Ht).
    rewrite Hc. cbn. rewrite Ht. symmetry. by apply timestampGrid_lookup.
  - rewrite (lookup_ge_None_2 out) by lia. cbn. symmetry.
    apply lookup_ge_None_2. rewrite timestampGrid_length. lia.
Qed.

(** ** Claims on the gap filler *)

(** C3.  On two candles or more with a detectable timeframe, the gap filler
    returns (its loop of expected timestamps ends) a sequence whose
    timestamps are strictly ascending and step by exactly the inferred
    timeframe, starting at the first sorted input timestamp: no gap, no
    duplicate, and no leading timestamp left out. *)
Theorem handleMissingValues_evenly_spaced (data : list Candle) (tf : Z) :
  (2 <= length data)%nat ->
  detectable (getTimeframeFromData (sortByTimestamp data)) = Some tf ->
  exists fuel0 : nat,
    forall fuel, (fuel0 <= fuel)%nat ->
      exists out,
        handleMissingValues fuel data = Some out /\
        StronglySorted Z.lt (map timestamp out) /\
        stepsBy tf (map timestamp out) /\
        head (map timestamp out) = head (map timestamp (sortByTimestamp data)).
Proof.
  intros _ Hdet.
  destruct (handleMissingValues_timestamps data tf Hdet)
    as (c0 & n & Hhead & Htf & Hn & Hfill).
  exists n. intros fuel Hfuel.
  destruct (Hfill fuel Hfuel) as (out & Hout & Hts).
  exists out. split; [done|]. rewrite Hts.
  split; [by apply timestampGrid_sorted|].
  split; [apply timestampGrid_stepsBy|].
  destruct n as [|n]; [lia|]. rewrite timestampGrid_S. cbn.
  destruct (sortByTimestamp data) as [|c rest]; [done|].
  cbn in Hhead. injection Hhead as ->. done.
Qed.

Lemma handleMissingValues_evenly_spaced_witness :
  exists fuel0 : nat,
    forall fuel, (fuel0 <= fuel)%nat ->
      exists out,
        handleMissingValues fuel hourlyWithGap = Some out /\
        StronglySorted Z.lt (map timestamp out) /\
        stepsBy 3600000 (map timestamp out) /\
        head (map timestamp out)
        = head (map timestamp (sortByTimestamp hourlyWithGap)).
Proof.
  apply (handleMissingValues_evenly_spaced hourlyWithGap 3600000).
  - cbn. lia.
  - vm_compute. reflexivity.
Defined.

(** C4.  When a timeframe is detected, every output candle of the gap filler
    sits on the grid (first sorted input timestamp) + k * timeframe with
    k >= 0, and no output candle carries the timestamp of an input candle
    that is off that grid; such an input makes the output shorter than the
    input although the output starts at the first input timestamp. *)
Theorem handleMissingValues_on_grid :
  (forall (data : list Candle) (tf : Z) (firstCandle : Candle),
     detectable (getTimeframeFromData (sortByTimestamp data)) = Some tf ->
     head (sortByTimestamp data) = Some firstCandle ->
     exists fuel0 : nat,
       forall fuel, (fuel0 <= fuel)%nat ->
         exists out,
           handleMissingValues fuel data = Some out /\
           (forall c, c ∈ out ->
              exists j : nat,
                timestamp c = timestamp firstCandle + Z.of_nat j * tf) /\
           (forall c, c ∈ data ->
              (forall j : nat,
                 timestamp c <> timestamp firstCandle + Z.of_nat j * tf) ->
              forall c', c' ∈ out -> timestamp c' <> timestamp c)) /\
  (exists (data : list Candle) (fuel : nat) (out : list Candle),
     is_Some (detectable (getTimeframeFromData (sortByTimestamp data))) /\
     handleMissingValues fuel data = Some out /\
     head (map timestamp out) = head (map timestamp (sortByTimestamp data)) /\
     (length out < length data)%nat).
Proof.
  split.
  - intros data tf firstCandle Hdet Hfirst.
    destruct (handleMissingValues_timestamps data tf Hdet)
      as (c0 & n & Hhead & Htf & Hn & Hfill).
    rewrite Hfirst in Hhead. injection Hhead as <-.
    exists n. intros fuel Hfuel.
    destruct (Hfill fuel Hfuel) as (out & Hout & Hts).
    exists out. split; [done|].
    assert (Hgrid : forall c, c ∈ out ->
              exists j : nat,
                timestamp c = timestamp firstCandle + Z.of_nat j * tf).
    { intros c Hc. apply list_elem_of_lookup in Hc as [i Hi].
      assert (Hti : map timestamp out !! i = Some (timestamp c)).
      { by rewrite list_lookup_fmap, Hi. }
      rewrite Hts in Hti. apply timestampGrid_lookup in Hti as [_ Hti].
      by exists i. }
    split; [exact Hgrid|].
    intros c _ Hoff c' Hc' Heq.
    destruct (Hgrid c' Hc') as [j Hj]. apply (Hoff j). by rewrite <- Heq.
  - exists hourlyWithStray, 4%nat. eexists.
    split; [vm_compute; eauto|].
    split; [vm_compute; reflexivity|].
    split; [reflexivity|]. cbn. lia.
Qed.

(** The same through the handler with the default options: five candles in,
    four out. *)
Example processHandler_hourlyWithStray :
  exists steps out,
    processHandler 4
      (mkEvent "POST"
         (BodyValue (mkProcessRequest (DataArray hourlyWithStray)
                                      (Some defaultOptions))))
    = Some (mkResponse 200 corsHeaders (ProcessedBody 5 4 steps out)) /\
    map timestamp out = [0; 3600000; 7200000; 10800000].
Proof. do 2 eexists. split; vm_compute; reflexivity. Qed.



(** The filled sequence of the example: the 02:00 candle is the forward fill
    of the 01:00 close. *)
Example handleMissingValues_hourlyWithGap :
  handleMissingValues 5 hourlyWithGap =
  Some [rawCandle 0 100 105 98 102 10;
        rawCandle 3600000 102 108 101 106 12;
        mkCandle 7200000 "1970-01-01T02:00:00.000Z" 106 106 106 106 0
                 (Some true) None None None None None None None;
        rawCandle 10800000 106 109 104 107 8;
        rawCandle 14400000 107 110 105 108 9].
Proof. vm_compute. reflexivity. Qed.

(** ** Claims on timeframe inference and alignment *)

(** C6.  On two candles or more, [getTimeframeFromData] returns a most
    frequent value of the deltas between consecutive timestamps of the first
    ten candles (at most nine deltas); on fewer than two candles it returns
    null, and then [alignTimestamps] and [handleMissingValues] return the
    input sequence unchanged. *)
Theorem getTimeframeFromData_modal_delta (data : list Candle) :
  ((2 <= length data)%nat ->
   let deltas := timestampDifferences data in
   length deltas = Nat.min (length data - 1) 9 /\
   (forall i, (i < length deltas)%nat ->
      exists previous current,
        data !! i = Some previous /\ data !! S i = Some current /\
        deltas !! i = Some (timestamp current - timestamp previous)) /\
   exists timeframe,
     getTimeframeFromData data = Some timeframe /\
     timeframe ∈ deltas /\
     forall delta, (occurrences delta deltas <= occurrences timeframe deltas)%nat) /\
  ((length data < 2)%nat ->
   getTimeframeFromData data = None /\
   alignTimestamps data = data /\
   forall fuel, handleMissingValues fuel data = Some data).
Proof.
  split.
  - intros Hlen deltas. unfold deltas.
    pose proof (timestampDifferences_length data) as Hdl.
    split; [lia|]. split.
    + intros i Hi. apply timestampDifferences_lookup. lia.
    + by apply getTimeframeFromData_mode.
  - intros Hlen. split; [by apply getTimeframeFromData_short|].
    destruct data as [|c [|c' data]]; [| |cbn in Hlen; lia].
    + split; [reflexivity|]. intros fuel. reflexivity.
    + split; [reflexivity|]. intros fuel. reflexivity.
Qed.

Lemma alignCandle_twice (tf : Z) (candle : Candle) :
  tf <> 0 ->
  forgetOriginalTimestamp (alignCandle tf (alignCandle tf candle)) =
  forgetOriginalTimestamp (alignCandle tf candle).
Proof.
  intros Htf. unfold forgetOriginalTimestamp, alignCandle. cbn.
  by rewrite Z.div_mul.
Qed.

(** The deltas 3600000, 3600000, 1800000, 1800000: the first value to reach
    the top count wins. *)
Example getTimeframeFromData_hourlyWithStray :
  timestampDifferences hourlyWithStray = [3600000; 3600000; 1800000; 1800000] /\
  getTimeframeFromData hourlyWithStray = Some 3600000.
Proof. split; vm_compute; reflexivity. Qed.

Example getTimeframeFromData_single :
  getTimeframeFromData [rawCandle 0 100 105 98 102 10] = None.
Proof. reflexivity. Qed.

(** C2, as the code has it.  When the timeframe inferred from the aligned
    sequence is the one inferred from the input (or neither is detectable),
    a second alignment changes no field other than [originalTimestamp]. *)
Theorem alignTimestamps_twice (data : list Candle) :
  detectable (getTimeframeFromData (alignTimestamps data)) =
  detectable (getTimeframeFromData data) ->
  map forgetOriginalTimestamp (alignTimestamps (alignTimestamps data)) =
  map forgetOriginalTimestamp (alignTimestamps data).
Proof.
  intros Hsame. destruct data as [|c data]; [reflexivity|].
  unfold alignTimestamps at 2 3.
  unfold alignTimestamps in Hsame at 1.
  destruct (detectable (getTimeframeFromData (c :: data))) as [tf|] eqn:Hdet.
  - cbn [map] in *. unfold alignTimestamps. rewrite Hsame.
    cbn [map]. f_equal.
    + apply alignCandle_twice. by apply detectable_Some in Hdet as [_ ?].
    + rewrite !map_map. apply map_ext. intros a. apply alignCandle_twice.
      by apply detectable_Some in Hdet as [_ ?].
  - unfold alignTimestamps. by rewrite Hdet.
Qed.

Lemma alignTimestamps_twice_witness :
  map forgetOriginalTimestamp (alignTimestamps (alignTimestamps driftingCandles)) =
  map forgetOriginalTimestamp (alignTimestamps driftingCandles).
Proof.
  apply (alignTimestamps_twice driftingCandles).
  vm_compute. reflexivity.
Defined.

(** C2, as stated, fails twice over: a second pass can move timestamps again
    (it infers a new timeframe from the aligned sequence), and where it moves
    none it still erases the [originalTimestamp] the first pass recorded. *)
Lemma alignTimestamps_not_idempotent :
  map timestamp (alignTimestamps (alignTimestamps unevenCandles)) = [0; 0; 4; 8] /\
  map timestamp (alignTimestamps unevenCandles) = [0; 2; 6; 10] /\
  alignTimestamps (alignTimestamps unevenCandles) <> alignTimestamps unevenCandles /\
  map timestamp (alignTimestamps (alignTimestamps driftingCandles)) =
  map timestamp (alignTimestamps driftingCandles) /\
  map originalTimestamp (alignTimestamps driftingCandles)
  = [Some 1; Some 4; Some 5] /\
  map originalTimestamp (alignTimestamps (alignTimestamps driftingCandles))
  = [None; None; None] /\
  alignTimestamps (alignTimestamps driftingCandles) <> alignTimestamps driftingCandles.
Proof.
  split; [vm_compute; reflexivity|].
  split; [vm_compute; reflexivity|].
  split.
  { intros Heq. apply (f_equal (map timestamp)) in Heq.
    vm_compute in Heq. discriminate Heq. }
  split; [vm_compute; reflexivity|].
  split; [vm_compute; reflexivity|].
  split; [vm_compute; reflexivity|].
  intros Heq. apply (f_equal (map originalTimestamp)) in Heq.
  vm_compute in Heq. discriminate Heq.
Qed.

(** ** Claims on the outlier corrector *)

Local Open Scope R_scope.

Lemma Rltb_true (x y : R) : Rltb x y = true <-> x < y.
Proof. unfold Rltb. destruct (Rlt_dec x y); split; (done || lra). Qed.

Lemma Rltb_false (x y : R) : Rltb x y = false <-> y <= x.
Proof. unfold Rltb. destruct (Rlt_dec x y); split; (done || lra). Qed.

Lemma Reqb_true (x y : R) : Reqb x y = true <-> x = y.
Proof. unfold Reqb. destruct (Req_dec_T x y); split; done. Qed.

Lemma Reqb_false (x y : R) : Reqb x y = false <-> x <> y.
Proof. unfold Reqb. destruct (Req_dec_T x y); split; done. Qed.

(** A z-score that does not exceed the threshold bounds the deviation, also
    when the standard deviation is zero (the quotient is then [NaN] or
    infinite). *)
Lemma zscore_within (x s t : R) :
  0 <= s -> js_gt (js_abs (js_div x s)) t = false ->
  - (t * s) <= x <= t * s.
Proof.
  intros Hs. unfold js_div.
  destruct (Reqb s 0) eqn:Hs0.
  - apply Reqb_true in Hs0. subst s.
    destruct (Reqb x 0) eqn:Hx0.
    + apply Reqb_true in Hx0. subst x. intros _. lra.
    + destruct (Rltb 0 x); cbn; discriminate.
  - apply Reqb_false in Hs0. cbn. intros Hle%Rltb_false.
    assert (Hpos : 0 < s) by lra.
    assert (Hx : x = x / s * s) by (field; lra).
    destruct (Rabs_def2 (x / s) (t + 1)) as [Hlo Hhi]; [lra|].
    pose proof (Rle_abs (x / s)) as Hup.
    pose proof (Rle_abs (- (x / s))) as Hdown. rewrite Rabs_Ropp in Hdown.
    assert (H1 : x / s * s <= t * s) by (apply Rmult_le_compat_r; lra).
    assert (H2 : - t * s <= x / s * s) by (apply Rmult_le_compat_r; lra).
    lra.
Qed.

Lemma stdDevHigh_nonneg (data : list Candle) : 0 <= stdDevHigh data.
Proof. apply sqrt_pos. Qed.

Lemma stdDevLow_nonneg (data : list Candle) : 0 <= stdDevLow data.
Proof. apply sqrt_pos. Qed.

Lemma correctCandle_high (data : list Candle) (threshold : R) (c : Candle) :
  high (correctCandle data threshold c)
  <= meanHigh data + threshold * stdDevHigh data.
Proof.
  unfold correctCandle.
  destruct (js_gt (highZScore data c) threshold) eqn:Hhigh.
  - cbn. apply Rmin_r.
  - pose proof (zscore_within _ _ _ (stdDevHigh_nonneg data) Hhigh) as Hz.
    destruct (js_gt (lowZScore data c) threshold); cbn; lra.
Qed.

Lemma correctCandle_low (data : list Candle) (threshold : R) (c : Candle) :
  js_gt (highZScore data c) threshold = false ->
  meanLow data - threshold * stdDevLow data
  <= low (correctCandle data threshold c).
Proof.
  intros Hhigh. unfold correctCandle. rewrite Hhigh.
  destruct (js_gt (lowZScore data c) threshold) eqn:Hlow.
  - cbn. apply Rmax_r.
  - pose proof (zscore_within _ _ _ (stdDevLow_nonneg data) Hlow). lra.
Qed.

Lemma correctCandle_high_priority (data : list Candle) (threshold : R)
    (c : Candle) :
  js_gt (highZScore data c) threshold = true ->
  low (correctCandle data threshold c) = low c.
Proof. intros Hhigh. unfold correctCandle. by rewrite Hhigh. Qed.

(** C1, as the code has it.  On ten candles or more and for every threshold,
    each output candle has its high at most meanHigh + T * stdDevHigh; its
    low is at least meanLow - T * stdDevLow when the high z-score of the
    input candle does not exceed T, and is the input low, left as it was,
    when it does (the low test is the [else] of the high test).  The
    statistics are those of the input batch. *)
Theorem removeOutliers_clamp_bounds (data : list Candle) (threshold : R)
    (i : nat) (candle : Candle) :
  (10 <= length data)%nat ->
  data !! i = Some candle ->
  exists corrected,
    removeOutliers data threshold !! i = Some corrected /\
    high corrected <= meanHigh data + threshold * stdDevHigh data /\
    (js_gt (highZScore data candle) threshold = false ->
     meanLow data - threshold * stdDevLow data <= low corrected) /\
    (js_gt (highZScore data candle) threshold = true ->
     low corrected = low candle).
Proof.
  intros Hlen Hi. unfold removeOutliers.
  rewrite (proj2 (Nat.ltb_ge _ _) Hlen).
  exists (correctCandle data threshold candle).
  split; [by rewrite list_lookup_fmap, Hi|].
  split; [apply correctCandle_high|].
  split; [apply correctCandle_low|apply correctCandle_high_priority].
Qed.

Lemma spikeData_sums : sumHighLow spikeData = (357, 289).
Proof.
  unfold sumHighLow, spikeData.
  cbn [fold_left map seq app rawCandle high low].
  f_equal; lra.
Qed.

Lemma spikeData_length : INR (length spikeData) = 17.
Proof. cbn. lra. Qed.

Lemma spikeData_meanHigh : meanHigh spikeData = 21.
Proof. unfold meanHigh. rewrite spikeData_sums, spikeData_length. cbn. lra. Qed.

Lemma spikeData_meanLow : meanLow spikeData = 17.
Proof. unfold meanLow. rewrite spikeData_sums, spikeData_length. cbn. lra. Qed.

Lemma spikeData_squares : sumSquaredDev spikeData = (272, 272).
Proof.
  unfold sumSquaredDev. rewrite spikeData_meanHigh, spikeData_meanLow.
  unfold spikeData.
  cbn [fold_left map seq app rawCandle high low].
  f_equal; lra.
Qed.

Lemma sqrt_16 : sqrt (272 / 17) = 4.
Proof.
  replace (272 / 17) with (4 * 4) by lra. apply sqrt_square. lra.
Qed.

Lemma spikeData_stdDevHigh : stdDevHigh spikeData = 4.
Proof.
  unfold stdDevHigh. rewrite spikeData_squares, spikeData_length. apply sqrt_16.
Qed.

Lemma spikeData_stdDevLow : stdDevLow spikeData = 4.
Proof.
  unfold stdDevLow. rewrite spikeData_squares, spikeData_length. apply sqrt_16.
Qed.

Lemma spikeData_highZScore :
  highZScore spikeData (rawCandle 57600000 19 37 1 19 1) = Finite 4.
Proof.
  unfold highZScore. rewrite spikeData_meanHigh, spikeData_stdDevHigh.
  unfold js_div. rewrite (proj2 (Reqb_false 4 0)) by lra. cbn.
  f_equal. rewrite Rabs_right; lra.
Qed.

Lemma removeOutliers_clamp_bounds_witness :
  exists corrected,
    removeOutliers spikeData 3 !! 16%nat = Some corrected /\
    high corrected <= meanHigh spikeData + 3 * stdDevHigh spikeData /\
    (js_gt (highZScore spikeData (rawCandle 57600000 19 37 1 19 1)) 3 = false ->
     meanLow spikeData - 3 * stdDevLow spikeData <= low corrected) /\
    (js_gt (highZScore spikeData (rawCandle 57600000 19 37 1 19 1)) 3 = true ->
     low corrected = low (rawCandle 57600000 19 37 1 19 1)).
Proof.
  apply (removeOutliers_clamp_bounds spikeData 3 16
           (rawCandle 57600000 19 37 1 19 1)).
  - cbn. lia.
  - reflexivity.
Defined.

(** C1, as stated, fails at the default threshold: the last candle of
    [spikeData] is a high outlier, so only its high is clamped (to 33) and
    its low stays at 1, below meanLow - 3 * stdDevLow = 5. *)
Lemma removeOutliers_low_left_below_bound :
  ~ (forall (data : list Candle) (threshold : R),
       (10 <= length data)%nat ->
       forall corrected, corrected ∈ removeOutliers data threshold ->
         high corrected <= meanHigh data + threshold * stdDevHigh data /\
         meanLow data - threshold * stdDevLow data <= low corrected).
Proof.
  intros Hclaim.
  set (spike := rawCandle 57600000 19 37 1 19 1).
  assert (Hflag : js_gt (highZScore spikeData spike) 3 = true).
  { unfold spike. rewrite spikeData_highZScore. cbn. apply Rltb_true. lra. }
  assert (Hin : correctCandle spikeData 3 spike ∈ removeOutliers spikeData 3).
  { apply (list_elem_of_lookup_2 _ 16%nat). unfold removeOutliers.
    rewrite (proj2 (Nat.ltb_ge (length spikeData) 10)) by (cbn; lia).
    by rewrite list_lookup_fmap. }
  destruct (Hclaim spikeData 3 ltac:(cbn; lia) _ Hin) as [_ Hbound].
  rewrite (correctCandle_high_priority _ _ _ Hflag) in Hbound.
  rewrite spikeData_meanLow, spikeData_stdDevLow in Hbound.
  cbn in Hbound. lra.
Qed.

Local Close Scope R_scope.

(** ** Claims on the normalizer *)

Local Open Scope R_scope.

Lemma fieldRange_snoc (field : Candle -> R) (l : list Candle) (c : Candle) :
  fieldRange field (l ++ [c]) =
  (js_min (fieldRange field l).1 (field c),
   js_max (fieldRange field l).2 (field c)).
Proof.
  unfold fieldRange. rewrite fold_left_app. cbn [fold_left].
  by destruct (fold_left _ l _).
Qed.

Lemma fieldRange_extrema (field : Candle -> R) (data : list Candle) :
  data <> [] ->
  exists minField maxField,
    fieldRange field data = (Finite minField, Finite maxField) /\
    batchMin field data minField /\ batchMax field data maxField.
Proof.
  induction data as [|x l IH] using rev_ind; [done|]. intros _.
  rewrite fieldRange_snoc. destruct l as [|y l'].
  - exists (field x), (field x). cbn. split; [done|].
    split; (split; [intros c ->%list_elem_of_singleton; lra|]);
      exists x; (split; [by left|done]).
  - destruct IH as (mn & mx & -> & [Hmn [cmn [Hcmn Hfmn]]] & [Hmx [cmx [Hcmx Hfmx]]]);
      [done|].
    set (l := y :: l') in *. cbn [fst snd js_min js_max].
    exists (Rmin mn (field x)), (Rmax mx (field x)). split; [done|]. split.
    + split.
      * intros c [Hc| ->%list_elem_of_singleton]%elem_of_app.
        -- pose proof (Rmin_l mn (field x)). specialize (Hmn c Hc). lra.
        -- apply Rmin_r.
      * destruct (Rle_dec mn (field x)) as [Hle|Hgt].
        -- exists cmn. rewrite Rmin_left by done.
           split; [apply elem_of_app; by left|done].
        -- exists x. rewrite Rmin_right by lra.
           split; [apply elem_of_app; right; by left|done].
    + split.
      * intros c [Hc| ->%list_elem_of_singleton]%elem_of_app.
        -- pose proof (Rmax_l mx (field x)). specialize (Hmx c Hc). lra.
        -- apply Rmax_r.
      * destruct (Rle_dec mx (field x)) as [Hle|Hgt].
        -- exists x. rewrite Rmax_right by done.
           split; [apply elem_of_app; right; by left|done].
        -- exists cmx. rewrite Rmax_left by lra.
           split; [apply elem_of_app; by left|done].
Qed.




(** The degenerate field: two candles with the same volume normalize to 0. *)
Example normalizeField_constant_volume :
  let data := [rawCandle 0 1 2 0 1 5; rawCandle 60000 1 3 0 2 5] in
  map normalizedVolume (normalizeData data)
  = [Some (Finite 0); Some (Finite 0)].
Proof.
  cbn. unfold normalizeField, fieldRange. cbn [fold_left js_min js_max volume rawCandle].
  rewrite Rmin_left, Rmax_left by lra. cbn [js_sub js_or_one].
  rewrite (proj2 (Reqb_true (5 - 5) 0)) by lra. cbn [js_quot]. unfold js_div.
  rewrite (proj2 (Reqb_false 1 0)) by lra.
  repeat f_equal; lra.
Qed.

(** ** Claims on the indicator engine *)

Lemma obvStepHolds_app (data : list Candle) (obv more : list R) (i : nat) :
  (i < length obv)%nat ->
  obvStepHolds data obv i -> obvStepHolds data (obv ++ more) i.
Proof.
  intros Hi (p & c & o0 & o1 & Hp & Hc & Ho0 & Ho1 & Hrest).
  exists p, c, o0, o1. rewrite !lookup_app_l by lia. done.
Qed.

(** The invariant of the OBV loop after the indices [1..m]. *)
Lemma obvStep_fold (data : list Candle) (m : nat) :
  (m < length data)%nat ->
  let obv := fold_left (obvStep data) (seq 1 m) [0] in
  length obv = S m /\ obv !! 0%nat = Some 0 /\
  forall i, (1 <= i <= m)%nat -> obvStepHolds data obv i.
Proof.
  induction m as [|m IH]; intros Hm; cbn zeta.
  - cbn. split; [done|]. split; [done|]. intros i Hi. lia.
  - rewrite seq_S, fold_left_app. cbn [fold_left Nat.add].
    destruct (IH ltac:(lia)) as (Hlen & H0 & Hsteps).
    set (obv := fold_left (obvStep data) (seq 1 m) [0]) in *.
    destruct (lookup_lt_is_Some_2 data (S m)) as [cur Hcur]; [lia|].
    destruct (lookup_lt_is_Some_2 data m) as [prev Hprev]; [lia|].
    destruct (lookup_lt_is_Some_2 obv m) as [o Ho]; [lia|].
    unfold obvStep. replace (S m - 1)%nat with m by lia.
    rewrite Hcur, Hprev, Ho.
    assert (Hgoal : forall x : R,
              (close prev < close cur -> x - o = volume cur) ->
              (close cur < close prev -> x - o = - volume cur) ->
              (close cur = close prev -> x - o = 0) ->
              length (obv ++ [x]) = S (S m) /\
              (obv ++ [x]) !! 0%nat = Some 0 /\
              forall i, (1 <= i <= S m)%nat -> obvStepHolds data (obv ++ [x]) i).
    { intros x Hup Hdown Hflat.
      split; [rewrite length_app; cbn; lia|].
      split; [by rewrite lookup_app_l by lia|].
      intros i Hi. destruct (decide (i = S m)) as [->|Hne].
      - exists prev, cur, o, x. replace (S m - 1)%nat with m by lia.
        rewrite lookup_app_l by lia.
        rewrite lookup_app_r by lia. rewrite Hlen, Nat.sub_diag. done.
      - apply obvStepHolds_app; [lia|]. apply Hsteps. lia. }
    destruct (Rltb (close prev) (close cur)) eqn:Hup.
    + apply Rltb_true in Hup. apply Hgoal; intros; lra.
    + apply Rltb_false in Hup.
      destruct (Rltb (close cur) (close prev)) eqn:Hdown.
      * apply Rltb_true in Hdown. apply Hgoal; intros; lra.
      * apply Rltb_false in Hdown. apply Hgoal; intros; lra.
Qed.

(** C9.  On two candles or more, [calculateOBV] returns one value per
    candle, the first is 0, and each later value differs from the one before
    by +volume when the close rose, -volume when it fell, and 0 when it did
    not move. *)
Theorem calculateOBV_decomposition (data : list Candle) :
  (2 <= length data)%nat ->
  length (calculateOBV data) = length data /\
  calculateOBV data !! 0%nat = Some 0 /\
  forall i, (1 <= i < length data)%nat ->
    obvStepHolds data (calculateOBV data) i.
Proof.
  intros Hlen. unfold calculateOBV.
  rewrite (proj2 (Nat.ltb_ge _ _) Hlen).
  destruct (obvStep_fold data (length data - 1) ltac:(lia)) as (Hl & H0 & Hs).
  split; [lia|]. split; [done|]. intros i Hi. apply Hs. lia.
Qed.

Lemma calculateOBV_decomposition_witness :
  length (calculateOBV hourlyWithGap) = length hourlyWithGap /\
  calculateOBV hourlyWithGap !! 0%nat = Some 0 /\
  forall i, (1 <= i < length hourlyWithGap)%nat ->
    obvStepHolds hourlyWithGap (calculateOBV hourlyWithGap) i.
Proof.
  apply (calculateOBV_decomposition hourlyWithGap). cbn. lia.
Defined.

Local Close Scope R_scope.

Lemma leftPadded_intro (dataLength : nat) (values : list JsVal) :
  (length values <= dataLength)%nat ->
  leftPadded dataLength values
             (replicate (dataLength - length values) VNull ++ values).
Proof.
  intros Hle. split; [|split].
  - rewrite length_app, length_replicate. lia.
  - intros i Hi. rewrite lookup_app_l by (rewrite length_replicate; lia).
    by apply lookup_replicate_2.
  - rewrite drop_app_length'; [done|by rewrite length_replicate].
Qed.

Lemma nullPadding_Returns (dataLength resultLength : nat) :
  (resultLength <= dataLength)%nat ->
  nullPadding dataLength resultLength
  = Returns (replicate (dataLength - resultLength) VNull).
Proof.
  intros Hle. unfold nullPadding. by rewrite (proj2 (Nat.ltb_ge _ _) Hle).
Qed.

Lemma leftPadded_map {A : Type} (dataLength : nat) (f : A -> JsVal)
    (items : list A) :
  (length items <= dataLength)%nat ->
  leftPadded dataLength (map f items)
             (replicate (dataLength - length items) VNull ++ map f items).
Proof.
  intros Hle. pose proof (leftPadded_intro dataLength (map f items)) as Hp.
  rewrite length_map in Hp. by apply Hp.
Qed.

(** Both arms of a padded indicator: the early return and the padding. *)
Ltac padded_series :=
  unfold alignedOrEmpty;
  match goal with
  | |- context [(?n <? ?m)%nat] => destruct (n <? m)%nat
  end;
  [ eexists; split; [reflexivity|]; cbn;
    repeat match goal with |- _ /\ _ => split end; reflexivity
  | rewrite nullPadding_Returns by (rewrite ?length_map; assumption);
    eexists; split; [reflexivity|]; cbn; rewrite ?length_map;
    repeat match goal with |- _ /\ _ => split end;
    first [apply leftPadded_intro | apply leftPadded_map]; assumption ].

Section IndicatorLengths.

Context `{!TechnicalIndicators}.

Variable data : list Candle.

Let closes : list R := map close data.
Let highs : list R := map high data.
Let lows : list R := map low data.

Lemma calculateSMA_aligned (period : nat) :
  (length (SMA_calculate period closes) <= length data)%nat ->
  exists series,
    calculateSMA data period = Returns series /\
    alignedOrEmpty (length data) period (SMA_calculate period closes) series.
Proof. intros Hlib. unfold calculateSMA. fold closes. padded_series. Qed.

Lemma calculateEMA_aligned (period : nat) :
  (length (EMA_calculate period closes) <= length data)%nat ->
  exists series,
    calculateEMA data period = Returns series /\
    alignedOrEmpty (length data) period (EMA_calculate period closes) series.
Proof. intros Hlib. unfold calculateEMA. fold closes. padded_series. Qed.

Lemma calculateRSI_aligned (period : nat) :
  (length (RSI_calculate period closes) <= length data)%nat ->
  exists series,
    calculateRSI data period = Returns series /\
    alignedOrEmpty (length data) (period + 1) (RSI_calculate period closes)
                   series.
Proof. intros Hlib. unfold calculateRSI. fold closes. padded_series. Qed.

Lemma calculateMACD_aligned (fastPeriod slowPeriod signalPeriod : nat) :
  let macdResult := MACD_calculate fastPeriod slowPeriod signalPeriod closes in
  (length macdResult <= length data)%nat ->
  exists series,
    calculateMACD data fastPeriod slowPeriod signalPeriod = Returns series /\
    alignedOrEmpty (length data) (slowPeriod + signalPeriod)
                   (map item_MACD macdResult) (macd series) /\
    alignedOrEmpty (length data) (slowPeriod + signalPeriod)
                   (map item_signal macdResult) (signal series) /\
    alignedOrEmpty (length data) (slowPeriod + signalPeriod)
                   (map item_histogram macdResult) (histogram series).
Proof. intros macdResult Hlib. unfold calculateMACD. fold closes. padded_series. Qed.

Lemma calculateBollingerBands_aligned (period : nat) (stdDev : R) :
  let bbResult := BollingerBands_calculate period stdDev closes in
  (length bbResult <= length data)%nat ->
  exists series,
    calculateBollingerBands data period stdDev = Returns series /\
    alignedOrEmpty (length data) period (map item_upper bbResult)
                   (upper series) /\
    alignedOrEmpty (length data) period (map item_middle bbResult)
                   (middle series) /\
    alignedOrEmpty (length data) period (map item_lower bbResult)
                   (lower series).
Proof.
  intros bbResult Hlib. unfold calculateBollingerBands. fold closes.
  padded_series.
Qed.

Lemma calculateATR_aligned (period : nat) :
  (length (ATR_calculate period highs lows closes) <= length data)%nat ->
  exists series,
    calculateATR data period = Returns series /\
    alignedOrEmpty (length data) (period + 1)
                   (ATR_calculate period highs lows closes) series.
Proof.
  intros Hlib. unfold calculateATR. rewrite !map_map. cbn [fst snd].
  fold highs lows closes. padded_series.
Qed.

Lemma calculateStochastic_aligned (period signalPeriod : nat) :
  let stoch := Stochastic_calculate period signalPeriod highs lows closes in
  (length stoch <= length data)%nat ->
  exists series,
    calculateStochastic data period signalPeriod = Returns series /\
    alignedOrEmpty (length data) period (map item_k stoch) (k series) /\
    alignedOrEmpty (length data) period (map item_d stoch) (d series).
Proof.
  intros stoch Hlib. unfold calculateStochastic. rewrite !map_map.
  cbn [fst snd]. fold highs lows closes. padded_series.
Qed.

End IndicatorLengths.

(** The returns loop after the indices [1..m]: one value per index, after
    the leading [null]. *)
Lemma returnsStep_fold (data : list Candle) (m : nat) :
  (m < length data)%nat ->
  let returns := fold_left (returnsStep data) (seq 1 m) [VNull] in
  length returns = S m /\ returns !! 0%nat = Some VNull.
Proof.
  induction m as [|m IH]; intros Hm; cbn zeta; [done|].
  rewrite seq_S, fold_left_app. cbn [fold_left Nat.add].
  destruct (IH ltac:(lia)) as (Hlen & H0).
  set (returns := fold_left (returnsStep data) (seq 1 m) [VNull]) in *.
  destruct (lookup_lt_is_Some_2 data (S m)) as [cur Hcur]; [lia|].
  destruct (lookup_lt_is_Some_2 data m) as [prev Hprev]; [lia|].
  unfold returnsStep. replace (S m - 1)%nat with m by lia.
  rewrite Hcur, Hprev. split.
  - rewrite length_app. cbn [length]. lia.
  - by rewrite lookup_app_l by lia.
Qed.

(** C5.  Provided the library returns no more values than it is given
    candles, every indicator function returns without throwing; below the
    indicator's minimum required length the series (each sub-series of MACD,
    Bollinger and Stochastic) is empty, and from that length on it has
    exactly the length of the input, made of [null] at every position the
    library produced no value for, followed by the library's values.  OBV
    and returns are empty below two candles and as long as the input from
    two on, returns starting with [null]. *)
Theorem indicator_series_aligned `{!TechnicalIndicators} (data : list Candle)
    (p : Periods) :
  libraryWithinInput data p ->
  let n := length data in
  let closes := map close data in
  let highs := map high data in
  let lows := map low data in
  (exists series,
     calculateSMA data (period_sma p) = Returns series /\
     alignedOrEmpty n (period_sma p) (SMA_calculate (period_sma p) closes)
                    series) /\
  (exists series,
     calculateEMA data (period_ema p) = Returns series /\
     alignedOrEmpty n (period_ema p) (EMA_calculate (period_ema p) closes)
                    series) /\
  (exists series,
     calculateRSI data (period_rsi p) = Returns series /\
     alignedOrEmpty n (period_rsi p + 1)
                    (RSI_calculate (period_rsi p) closes) series) /\
  (let macdResult := MACD_calculate (period_macdFast p) (period_macdSlow p)
                                    (period_macdSignal p) closes in
   let minimum := (period_macdSlow p + period_macdSignal p)%nat in
   exists series,
     calculateMACD data (period_macdFast p) (period_macdSlow p)
                   (period_macdSignal p) = Returns series /\
     alignedOrEmpty n minimum (map item_MACD macdResult) (macd series) /\
     alignedOrEmpty n minimum (map item_signal macdResult) (signal series) /\
     alignedOrEmpty n minimum (map item_histogram macdResult)
                    (histogram series)) /\
  (let bbResult := BollingerBands_calculate (period_bollinger p)
                                            (width_bollinger p) closes in
   exists series,
     calculateBollingerBands data (period_bollinger p) (width_bollinger p)
     = Returns series /\
     alignedOrEmpty n (period_bollinger p) (map item_upper bbResult)
                    (upper series) /\
     alignedOrEmpty n (period_bollinger p) (map item_middle bbResult)
                    (middle series) /\
     alignedOrEmpty n (period_bollinger p) (map item_lower bbResult)
                    (lower series)) /\
  (exists series,
     calculateATR data (period_atr p) = Returns series /\
     alignedOrEmpty n (period_atr p + 1)
                    (ATR_calculate (period_atr p) highs lows closes) series) /\
  (let stoch := Stochastic_calculate (period_stochastic p)
                                     (period_stochasticSignal p)
                                     highs lows closes in
   exists series,
     calculateStochastic data (period_stochastic p) (period_stochasticSignal p)
     = Returns series /\
     alignedOrEmpty n (period_stochastic p) (map item_k stoch) (k series) /\
     alignedOrEmpty n (period_stochastic p) (map item_d stoch) (d series)) /\
  (if (n <? 2)%nat then calculateOBV data = []
   else length (calculateOBV data) = n) /\
  (if (n <? 2)%nat then calculateReturns data = []
   else length (calculateReturns data) = n /\
        calculateReturns data !! 0%nat = Some VNull).
Proof.
  intros (Hsma & Hema & Hrsi & Hmacd & Hbb & Hatr & Hstoch). cbn zeta.
  split; [by apply calculateSMA_aligned|].
  split; [by apply calculateEMA_aligned|].
  split; [by apply calculateRSI_aligned|].
  split; [by apply calculateMACD_aligned|].
  split; [by apply calculateBollingerBands_aligned|].
  split; [by apply calculateATR_aligned|].
  split; [by apply calculateStochastic_aligned|].
  split.
  - unfold calculateOBV. destruct (length data <? 2)%nat eqn:Hlen; [done|].
    apply Nat.ltb_ge in Hlen.
    destruct (obvStep_fold data (length data - 1) ltac:(lia)) as (Hl & _).
    cbn zeta in Hl. rewrite Hl. lia.
  - unfold calculateReturns. destruct (length data <? 2)%nat eqn:Hlen; [done|].
    apply Nat.ltb_ge in Hlen.
    destruct (returnsStep_fold data (length data - 1) ltac:(lia)) as (Hl & H0).
    cbn zeta in Hl, H0. rewrite Hl. split; [lia|done].
Qed.

Lemma indicator_series_aligned_witness :
  @libraryWithinInput Textbook.library hourlyWithGap shortPeriods /\
  (exists series,
     @calculateSMA Textbook.library hourlyWithGap 2 = Returns series /\
     alignedOrEmpty 4 2 (Textbook.SMA 2 (map close hourlyWithGap)) series) /\
  (exists series,
     @calculateMACD Textbook.library hourlyWithGap 1 2 2 = Returns series /\
     alignedOrEmpty 4 4 (map item_MACD (Textbook.MACD 1 2 2 (map close hourlyWithGap)))
                    (macd series) /\
     alignedOrEmpty 4 4 (map item_signal (Textbook.MACD 1 2 2 (map close hourlyWithGap)))
                    (signal series) /\
     alignedOrEmpty 4 4 (map item_histogram (Textbook.MACD 1 2 2 (map close hourlyWithGap)))
                    (histogram series)).
Proof.
  assert (Hlib : @libraryWithinInput Textbook.library hourlyWithGap shortPeriods).
  { unfold libraryWithinInput. repeat split; vm_compute; lia. }
  split; [exact Hlib|].
  pose proof (@indicator_series_aligned Textbook.library hourlyWithGap
                shortPeriods Hlib) as Haligned.
  cbn zeta in Haligned.
  destruct Haligned as (Hsma & _ & _ & Hmacd & _).
  split; [exact Hsma|exact Hmacd].
Defined.

(** The scenario of twenty candles closing at 100: nineteen nulls, then the
    average. *)
Example calculateSMA_constant_close :
  let data := map (fun i : nat => rawCandle (Z.of_nat i * 3600000) 100 100 100 100 1)
                  (seq 0 20) in
  exists average,
    @calculateSMA Textbook.library data 20
    = Returns (replicate 19 VNull ++ [VNumber (Finite average)]) /\
    average = 100%R.
Proof.
  eexists. split.
  - cbn. reflexivity.
  - unfold Textbook.mean, Textbook.sumList. cbn. lra.
Qed.

(** ** Claims on the request handlers *)

Lemma not_array_rejected (data : DataParam) :
  data = DataUndefined \/ isArray data = false ->
  negb (truthy data) || negb (isArray data) = true.
Proof.
  intros [->|Hnot]; [reflexivity|].
  rewrite Hnot. cbn. apply orb_true_r.
Qed.

(** C10.  On a POST whose body parses to a value, both handlers answer a
    request whose [data] is missing or is not an array with status 400 and
    the message naming the expected shape; the answer is there whatever the
    options, the requested indicators and the turns allowed to the cleaning
    stages, none of which is run. *)
Theorem handlers_reject_invalid_data `{!TechnicalIndicators}
    (processEvent : Event ProcessRequest)
    (indicatorEvent : Event IndicatorRequest)
    (processRequest : ProcessRequest) (indicatorRequest : IndicatorRequest) :
  httpMethod processEvent = "POST" ->
  body processEvent = BodyValue processRequest ->
  process_data processRequest = DataUndefined \/
  isArray (process_data processRequest) = false ->
  httpMethod indicatorEvent = "POST" ->
  body indicatorEvent = BodyValue indicatorRequest ->
  indicator_data indicatorRequest = DataUndefined \/
  isArray (indicator_data indicatorRequest) = false ->
  (forall fuel, processHandler fuel processEvent = Some validationError) /\
  indicatorHandler indicatorEvent = validationError /\
  statusCode validationError = 400%nat.
Proof.
  intros Hpost Hbody Hdata Hpost' Hbody' Hdata'. split; [|split].
  - intros fuel. unfold processHandler. rewrite Hpost, Hbody. cbn.
    by rewrite (not_array_rejected _ Hdata).
  - unfold indicatorHandler. rewrite Hpost', Hbody'. cbn.
    by rewrite (not_array_rejected _ Hdata').
  - reflexivity.
Qed.

Lemma handlers_reject_invalid_data_witness :
  (forall fuel,
     processHandler fuel
       (mkEvent "POST" (BodyValue (mkProcessRequest (DataString "BTC/USDT") (Some defaultOptions))))
     = Some validationError) /\
  @indicatorHandler Textbook.library
    (mkEvent "POST" (BodyValue (mkIndicatorRequest DataUndefined None (Some defaultParameters))))
  = validationError /\
  statusCode validationError = 400%nat.
Proof.
  apply (@handlers_reject_invalid_data Textbook.library
           (mkEvent "POST" (BodyValue (mkProcessRequest (DataString "BTC/USDT") (Some defaultOptions))))
           (mkEvent "POST" (BodyValue (mkIndicatorRequest DataUndefined None (Some defaultParameters))))
           (mkProcessRequest (DataString "BTC/USDT") (Some defaultOptions))
           (mkIndicatorRequest DataUndefined None (Some defaultParameters))).
  - reflexivity.
  - reflexivity.
  - right. reflexivity.
  - reflexivity.
  - reflexivity.
  - left. reflexivity.
Defined.

(** The scenario of two hourly candles under the default options: every
    stage runs and the candles come back as they were. *)
Example processHandler_two_candles :
  let candles := [rawCandle 0 100 105 98 102 10;
                  rawCandle 3600000 102 108 101 106 12] in
  processHandler 2
    (mkEvent "POST"
       (BodyValue (mkProcessRequest
                     (DataArray candles)
                     (Some defaultOptions))))
  = Some (mkResponse 200 corsHeaders
            (ProcessedBody 2 2
               ["alignTimestamps"; "handleMissingValues"; "removeOutliers"]
               candles)).
Proof. vm_compute. reflexivity. Qed.

(** * Further properties of the pipeline *)

(** ** Timeframe inference and alignment *)

(** Only the first ten candles are sampled: the rest of the sequence has no
    influence on the inferred timeframe. *)
Theorem getTimeframeFromData_first_ten (data : list Candle) :
  getTimeframeFromData data = getTimeframeFromData (take 10 data).
Proof.
  assert (Hdiff : timestampDifferences (take 10 data) = timestampDifferences data).
  { rewrite !timestampDifferences_map, length_take.
    replace (Nat.min (Nat.min 10 (length data)) 10 - 1)%nat
      with (Nat.min (length data) 10 - 1)%nat by lia.
    apply map_ext_in. intros i Hi. apply in_seq in Hi.
    by rewrite !lookup_take_lt by lia. }
  unfold getTimeframeFromData. rewrite Hdiff, length_take.
  destruct (length data <? 2)%nat eqn:Hlen.
  - apply Nat.ltb_lt in Hlen.
    by rewrite (proj2 (Nat.ltb_lt (Nat.min 10 (length data)) 2)) by lia.
  - apply Nat.ltb_ge in Hlen.
    by rewrite (proj2 (Nat.ltb_ge (Nat.min 10 (length data)) 2)) by lia.
Qed.

(** With a detectable timeframe, alignment keeps the number of candles and
    every field of a candle except its timestamp, date and original
    timestamp; the new timestamp is the multiple of the timeframe at or
    below the old one (at or above it for a negative timeframe, which an
    unsorted input can yield), the date is that of the new timestamp, and
    the old timestamp is recorded exactly when it moved. *)
Theorem alignTimestamps_floor (data : list Candle) (tf : Z) (i : nat)
    (candle : Candle) :
  detectable (getTimeframeFromData data) = Some tf ->
  data !! i = Some candle ->
  length (alignTimestamps data) = length data /\
  exists aligned,
    alignTimestamps data !! i = Some aligned /\
    (tf | timestamp aligned) /\
    (0 < tf -> timestamp aligned <= timestamp candle < timestamp aligned + tf) /\
    (tf < 0 -> timestamp aligned + tf < timestamp candle <= timestamp aligned) /\
    datetime aligned = toISOString (timestamp aligned) /\
    originalTimestamp aligned =
      (if decide (timestamp aligned = timestamp candle) then None
       else Some (timestamp candle)) /\
    open aligned = open candle /\ high aligned = high candle /\
    low aligned = low candle /\ close aligned = close candle /\
    volume aligned = volume candle.
Proof.
  intros Hdet Hi. pose proof Hdet as [_ Hne]%detectable_Some.
  unfold alignTimestamps. destruct data as [|c0 data']; [done|].
  rewrite Hdet. split; [by rewrite length_map|].
  exists (alignCandle tf candle). split; [by rewrite list_lookup_fmap, Hi|].
  unfold alignCandle. cbn.
  split; [apply Z.divide_factor_r|].
  pose proof (Z.div_mod (timestamp candle) tf Hne) as Hdm.
  split; [intros Hpos; pose proof (Z.mod_pos_bound (timestamp candle) tf Hpos); lia|].
  split; [intros Hneg; pose proof (Z.mod_neg_bound (timestamp candle) tf Hneg); lia|].
  split; [done|]. split; [|done].
  destruct (timestamp candle =? timestamp candle / tf * tf) eqn:Heq.
  - apply Z.eqb_eq in Heq. by rewrite decide_True.
  - apply Z.eqb_neq in Heq. by rewrite decide_False.
Qed.

Lemma alignTimestamps_floor_witness :
  length (alignTimestamps driftingCandles) = length driftingCandles /\
  exists aligned,
    alignTimestamps driftingCandles !! 1%nat = Some aligned /\
    (3 | timestamp aligned) /\
    (0 < 3 -> timestamp aligned <= timestamp (rawCandle 4 102 108 101 106 12)
              < timestamp aligned + 3) /\
    (3 < 0 -> timestamp aligned + 3 < timestamp (rawCandle 4 102 108 101 106 12)
              <= timestamp aligned) /\
    datetime aligned = toISOString (timestamp aligned) /\
    originalTimestamp aligned =
      (if decide (timestamp aligned = timestamp (rawCandle 4 102 108 101 106 12))
       then None else Some (timestamp (rawCandle 4 102 108 101 106 12))) /\
    open aligned = open (rawCandle 4 102 108 101 106 12) /\
    high aligned = high (rawCandle 4 102 108 101 106 12) /\
    low aligned = low (rawCandle 4 102 108 101 106 12) /\
    close aligned = close (rawCandle 4 102 108 101 106 12) /\
    volume aligned = volume (rawCandle 4 102 108 101 106 12).
Proof.
  apply (alignTimestamps_floor driftingCandles 3 1
           (rawCandle 4 102 108 101 106 12)).
  - vm_compute. reflexivity.
  - reflexivity.
Defined.

(** ** The gap filler: termination, duplicates, fixed points *)

Lemma generateExpectedTimestampsLoop_more_fuel (fuel fuel' : nat)
    (timestamps : list Z) (currentTimestamp endTimestamp timeframeMs : Z)
    (result : list Z) :
  (fuel <= fuel')%nat ->
  generateExpectedTimestampsLoop fuel timestamps currentTimestamp endTimestamp
                                 timeframeMs = Some result ->
  generateExpectedTimestampsLoop fuel' timestamps currentTimestamp endTimestamp
                                 timeframeMs = Some result.
Proof.
  revert fuel' timestamps currentTimestamp.
  induction fuel as [|fuel IH]; intros fuel' acc cur Hle.
  - cbn. destruct (cur <=? endTimestamp) eqn:Hcur; [done|].
    intros Hres. destruct fuel'; cbn; by rewrite Hcur.
  - destruct fuel' as [|fuel']; [lia|]. cbn.
    destruct (cur <=? endTimestamp); [|done]. apply IH. lia.
Qed.

Lemma handleMissingValues_more_fuel (fuel fuel' : nat) (data out : list Candle) :
  (fuel <= fuel')%nat ->
  handleMissingValues fuel data = Some out ->
  handleMissingValues fuel' data = Some out.
Proof.
  intros Hle. unfold handleMissingValues. destruct data as [|c data']; [done|].
  destruct (detectable _) as [tf|]; [|done].
  destruct (head _) as [c0|]; [|done]. destruct (last _) as [cl|]; [|done].
  cbn [mbind option_bind]. unfold generateExpectedTimestamps.
  destruct (generateExpectedTimestampsLoop fuel [] (timestamp c0) (timestamp cl) tf)
    as [expected|] eqn:Hgen; [|done].
  by rewrite (generateExpectedTimestampsLoop_more_fuel _ _ _ _ _ _ _ Hle Hgen).
Qed.

Lemma handleMissingValues_returns (data : list Candle) :
  exists (out : list Candle) (fuel0 : nat),
    forall fuel, (fuel0 <= fuel)%nat -> handleMissingValues fuel data = Some out.
Proof.
  destruct (detectable (getTimeframeFromData (sortByTimestamp data)))
    as [tf|] eqn:Hdet.
  - destruct (handleMissingValues_filled data tf Hdet)
      as (c0 & n & _ & _ & _ & Hfill).
    destruct (Hfill n (Nat.le_refl n)) as (out & Hout & _).
    exists out, n. intros fuel Hfuel.
    by apply (handleMissingValues_more_fuel n).
  - exists (sortByTimestamp data), 0%nat. intros fuel _.
    unfold handleMissingValues. destruct data; [done|]. by rewrite Hdet.
Qed.


Lemma insertByTimestamp_filter (t : Z) (c : Candle) (l : list Candle) :
  filter (fun x => timestamp x = t) (insertByTimestamp c l) =
  filter (fun x => timestamp x = t) (c :: l).
Proof.
  induction l as [|x l IH]; cbn [insertByTimestamp]; [done|].
  destruct (timestamp c <=? timestamp x) eqn:Hcx; [done|].
  apply Z.leb_gt in Hcx. rewrite filter_cons, IH, !filter_cons.
  destruct (decide (timestamp x = t)), (decide (timestamp c = t)); try done.
  lia.
Qed.

(** The sort is stable: candles sharing a timestamp keep their order. *)
Lemma sortByTimestamp_filter (t : Z) (data : list Candle) :
  filter (fun x => timestamp x = t) (sortByTimestamp data) =
  filter (fun x => timestamp x = t) data.
Proof.
  induction data as [|c data IH]; [done|]. cbn [sortByTimestamp foldr].
  fold (sortByTimestamp data).
  by rewrite insertByTimestamp_filter, !filter_cons, IH.
Qed.




Example handleMissingValues_duplicatedHour :
  handleMissingValues 3 duplicatedHour =
  Some [rawCandle 0 100 105 98 102 10;
        rawCandle 3600000 103 109 102 107 13;
        rawCandle 7200000 106 109 104 107 8].
Proof. vm_compute. reflexivity. Qed.

Lemma sortByTimestamp_sorted_id (data : list Candle) :
  StronglySorted timestampLe data -> sortByTimestamp data = data.
Proof.
  induction 1 as [|c l Hl IH Hc]; [done|].
  cbn [sortByTimestamp foldr]. fold (sortByTimestamp l). rewrite IH.
  destruct l as [|x l']; [done|]. cbn.
  apply Forall_cons in Hc as [Hcx _]. unfold timestampLe in Hcx.
  by rewrite (proj2 (Z.leb_le _ _) Hcx).
Qed.

(** Without a detectable timeframe (fewer than two candles, or a modal delta
    of 0 as when most sampled candles share a timestamp) the gap filler adds
    and drops nothing: it returns the input in ascending timestamp order,
    candles of equal timestamp in their input order. *)
Theorem handleMissingValues_undetectable (data : list Candle) (fuel : nat) :
  detectable (getTimeframeFromData (sortByTimestamp data)) = None ->
  exists out,
    handleMissingValues fuel data = Some out /\
    out ≡ₚ data /\
    StronglySorted timestampLe out /\
    forall t, filter (fun x => timestamp x = t) out
              = filter (fun x => timestamp x = t) data.
Proof.
  intros Hdet. exists (sortByTimestamp data). split.
  - unfold handleMissingValues. destruct data; [done|]. by rewrite Hdet.
  - split; [apply sortByTimestamp_Permutation|].
    split; [apply sortByTimestamp_sorted|].
    intros t. apply sortByTimestamp_filter.
Qed.

Lemma handleMissingValues_undetectable_witness :
  exists out,
    handleMissingValues 0 simultaneousCandles = Some out /\
    out ≡ₚ simultaneousCandles /\
    StronglySorted timestampLe out /\
    forall t, filter (fun x => timestamp x = t) out
              = filter (fun x => timestamp x = t) simultaneousCandles.
Proof.
  apply (handleMissingValues_undetectable simultaneousCandles 0).
  vm_compute. reflexivity.
Defined.

Lemma StronglySorted_timestamps (data : list Candle) :
  StronglySorted Z.lt (map timestamp data) -> StronglySorted timestampLe data.
Proof.
  induction data as [|c data IH]; cbn; [constructor|].
  intros Hs. apply StronglySorted_inv in Hs as [Hs Hc].
  constructor; [by apply IH|].
  rewrite Forall_fmap in Hc. eapply Forall_impl; [exact Hc|].
  intros x Hx. cbn in Hx. unfold timestampLe. lia.
Qed.

(** The expected timestamps for a positive stride, counted. *)
Lemma generateExpectedTimestamps_count
    (startTimestamp endTimestamp timeframeMs : Z) (fuel : nat) :
  0 < timeframeMs -> startTimestamp <= endTimestamp ->
  let n := Z.to_nat ((endTimestamp - startTimestamp) / timeframeMs + 1) in
  (n <= fuel)%nat ->
  generateExpectedTimestamps fuel startTimestamp endTimestamp timeframeMs
  = Some (timestampGrid startTimestamp timeframeMs n).
Proof.
  intros Htf Hle n Hfuel.
  pose proof (Z.div_pos (endTimestamp - startTimestamp) timeframeMs
                ltac:(lia) Htf) as Hq.
  pose proof (Z.mul_div_le (endTimestamp - startTimestamp) timeframeMs Htf).
  pose proof (Z.mul_succ_div_gt (endTimestamp - startTimestamp) timeframeMs Htf).
  unfold generateExpectedTimestamps.
  rewrite (generateExpectedTimestampsLoop_grid timeframeMs endTimestamp n);
    [done|done|done| |]; unfold n; rewrite Z2Nat.id by lia; nia.
Qed.

(** The gap filler with a detectable timeframe, with the count of expected
    timestamps made explicit. *)
Lemma handleMissingValues_filled_count (data : list Candle) (tf : Z)
    (firstCandle lastCandle : Candle) :
  detectable (getTimeframeFromData (sortByTimestamp data)) = Some tf ->
  head (sortByTimestamp data) = Some firstCandle ->
  last (sortByTimestamp data) = Some lastCandle ->
  let n := Z.to_nat ((timestamp lastCandle - timestamp firstCandle) / tf + 1) in
  0 < tf /\ timestamp firstCandle <= timestamp lastCandle /\
  forall fuel, (n <= fuel)%nat ->
    exists out,
      handleMissingValues fuel data = Some out /\
      length out = n /\
      forall i, (i < n)%nat ->
        filledAt (buildDataMap (sortByTimestamp data)) out i
                 (timestamp firstCandle + Z.of_nat i * tf).
Proof.
  intros Hdet Hhead Hlast n.
  pose proof (sortByTimestamp_sorted data) as Hsorted.
  pose proof (detectable_sorted_pos _ _ Hsorted Hdet) as Htf.
  assert (Hle : timestamp firstCandle <= timestamp lastCandle).
  { rewrite head_lookup in Hhead. rewrite last_lookup in Hlast.
    destruct (decide (pred (length (sortByTimestamp data)) = 0%nat)) as [H0|Hn0].
    - rewrite H0, Hhead in Hlast. injection Hlast as ->. lia.
    - apply (StronglySorted_lookup_lt timestampLe (sortByTimestamp data) 0
               (pred (length (sortByTimestamp data))));
        [done|lia|done|done]. }
  split; [done|]. split; [done|]. intros fuel Hfuel.
  unfold handleMissingValues.
  destruct data as [|d data']; [done|].
  set (sortedData := sortByTimestamp (d :: data')) in *.
  rewrite Hdet, Hhead, Hlast. cbn [mbind option_bind].
  rewrite (generateExpectedTimestamps_count _ _ _ fuel Htf Hle Hfuel).
  cbn [mbind option_bind]. fold n.
  destruct (fillTimestamp_fold (buildDataMap sortedData)
              (timestampGrid (timestamp firstCandle) tf n)) as (Hl & _ & Hat).
  { intros t0 Ht0. rewrite head_lookup in Ht0.
    apply timestampGrid_lookup in Ht0 as [_ ->].
    replace (timestamp firstCandle + Z.of_nat 0 * tf)
      with (timestamp firstCandle) by lia.
    apply buildDataMap_present. rewrite head_lookup in Hhead.
    by eapply list_elem_of_lookup_2. }
  eexists. split; [reflexivity|]. split.
  - by rewrite Hl, timestampGrid_length.
  - intros i Hi. apply Hat. by apply timestampGrid_lookup.
Qed.

(** With a detectable timeframe the filled sequence has
    floor((last - first) / timeframe) + 1 candles, from the first sorted
    timestamp to the last grid point, which is less than one timeframe
    before the last input timestamp. *)
Theorem handleMissingValues_count (data : list Candle) (tf : Z)
    (firstCandle lastCandle : Candle) :
  detectable (getTimeframeFromData (sortByTimestamp data)) = Some tf ->
  head (sortByTimestamp data) = Some firstCandle ->
  last (sortByTimestamp data) = Some lastCandle ->
  let span := timestamp lastCandle - timestamp firstCandle in
  exists (out : list Candle) (fuel0 : nat) (final : Candle),
    (forall fuel, (fuel0 <= fuel)%nat -> handleMissingValues fuel data = Some out) /\
    Z.of_nat (length out) = span / tf + 1 /\
    last out = Some final /\
    timestamp final = timestamp firstCandle + span / tf * tf /\
    timestamp lastCandle - tf < timestamp final <= timestamp lastCandle.
Proof.
  intros Hdet Hhead Hlast span.
  destruct (handleMissingValues_filled_count data tf firstCandle lastCandle
              Hdet Hhead Hlast) as (Htf & Hle & Hfill).
  set (n := Z.to_nat ((timestamp lastCandle - timestamp firstCandle) / tf + 1))
    in Hfill.
  pose proof (Z.div_pos span tf ltac:(unfold span; lia) Htf) as Hq.
  destruct (Hfill n (Nat.le_refl n)) as (out & Hout & Hlen & Hat).
  assert (Hn : Z.of_nat n = span / tf + 1).
  { unfold n. fold span. rewrite Z2Nat.id; lia. }
  destruct (filledAt_timestamp _ _ _ _ (Hat (pred n) ltac:(lia)))
    as (final & Hfinal & Hts).
  exists out, n, final. split.
  { intros fuel Hfuel. by apply (handleMissingValues_more_fuel n). }
  split; [lia|]. split; [by rewrite last_lookup, Hlen|].
  assert (Hts' : timestamp final = timestamp firstCandle + span / tf * tf).
  { rewrite Hts. replace (Z.of_nat (pred n)) with (span / tf) by lia. done. }
  split; [done|].
  pose proof (Z.mul_div_le span tf Htf).
  pose proof (Z.mul_succ_div_gt span tf Htf). unfold span in *. lia.
Qed.

Lemma handleMissingValues_count_witness :
  let span := timestamp (rawCandle 10800000 108 111 106 109 7)
              - timestamp (rawCandle 0 100 105 98 102 10) in
  exists (out : list Candle) (fuel0 : nat) (final : Candle),
    (forall fuel, (fuel0 <= fuel)%nat ->
       handleMissingValues fuel hourlyWithStray = Some out) /\
    Z.of_nat (length out) = span / 3600000 + 1 /\
    last out = Some final /\
    timestamp final
    = timestamp (rawCandle 0 100 105 98 102 10) + span / 3600000 * 3600000 /\
    timestamp (rawCandle 10800000 108 111 106 109 7) - 3600000
    < timestamp final <= timestamp (rawCandle 10800000 108 111 106 109 7).
Proof.
  apply (handleMissingValues_count hourlyWithStray 3600000
           (rawCandle 0 100 105 98 102 10)
           (rawCandle 10800000 108 111 106 109 7)).
  - vm_compute. reflexivity.
  - reflexivity.
  - reflexivity.
Defined.

Lemma timestampGrid_inj (start tf : Z) (n i j : nat) (t : Z) :
  tf <> 0 ->
  timestampGrid start tf n !! i = Some t ->
  timestampGrid start tf n !! j = Some t -> i = j.
Proof.
  intros Htf [_ ->]%timestampGrid_lookup [_ Heq]%timestampGrid_lookup. nia.
Qed.

Lemma handleMissingValues_grid_fixed (data : list Candle) (start tf : Z)
    (fuel : nat) :
  0 < tf ->
  map timestamp data = timestampGrid start tf (length data) ->
  (length data <= fuel)%nat ->
  handleMissingValues fuel data = Some data.
Proof.
  intros Htf Hgrid Hfuel.
  destruct data as [|c0 [|c1 rest]]; [done|done|].
  set (data := c0 :: c1 :: rest) in *.
  assert (Hsorted : StronglySorted timestampLe data).
  { apply StronglySorted_timestamps. rewrite Hgrid.
    by apply timestampGrid_sorted. }
  assert (Hsort : sortByTimestamp data = data)
    by (by apply sortByTimestamp_sorted_id).
  assert (Hat : forall i c, data !! i = Some c ->
                  timestamp c = start + Z.of_nat i * tf).
  { intros i c Hi.
    assert (Hti : map timestamp data !! i = Some (timestamp c))
      by (by rewrite list_lookup_fmap, Hi).
    rewrite Hgrid in Hti. by apply timestampGrid_lookup in Hti as [_ ?]. }
  assert (Hdet : detectable (getTimeframeFromData data) = Some tf).
  { apply detectable_Some. split; [|lia].
    destruct (getTimeframeFromData_mode data ltac:(cbn; lia))
      as (tf' & -> & Hin & _).
    f_equal. apply list_elem_of_lookup in Hin as [i Hi].
    assert (Hlt : (i < Nat.min (length data) 10 - 1)%nat).
    { rewrite <- timestampDifferences_length. by eapply lookup_lt_Some. }
    destruct (timestampDifferences_lookup data i Hlt)
      as (prev & cur & Hprev & Hcur & Hdiff).
    rewrite Hdiff in Hi. injection Hi as <-.
    rewrite (Hat _ _ Hprev), (Hat _ _ Hcur). lia. }
  destruct (lookup_lt_is_Some_2 data (pred (length data))) as [cl Hcl]; [cbn; lia|].
  rewrite <- Hsort in Hdet.
  destruct (handleMissingValues_filled_count data tf c0 cl Hdet)
    as (_ & _ & Hfill).
  { by rewrite Hsort. }
  { by rewrite Hsort, last_lookup. }
  assert (Hn : Z.to_nat ((timestamp cl - timestamp c0) / tf + 1) = length data).
  { rewrite (Hat _ _ Hcl), (Hat 0%nat c0 eq_refl).
    replace (start + Z.of_nat (pred (length data)) * tf - (start + Z.of_nat 0 * tf))
      with (Z.of_nat (pred (length data)) * tf) by lia.
    rewrite Z.div_mul by lia. cbn [length data]. lia. }
  rewrite Hn in Hfill.
  destruct (Hfill fuel Hfuel) as (out & Hout & Hlen & Hfilled).
  rewrite Hout. f_equal. apply list_eq. intros i.
  destruct (decide (i < length data)%nat) as [Hi|Hi].
  - specialize (Hfilled i Hi). unfold filledAt in Hfilled. rewrite Hsort in Hfilled.
    replace (timestamp c0) with start in Hfilled
      by (rewrite (Hat 0%nat c0 eq_refl); lia).
    destruct (lookup_lt_is_Some_2 data i Hi) as [c Hc].
    rewrite Hc. rewrite <- (Hat _ _ Hc) in Hfilled.
    destruct (buildDataMap_present data c) as [c' Hc'];
      [by eapply list_elem_of_lookup_2|].
    rewrite Hc' in Hfilled. rewrite Hfilled. f_equal.
    apply buildDataMap_lookup in Hc' as [Hin Hts].
    apply list_elem_of_lookup in Hin as [j Hj].
    assert (j = i) as ->.
    { apply (timestampGrid_inj start tf (length data) j i (timestamp c));
        [lia| |]; rewrite <- Hgrid, list_lookup_fmap.
      - by rewrite Hj; cbn; rewrite Hts.
      - by rewrite Hc. }
    rewrite Hc in Hj. by injection Hj.
  - by rewrite !lookup_ge_None_2 by lia.
Qed.

Lemma stepsBy_timestampGrid (tf : Z) (l : list Z) :
  stepsBy tf l ->
  forall start, head l = Some start -> l = timestampGrid start tf (length l).
Proof.
  induction l as [|a l IH]; intros Hsteps start Hhead; [done|].
  injection Hhead as ->. cbn [length]. rewrite timestampGrid_S. f_equal.
  destruct l as [|b l]; [done|]. apply IH.
  - intros i x y Hx Hy. exact (Hsteps (S i) x y Hx Hy).
  - cbn. f_equal. pose proof (Hsteps 0%nat start b eq_refl eq_refl). lia.
Qed.

(** A sequence whose consecutive timestamps all differ by the same positive
    step has no gap to fill: it is returned as it is, whatever its prices
    and volumes. *)
Theorem handleMissingValues_complete_grid (data : list Candle) (tf : Z)
    (fuel : nat) :
  0 < tf ->
  stepsBy tf (map timestamp data) ->
  (length data <= fuel)%nat ->
  handleMissingValues fuel data = Some data.
Proof.
  intros Htf Hsteps Hfuel. destruct data as [|c0 rest] eqn:Hdata; [done|].
  rewrite <- Hdata in *.
  apply (handleMissingValues_grid_fixed data (timestamp c0) tf fuel);
    [done| |done].
  rewrite <- (length_map timestamp data).
  apply stepsBy_timestampGrid; [done|]. by rewrite Hdata.
Qed.

Lemma handleMissingValues_complete_grid_witness :
  handleMissingValues 4
    [rawCandle 0 100 105 98 102 10;
     rawCandle 3600000 102 108 101 106 12;
     rawCandle 7200000 106 109 104 107 8;
     rawCandle 10800000 108 111 106 109 7]
  = Some [rawCandle 0 100 105 98 102 10;
          rawCandle 3600000 102 108 101 106 12;
          rawCandle 7200000 106 109 104 107 8;
          rawCandle 10800000 108 111 106 109 7].
Proof.
  apply (handleMissingValues_complete_grid _ 3600000 4).
  - lia.
  - exact (timestampGrid_stepsBy 0 3600000 4).
  - cbn. lia.
Defined.

(** Filling is idempotent: the filled sequence is a fixed point of the gap
    filler, whatever the input. *)
Theorem handleMissingValues_idempotent (data : list Candle) :
  exists (out : list Candle) (fuel0 : nat),
    forall fuel, (fuel0 <= fuel)%nat ->
      handleMissingValues fuel data = Some out /\
      handleMissingValues fuel out = Some out.
Proof.
  destruct (detectable (getTimeframeFromData (sortByTimestamp data)))
    as [tf|] eqn:Hdet.
  - destruct (handleMissingValues_timestamps data tf Hdet)
      as (c0 & n & _ & Htf & _ & Hfill).
    destruct (Hfill n (Nat.le_refl n)) as (out & Hout & Hts).
    assert (Hlen : length out = n).
    { by rewrite <- (length_map timestamp), Hts, timestampGrid_length. }
    exists out, n. intros fuel Hfuel. split.
    + by apply (handleMissingValues_more_fuel n).
    + apply (handleMissingValues_grid_fixed out (timestamp c0) tf);
        [done|by rewrite Hlen|lia].
  - exists (sortByTimestamp data), 0%nat. intros fuel _.
    assert (Hagain : sortByTimestamp (sortByTimestamp data) = sortByTimestamp data).
    { apply sortByTimestamp_sorted_id, sortByTimestamp_sorted. }
    split; unfold handleMissingValues.
    + destruct data; [done|]. by rewrite Hdet.
    + destruct (sortByTimestamp data) eqn:Hs; [done|].
      rewrite <- Hs in *. by rewrite Hagain, Hdet.
Qed.

(** ** The outlier corrector and the normalizer *)

Local Open Scope R_scope.

(** Whatever the batch and the threshold, the corrector keeps the number of
    candles and, in each candle, every field but [high], [low] and the
    [outlierCorrected] flag; it never raises a high nor lowers a low, and it
    changes at most one of the two in a candle; a candle it changes is
    flagged. *)
Theorem removeOutliers_only_clamps (data : list Candle) (threshold : R)
    (i : nat) (candle : Candle) :
  data !! i = Some candle ->
  length (removeOutliers data threshold) = length data /\
  exists corrected,
    removeOutliers data threshold !! i = Some corrected /\
    timestamp corrected = timestamp candle /\
    datetime corrected = datetime candle /\
    open corrected = open candle /\ close corrected = close candle /\
    volume corrected = volume candle /\
    interpolated corrected = interpolated candle /\
    originalTimestamp corrected = originalTimestamp candle /\
    high corrected <= high candle /\ low candle <= low corrected /\
    (high corrected = high candle \/ low corrected = low candle) /\
    (high corrected <> high candle \/ low corrected <> low candle ->
     outlierCorrected corrected = Some true).
Proof.
  intros Hi. unfold removeOutliers.
  destruct (length data <? 10)%nat.
  - split; [done|]. exists candle. split; [done|].
    repeat split; try done; try lra; try (by left); try (intros [?|?]; done).
  - split; [by rewrite length_map|].
    exists (correctCandle data threshold candle).
    split; [by rewrite list_lookup_fmap, Hi|].
    unfold correctCandle.
    destruct (js_gt (highZScore data candle) threshold).
    + cbn. repeat split; try done; try lra; try (by right). apply Rmin_l.
    + destruct (js_gt (lowZScore data candle) threshold).
      * cbn. repeat split; try done; try lra; try (by left). apply Rmax_l.
      * repeat split; try done; try lra; try (by left); try (intros [?|?]; done).
Qed.

Lemma removeOutliers_only_clamps_witness :
  length (removeOutliers spikeData 3) = length spikeData /\
  exists corrected,
    removeOutliers spikeData 3 !! 16%nat = Some corrected /\
    timestamp corrected = timestamp (rawCandle 57600000 19 37 1 19 1) /\
    datetime corrected = datetime (rawCandle 57600000 19 37 1 19 1) /\
    open corrected = open (rawCandle 57600000 19 37 1 19 1) /\
    close corrected = close (rawCandle 57600000 19 37 1 19 1) /\
    volume corrected = volume (rawCandle 57600000 19 37 1 19 1) /\
    interpolated corrected = interpolated (rawCandle 57600000 19 37 1 19 1) /\
    originalTimestamp corrected
    = originalTimestamp (rawCandle 57600000 19 37 1 19 1) /\
    high corrected <= high (rawCandle 57600000 19 37 1 19 1) /\
    low (rawCandle 57600000 19 37 1 19 1) <= low corrected /\
    (high corrected = high (rawCandle 57600000 19 37 1 19 1) \/
     low corrected = low (rawCandle 57600000 19 37 1 19 1)) /\
    (high corrected <> high (rawCandle 57600000 19 37 1 19 1) \/
     low corrected <> low (rawCandle 57600000 19 37 1 19 1) ->
     outlierCorrected corrected = Some true).
Proof.
  apply (removeOutliers_only_clamps spikeData 3 16
           (rawCandle 57600000 19 37 1 19 1)).
  reflexivity.
Defined.









Local Close Scope R_scope.

Local Open Scope R_scope.

Lemma fieldRange_map (field : Candle -> R) (g : Candle -> Candle)
    (l : list Candle) :
  (forall c, field (g c) = field c) ->
  fieldRange field (map g l) = fieldRange field l.
Proof.
  intros Hfg. unfold fieldRange. generalize (PosInfinity, NegInfinity).
  induction l as [|x l IH]; intros [mn mx]; [done|].
  cbn [map fold_left]. rewrite Hfg. apply IH.
Qed.

Lemma normalizeField_map (field : Candle -> R) (g : Candle -> Candle)
    (l : list Candle) (c : Candle) :
  (forall x, field (g x) = field x) ->
  normalizeField field (map g l) (g c) = normalizeField field l c.
Proof.
  intros Hfg. unfold normalizeField. by rewrite fieldRange_map, Hfg.
Qed.

(** Normalizing is idempotent: the normalized fields are computed from the
    original ones, which a first pass leaves as they were. *)
Theorem normalizeData_idempotent (data : list Candle) :
  normalizeData (normalizeData data) = normalizeData data.
Proof.
  destruct data as [|c0 rest]; [done|].
  set (data := c0 :: rest). unfold normalizeData at 2. fold data.
  change (normalizeData (map (normalizeCandle data) data)
          = map (normalizeCandle data) data).
  unfold normalizeData.
  destruct (map (normalizeCandle data) data) as [|n0 nrest] eqn:Hmap; [done|].
  rewrite <- Hmap. rewrite map_map. apply map_ext. intros c.
  unfold normalizeCandle at 1. cbn [timestamp datetime open high low close
    volume interpolated outlierCorrected originalTimestamp].
  unfold normalizeCandle at 11.
  by rewrite !(normalizeField_map _ (normalizeCandle data)).
Qed.




Local Close Scope R_scope.

(** ** The indicator engine: returns, result keys, library overflow *)

Local Open Scope R_scope.

(** The value pushed for two consecutive closes. *)
Lemma returnsStep_value (data : list Candle) (returns : list JsVal) (i : nat)
    (previous current : Candle) :
  data !! (i - 1)%nat = Some previous -> data !! i = Some current ->
  returnsStep data returns i =
  returns ++ [VNumber (js_times (js_div (close current - close previous)
                                        (close previous)) 100)].
Proof. intros Hp Hc. unfold returnsStep. by rewrite Hc, Hp. Qed.

Lemma returnsStep_fold_values (data : list Candle) (m : nat) :
  (m < length data)%nat ->
  let returns := fold_left (returnsStep data) (seq 1 m) [VNull] in
  length returns = S m /\
  forall i previous current,
    (1 <= i <= m)%nat ->
    data !! (i - 1)%nat = Some previous -> data !! i = Some current ->
    returns !! i =
    Some (VNumber (js_times (js_div (close current - close previous)
                                    (close previous)) 100)).
Proof.
  induction m as [|m IH]; intros Hm; cbn zeta.
  - split; [done|]. intros i p c Hi. lia.
  - rewrite seq_S, fold_left_app. cbn [fold_left Nat.add].
    destruct (IH ltac:(lia)) as (Hlen & Hvals).
    set (returns := fold_left (returnsStep data) (seq 1 m) [VNull]) in *.
    destruct (lookup_lt_is_Some_2 data (S m)) as [cur Hcur]; [lia|].
    destruct (lookup_lt_is_Some_2 data m) as [prev Hprev]; [lia|].
    rewrite (returnsStep_value data returns (S m) prev cur)
      by (done || by replace (S m - 1)%nat with m by lia).
    split; [rewrite length_app; cbn [length]; lia|].
    intros i p c Hi Hp Hc. destruct (decide (i = S m)) as [->|Hne].
    + replace (S m - 1)%nat with m in Hp by lia.
      rewrite Hprev in Hp. rewrite Hcur in Hc.
      injection Hp as <-. injection Hc as <-.
      by rewrite lookup_app_r, Hlen, Nat.sub_diag by lia.
    + rewrite lookup_app_l by lia. apply Hvals; [lia|done|done].
Qed.

(** On two candles or more, the returns series has a value at every index
    from 1 on: the percentage change of the close when the previous close is
    not zero; a previous close of zero is not guarded and gives NaN when the
    close is zero too, and an infinity of the sign of the close otherwise. *)
Theorem calculateReturns_values (data : list Candle) (i : nat)
    (previous current : Candle) :
  (1 <= i)%nat ->
  data !! (i - 1)%nat = Some previous -> data !! i = Some current ->
  exists value,
    calculateReturns data !! i = Some (VNumber value) /\
    (close previous <> 0 ->
     value = Finite ((close current - close previous) / close previous * 100)) /\
    (close previous = 0 -> close current = 0 -> value = NaN) /\
    (close previous = 0 -> 0 < close current -> value = PosInfinity) /\
    (close previous = 0 -> close current < 0 -> value = NegInfinity).
Proof.
  intros Hi Hp Hc.
  assert (Hlen : (i < length data)%nat) by (by eapply lookup_lt_Some).
  unfold calculateReturns.
  rewrite (proj2 (Nat.ltb_ge (length data) 2)) by lia.
  destruct (returnsStep_fold_values data (length data - 1) ltac:(lia))
    as (_ & Hvals).
  eexists. split; [apply (Hvals i previous current); [lia|done|done]|].
  unfold js_div. split; [|split; [|split]].
  - intros Hne. by rewrite (proj2 (Reqb_false _ _) Hne).
  - intros -> ->. rewrite (proj2 (Reqb_true 0 0)) by done.
    by rewrite (proj2 (Reqb_true (0 - 0) 0)) by lra.
  - intros -> Hpos. rewrite (proj2 (Reqb_true 0 0)) by done.
    rewrite (proj2 (Reqb_false (close current - 0) 0)) by lra.
    rewrite (proj2 (Rltb_true 0 (close current - 0))) by lra. cbn.
    rewrite (proj2 (Reqb_false 100 0)) by lra.
    by rewrite (proj2 (Rltb_true 0 100)) by lra.
  - intros -> Hneg. rewrite (proj2 (Reqb_true 0 0)) by done.
    rewrite (proj2 (Reqb_false (close current - 0) 0)) by lra.
    rewrite (proj2 (Rltb_false 0 (close current - 0))) by lra. cbn.
    rewrite (proj2 (Reqb_false 100 0)) by lra.
    by rewrite (proj2 (Rltb_true 0 100)) by lra.
Qed.

Lemma calculateReturns_values_witness :
  exists value,
    calculateReturns hourlyWithGap !! 1%nat = Some (VNumber value) /\
    (close (rawCandle 0 100 105 98 102 10) <> 0 ->
     value = Finite ((close (rawCandle 3600000 102 108 101 106 12)
                      - close (rawCandle 0 100 105 98 102 10))
                     / close (rawCandle 0 100 105 98 102 10) * 100)) /\
    (close (rawCandle 0 100 105 98 102 10) = 0 ->
     close (rawCandle 3600000 102 108 101 106 12) = 0 -> value = NaN) /\
    (close (rawCandle 0 100 105 98 102 10) = 0 ->
     0 < close (rawCandle 3600000 102 108 101 106 12) -> value = PosInfinity) /\
    (close (rawCandle 0 100 105 98 102 10) = 0 ->
     close (rawCandle 3600000 102 108 101 106 12) < 0 -> value = NegInfinity).
Proof.
  apply (calculateReturns_values hourlyWithGap 1
           (rawCandle 0 100 105 98 102 10)
           (rawCandle 3600000 102 108 101 106 12)).
  - lia.
  - reflexivity.
  - reflexivity.
Defined.

Local Close Scope R_scope.

Lemma setProperty_keys {V : Type} (key : string) (value : V)
    (obj : list (string * V)) :
  map fst (setProperty key value obj) =
  if decide (key ∈ map fst obj) then map fst obj else map fst obj ++ [key].
Proof.
  induction obj as [|[key0 value0] rest IH]; cbn [setProperty map fst].
  - rewrite decide_False; [done|]. by intros ?%elem_of_nil.
  - destruct (String.eqb key0 key) eqn:Hk.
    + apply String.eqb_eq in Hk as ->. cbn. rewrite decide_True; [done|by left].
    + apply String.eqb_neq in Hk. cbn [map fst]. rewrite IH.
      destruct (decide (key ∈ map fst rest)) as [Hin|Hin].
      * rewrite decide_True; [done|by right].
      * rewrite decide_False; [done|].
        intros [?|?]%elem_of_cons; [congruence|done].
Qed.

Lemma computeIndicator_keys `{!TechnicalIndicators} (data : list Candle)
    (parameters : option IndicatorParameters)
    (result result' : list (string * IndicatorValue)) (indicator : string) :
  computeIndicator data parameters result indicator = Returns result' ->
  map fst result' =
  if decide (toLowerCase indicator ∈ supportedIndicators)
  then if decide (toLowerCase indicator ∈ map fst result) then map fst result
       else map fst result ++ [toLowerCase indicator]
  else map fst result.
Proof.
  unfold computeIndicator. cbn zeta.
  generalize (toLowerCase indicator). intros name.
  unfold mbind, Outcome_bind, outcomeBind, mret, Outcome_ret.
  repeat
    (match goal with
     | |- context [String.eqb name ?known] =>
         destruct (String.eqb name known) eqn:?
     end;
     [ match goal with H : String.eqb name _ = true |- _ =>
         apply String.eqb_eq in H; subst name
       end;
       intros Hres;
       repeat match type of Hres with
              | context [match ?m with Returns _ => _ | Throws _ => _ end] =>
                  destruct m; try discriminate Hres
              end;
       injection Hres as <-;
       rewrite setProperty_keys;
       rewrite (decide_True (P := _ ∈ supportedIndicators))
         by (unfold supportedIndicators; set_solver);
       reflexivity
     | ]).
  intros [= <-]. rewrite decide_False; [done|].
  unfold supportedIndicators. intros Hin.
  repeat match goal with H : String.eqb name _ = false |- _ =>
           apply String.eqb_neq in H
         end.
  repeat (apply elem_of_cons in Hin as [Hin|Hin]; [done|]).
  by apply elem_of_nil in Hin.
Qed.

(** Whatever names are requested, and in whatever case, the object of
    results has each key once, and its keys are exactly the supported names
    among the lower-cased requests: an unknown name is ignored and a repeated
    one overwrites its entry. *)
Theorem computeIndicators_keys `{!TechnicalIndicators} (data : list Candle)
    (parameters : option IndicatorParameters) (requested : list string)
    (result : list (string * IndicatorValue)) :
  computeIndicators data parameters requested [] = Returns result ->
  NoDup (map fst result) /\
  forall key,
    key ∈ map fst result <->
    key ∈ supportedIndicators /\
    exists name, name ∈ requested /\ toLowerCase name = key.
Proof.
  assert (Hgen : forall requested start final,
            computeIndicators data parameters requested start = Returns final ->
            NoDup (map fst start) ->
            NoDup (map fst final) /\
            forall key,
              key ∈ map fst final <->
              key ∈ map fst start \/
              (key ∈ supportedIndicators /\
               exists name, name ∈ requested /\ toLowerCase name = key)).
  { clear. intros requested. induction requested as [|ind rest IH];
      intros start final Hrun Hnodup.
    - cbn in Hrun. injection Hrun as <-. split; [done|].
      intros key. split; [by left|].
      intros [?|(_ & name & []%elem_of_nil & _)]; done.
    - cbn [computeIndicators] in Hrun.
      unfold mbind, Outcome_bind, outcomeBind in Hrun.
      destruct (computeIndicator data parameters start ind) as [mid|] eqn:Hstep;
        [|done].
      apply computeIndicator_keys in Hstep.
      assert (Hmid : NoDup (map fst mid) /\
                     forall key, key ∈ map fst mid <->
                       key ∈ map fst start \/
                       (key ∈ supportedIndicators /\ toLowerCase ind = key)).
      { rewrite Hstep.
        destruct (decide (toLowerCase ind ∈ supportedIndicators)) as [Hs|Hs].
        - destruct (decide (toLowerCase ind ∈ map fst start)) as [Hk|Hk].
          + split; [done|]. intros key. split; [by left|].
            intros [?|[_ <-]]; done.
          + split.
            * apply NoDup_app. split; [done|]. split; [|apply NoDup_singleton].
              intros x Hx ->%list_elem_of_singleton. done.
            * intros key. rewrite elem_of_app, list_elem_of_singleton.
              split; [intros [?| ->]; [by left|by right]|].
              intros [?|[_ <-]]; [by left|by right].
        - split; [done|]. intros key. split; [by left|].
          intros [?|[Hin <-]]; done. }
      destruct Hmid as [Hnd Hkeys].
      destruct (IH mid final Hrun Hnd) as [Hfinal Hall]. split; [done|].
      intros key. rewrite Hall, Hkeys. split.
      + intros [[?|[Hs Hn]]|(Hs & name & Hin & Hn)].
        * by left.
        * right. split; [done|]. exists ind. split; [by left|done].
        * right. split; [done|]. exists name. split; [by right|done].
      + intros [?|(Hs & name & [->|Hin]%elem_of_cons & Hn)].
        * by left; left.
        * left. right. done.
        * right. split; [done|]. by exists name. }
  intros Hrun. destruct (Hgen requested [] result Hrun) as [Hnd Hkeys].
  { constructor. }
  split; [done|]. intros key. rewrite Hkeys. split.
  - intros [[]%elem_of_nil|?]; done.
  - intros ?. by right.
Qed.

Lemma computeIndicators_keys_witness :
  NoDup (map fst [("obv", Series (numberSeries (calculateOBV hourlyWithGap)))]) /\
  forall key,
    key ∈ map fst [("obv", Series (numberSeries (calculateOBV hourlyWithGap)))] <->
    key ∈ supportedIndicators /\
    exists name, name ∈ ["OBV"; "vwap"; "obv"] /\ toLowerCase name = key.
Proof.
  apply (@computeIndicators_keys Textbook.library hourlyWithGap None
           ["OBV"; "vwap"; "obv"]).
  reflexivity.
Defined.

(** ** The process handler *)

Lemma applyCleaning_returns (options : ProcessingOptions) (data : list Candle) :
  exists (out : list Candle) (fuel0 : nat),
    (forall fuel, (fuel0 <= fuel)%nat ->
       applyCleaning fuel options data = Some (out, expectedSteps options)) /\
    (expectedSteps options = [] -> out = data).
Proof.
  unfold applyCleaning, expectedSteps.
  destruct (bool_decide (opt_alignTimestamps options ≠ Some false));
  [set (aligned := alignTimestamps data)|set (aligned := data)];
  (destruct (bool_decide (opt_handleMissingValues options ≠ Some false));
   [destruct (handleMissingValues_returns aligned) as (filled & fuel0 & Hfill)
   |set (filled := aligned); set (fuel0 := 0%nat)]);
  destruct (bool_decide (opt_removeOutliers options ≠ Some false));
  destruct (bool_decide (opt_normalize options = Some true));
  eexists; exists fuel0;
  (split; [intros fuel Hfuel; cbn; rewrite ?(Hfill fuel Hfuel); cbn; reflexivity
          |cbn; try discriminate; intros _; reflexivity]).
Qed.



(** The handler answers every event, with status 200, 400, 405 or 500 and
    the CORS headers, as soon as the gap filler has the turns it needs. *)
Theorem processHandler_answers (event : Event ProcessRequest) :
  exists (response : Response) (fuel0 : nat),
    (forall fuel, (fuel0 <= fuel)%nat ->
       processHandler fuel event = Some response) /\
    statusCode response ∈ [200; 400; 405; 500]%nat /\
    headers response = corsHeaders.
Proof.
  unfold processHandler.
  destruct (String.eqb (httpMethod event) "OPTIONS").
  { eexists; exists 0%nat. split; [done|]. split; [set_solver|done]. }
  destruct (negb (String.eqb (httpMethod event) "POST")).
  { eexists; exists 0%nat. split; [done|]. split; [set_solver|done]. }
  destruct (body event) as [message| |request].
  { eexists; exists 0%nat. split; [done|]. split; [set_solver|done]. }
  { eexists; exists 0%nat. split; [done|]. split; [set_solver|done]. }
  destruct (negb (truthy (process_data request))
            || negb (isArray (process_data request))).
  { eexists; exists 0%nat. split; [done|]. split; [set_solver|done]. }
  destruct (process_data request) as [| | | | | |candles];
    try (eexists; exists 0%nat; split; [done|]; split; [set_solver|done]).
  destruct (process_options request) as [options|];
    [|eexists; exists 0%nat; split; [done|]; split; [set_solver|done]].
  destruct (applyCleaning_returns options candles) as (out & fuel0 & Hrun & _).
  eexists; exists fuel0. split.
  - intros fuel Hfuel. rewrite (Hrun fuel Hfuel). cbn. reflexivity.
  - split; [set_solver|done].
Qed.

(** * Properties of the fetch handler *)

(** ** Timeframes *)



















Example timeframeToMs_samples :
  timeframeToMs "1h" = Returns (Some 3600000) /\
  timeframeToMs "15m" = Returns (Some 900000) /\
  timeframeToMs "h" = Returns None /\
  timeframeToMs "1x" = Throws "Invalid timeframe: 1x" /\
  timeframeToMs "" = Throws "Invalid timeframe: " /\
  parseInt " -12abc" = Some (-12) /\ parseInt "0x1F" = Some 31.
Proof. repeat split; vm_compute; reflexivity. Qed.

(** ** The download loop *)

Lemma fetchChunks_ends (world : ExchangeWorld) (untilTime tf : Z) :
  0 < tf -> answersFromSince world ->
  forall (n call : nat) (allCandles : list Bar) (current : Z),
    untilTime - current <= Z.of_nat n * tf ->
    exists result,
      forall fuel, (n <= fuel)%nat ->
        fetchChunks world (Some untilTime) (Some tf) fuel call allCandles
                    (Some current) = Some result.
Proof.
  intros Htf Hworld. induction n as [|n IH]; intros call allCandles current Hn.
  - exists (Returns allCandles). intros fuel _.
    assert (Hge : (current <? untilTime) = false) by (apply Z.ltb_ge; lia).
    destruct fuel; cbn; by rewrite Hge.
  - destruct (current <? untilTime) eqn:Hlt.
    + destruct (fetchOHLCV world call current) as [candles|message] eqn:Hfetch.
      * destruct (last candles) as [lastBar|] eqn:Hlast.
        -- pose proof (Hworld call current candles lastBar Hfetch Hlast).
           destruct (IH (S call) (allCandles ++ candles)
                        (barTimestamp lastBar + tf) ltac:(lia)) as [result Hres].
           exists result. intros fuel Hfuel.
           destruct fuel as [|fuel]; [lia|]. cbn.
           rewrite Hlt, Hfetch, Hlast. apply Hres. lia.
        -- destruct (IH (S call) allCandles (current + 1000 * tf) ltac:(lia))
             as [result Hres].
           exists result. intros fuel Hfuel.
           destruct fuel as [|fuel]; [lia|]. cbn.
           rewrite Hlt, Hfetch, Hlast. apply Hres. lia.
      * exists (Throws message). intros fuel Hfuel.
        destruct fuel as [|fuel]; [lia|]. cbn. by rewrite Hlt, Hfetch.
    + exists (Returns allCandles). intros fuel _.
      destruct fuel; cbn; by rewrite Hlt.
Qed.

Lemma requests_cover_range (since untilTime tf : Z) :
  0 < tf ->
  untilTime - since <= Z.of_nat (Z.to_nat ((untilTime - since) / tf + 1)) * tf.
Proof.
  intros Htf.
  destruct (Z.le_gt_cases untilTime since) as [Hle|Hgt]; [lia|].
  pose proof (Z.div_pos (untilTime - since) tf ltac:(lia) Htf).
  pose proof (Z.mul_succ_div_gt (untilTime - since) tf Htf).
  rewrite Z2Nat.id by lia. lia.
Qed.

(** With a positive timeframe and an exchange whose answers never end before
    the requested start, the download loop ends within
    floor((until - since) / timeframe) + 1 requests, whatever the answers
    (bars, nothing, or an error). *)
Theorem fetchChunks_terminates (world : ExchangeWorld) (since untilTime tf : Z) :
  0 < tf -> answersFromSince world ->
  exists result,
    forall fuel, (Z.to_nat ((untilTime - since) / tf + 1) <= fuel)%nat ->
      fetchChunks world (Some untilTime) (Some tf) fuel 0 [] (Some since)
      = Some result.
Proof.
  intros Htf Hworld.
  apply (fetchChunks_ends world untilTime tf Htf Hworld).
  by apply requests_cover_range.
Qed.

(** An exchange that answers every request with the same bars, whatever the
    start asked for, keeps the loop running for ever when those bars end more
    than a timeframe before [until]. *)
Theorem fetchChunks_stalls (world : ExchangeWorld) (untilTime tf : Z)
    (candles : list Bar) (lastBar : Bar) :
  (forall call since, fetchOHLCV world call since = Returns candles) ->
  last candles = Some lastBar ->
  barTimestamp lastBar + tf < untilTime ->
  forall (fuel call : nat) (allCandles : list Bar) (since : Z),
    since < untilTime ->
    fetchChunks world (Some untilTime) (Some tf) fuel call allCandles
                (Some since) = None.
Proof.
  intros Hsame Hlast Hstale.
  induction fuel as [|fuel IH]; intros call allCandles since Hsince; cbn;
    rewrite (proj2 (Z.ltb_lt _ _) Hsince); [done|].
  rewrite Hsame, Hlast. cbn. by apply IH.
Qed.

Lemma hourlyWorld_answersFromSince : answersFromSince hourlyWorld.
Proof.
  intros call since candles lastBar [= <-] [= <-]. unfold barTimestamp. cbn. lia.
Qed.

Lemma fetchChunks_terminates_witness :
  exists result,
    forall fuel, (Z.to_nat ((14400000 - 0) / 3600000 + 1) <= fuel)%nat ->
      fetchChunks hourlyWorld (Some 14400000) (Some 3600000) fuel 0 [] (Some 0)
      = Some result.
Proof.
  apply (fetchChunks_terminates hourlyWorld 0 14400000 3600000).
  - lia.
  - exact hourlyWorld_answersFromSince.
Defined.

Lemma fetchChunks_stalls_witness :
  fetchChunks deafWorld (Some 14400000) (Some 3600000) 1000 0 [] (Some 0)
  = None.
Proof.
  apply (fetchChunks_stalls deafWorld 14400000 3600000
           [(0, 100%R, 105%R, 98%R, 102%R, 10%R)]
           (0, 100%R, 105%R, 98%R, 102%R, 10%R)).
  - reflexivity.
  - reflexivity.
  - unfold barTimestamp. cbn. lia.
  - lia.
Defined.

Example fetchChunks_hourlyWorld :
  fetchChunks hourlyWorld (Some 14400000) (Some 3600000) 5 0 [] (Some 0) =
  Some (Returns [(0, 100%R, 105%R, 98%R, 102%R, 10%R);
                 (3600000, 102%R, 108%R, 101%R, 106%R, 12%R);
                 (7200000, 100%R, 105%R, 98%R, 102%R, 10%R);
                 (10800000, 102%R, 108%R, 101%R, 106%R, 12%R)]).
Proof. vm_compute. reflexivity. Qed.

(** ** The fetch handler *)

Lemma initializeExchange_unsupported (world : ExchangeWorld) (exchange : string) :
  exchange ∉ supportedExchanges ->
  initializeExchange world exchange =
  Throws ("Failed to initialize exchange: Unsupported exchange: " +:+ exchange).
Proof.
  intros Hnot. unfold initializeExchange.
  assert (Hne : forall name, name ∈ supportedExchanges ->
                  String.eqb exchange name = false).
  { intros name Hname. apply String.eqb_neq. by intros ->. }
  rewrite !Hne; [done| | | |]; unfold supportedExchanges;
    repeat first [apply list_elem_of_here | apply list_elem_of_further].
Qed.

(** A POST that lacks one of the five required parameters (or has it empty)
    is answered 400 with the list of required names; one that names an
    exchange other than binance, bybit, coinbase and kraken is answered 500
    with that name in the message; one whose timeframe does not end in m, h,
    d or w is answered 500 with the timeframe in the message.  In all three
    cases the answer does not depend on the exchange nor on the turns allowed
    to the download: nothing is requested. *)
Theorem fetchHandler_rejects_before_download (event : Event FetchRequest)
    (request : FetchRequest) :
  httpMethod event = "POST" ->
  body event = BodyValue request ->
  (nonEmpty (fetch_exchange request) = None \/
   nonEmpty (fetch_symbol request) = None \/
   nonEmpty (fetch_timeframe request) = None \/
   fetch_startDate request = None \/ fetch_endDate request = None ->
   forall world fuel,
     fetchHandler world fuel event =
     Some (mkFetchResponse 400 corsHeaders
             (FetchMissingParameters "Missing required parameters"
                ["exchange"; "symbol"; "timeframe"; "startDate"; "endDate"]))) /\
  (forall exchange symbol timeframe startDate endDate,
     nonEmpty (fetch_exchange request) = Some exchange ->
     nonEmpty (fetch_symbol request) = Some symbol ->
     nonEmpty (fetch_timeframe request) = Some timeframe ->
     fetch_startDate request = Some startDate ->
     fetch_endDate request = Some endDate ->
     (exchange ∉ supportedExchanges ->
      forall world fuel,
        fetchHandler world fuel event =
        Some (mkFetchResponse 500 corsHeaders
                (FetchInternalError "Internal server error"
                   ("Failed to initialize exchange: Unsupported exchange: "
                    +:+ exchange)))) /\
     (sliceLast timeframe ∉ ["m"; "h"; "d"; "w"] ->
      forall world fuel exchangeClass,
        initializeExchange world exchange = Returns exchangeClass ->
        fetchHandler world fuel event =
        Some (mkFetchResponse 500 corsHeaders
                (FetchInternalError "Internal server error"
                   ("Invalid timeframe: " +:+ timeframe))))).
Proof.
  intros Hpost Hbody. split.
  - intros Hmissing world fuel. unfold fetchHandler. rewrite Hpost, Hbody. cbn.
    destruct (nonEmpty (fetch_exchange request)); [|done].
    destruct (nonEmpty (fetch_symbol request));
      [|by destruct (nonEmpty (fetch_timeframe request))].
    destruct (nonEmpty (fetch_timeframe request)); [|done].
    destruct (fetch_startDate request); [|done].
    destruct (fetch_endDate request); [|done].
    by destruct Hmissing as [?|[?|[?|[?|?]]]].
  - intros exchange symbol timeframe startDate endDate He Hs Ht Hsd Hed. split.
    + intros Hnot world fuel. unfold fetchHandler. rewrite Hpost, Hbody. cbn.
      rewrite He, Hs, Ht, Hsd, Hed.
      by rewrite (initializeExchange_unsupported world exchange Hnot).
    + intros Hunit world fuel exchangeClass Hinit.
      unfold fetchHandler. rewrite Hpost, Hbody. cbn.
      rewrite He, Hs, Ht, Hsd, Hed, Hinit.
      assert (Hthrow : timeframeToMs timeframe
                       = Throws ("Invalid timeframe: " +:+ timeframe)).
      { unfold timeframeToMs.
        assert (Hne : forall u, u ∈ ["m"; "h"; "d"; "w"] ->
                        String.eqb (sliceLast timeframe) u = false).
        { intros u Hu. apply String.eqb_neq. by intros Heq; rewrite Heq in Hunit. }
        rewrite !Hne; [done| | | |];
          repeat first [apply list_elem_of_here | apply list_elem_of_further]. }
      by rewrite Hthrow.
Qed.

Lemma fetchHandler_rejects_before_download_witness :
    fetchHandler hourlyWorld 0
      (mkEvent "POST"
         (BodyValue (mkFetchRequest (Some "ftx") (Some "BTC/USDT") (Some "1h")
                       (Some (mkDateParam "2023-01-01" (Some 1672531200000)))
                       (Some (mkDateParam "2023-01-02" (Some 1672617600000)))
                       false false)))
    = Some (mkFetchResponse 500 corsHeaders
              (FetchInternalError "Internal server error"
                 ("Failed to initialize exchange: Unsupported exchange: "
                  +:+ "ftx"))).
Proof.
  pose proof (fetchHandler_rejects_before_download
                (mkEvent "POST"
                   (BodyValue (mkFetchRequest (Some "ftx") (Some "BTC/USDT")
                                 (Some "1h")
                                 (Some (mkDateParam "2023-01-01"
                                                    (Some 1672531200000)))
                                 (Some (mkDateParam "2023-01-02"
                                                    (Some 1672617600000)))
                                 false false)))
                _ eq_refl eq_refl) as [_ Hrest].
  destruct (Hrest "ftx" "BTC/USDT" "1h"
              (mkDateParam "2023-01-01" (Some 1672531200000))
              (mkDateParam "2023-01-02" (Some 1672617600000))
              eq_refl eq_refl eq_refl eq_refl eq_refl) as [Hunsupported _].
  apply (Hunsupported ltac:(unfold supportedExchanges; intros Hin;
                            repeat (apply elem_of_cons in Hin as [Hin|Hin]; [done|]);
                            by apply elem_of_nil in Hin)
                      hourlyWorld 0%nat).
Defined.

(** With the five parameters present, a supported exchange whose constructor
    succeeds, a timeframe read as a positive count, valid dates and an
    exchange that answers from the start asked for, the handler answers
    within the bound of the download loop, with 200 or (an error of the
    exchange) 500; on 200, [dataPoints] is the number of candles returned and
    each candle has the date of its timestamp and none of the flags the
    cleaning stages set. *)
Theorem fetchHandler_download (world : ExchangeWorld)
    (event : Event FetchRequest) (request : FetchRequest)
    (exchange symbol timeframe : string) (startDate endDate : DateParam)
    (exchangeClass : ExchangeClass) (since untilTime tf : Z) :
  httpMethod event = "POST" ->
  body event = BodyValue request ->
  nonEmpty (fetch_exchange request) = Some exchange ->
  nonEmpty (fetch_symbol request) = Some symbol ->
  nonEmpty (fetch_timeframe request) = Some timeframe ->
  fetch_startDate request = Some startDate ->
  fetch_endDate request = Some endDate ->
  initializeExchange world exchange = Returns exchangeClass ->
  timeframeToMs timeframe = Returns (Some tf) -> 0 < tf ->
  date_time startDate = Some since -> date_time endDate = Some untilTime ->
  answersFromSince world ->
  exists response,
    (forall fuel, (Z.to_nat ((untilTime - since) / tf + 1) <= fuel)%nat ->
       fetchHandler world fuel event = Some response) /\
    fetch_headers response = corsHeaders /\
    ((fetch_statusCode response = 500%nat /\
      exists message,
        fetch_body response = FetchInternalError "Internal server error" message)
     \/
     (fetch_statusCode response = 200%nat /\
      exists ohlcv orderBook ticker,
        fetch_body response =
        FetchedData exchange symbol timeframe (date_raw startDate)
                    (date_raw endDate) (length ohlcv) ohlcv orderBook ticker /\
        forall c, c ∈ ohlcv ->
          datetime c = toISOString (timestamp c) /\
          interpolated c = None /\ outlierCorrected c = None /\
          originalTimestamp c = None /\ normalizedClose c = None)).
Proof.
  intros Hpost Hbody He Hs Ht Hsd Hed Hinit Htf Hpos Hsince Huntil Hworld.
  destruct (fetchChunks_ends world untilTime tf Hpos Hworld
              (Z.to_nat ((untilTime - since) / tf + 1)) 0%nat [] since
              (requests_cover_range since untilTime tf Hpos))
    as [result Hresult].
  assert (Hhandler : forall fuel,
            (Z.to_nat ((untilTime - since) / tf + 1) <= fuel)%nat ->
            fetchHandler world fuel event =
            match result with
            | Throws message =>
                Some (mkFetchResponse 500 corsHeaders
                        (FetchInternalError "Internal server error" message))
            | Returns allCandles =>
                Some (mkFetchResponse 200 corsHeaders
                        (FetchedData exchange symbol timeframe
                           (date_raw startDate) (date_raw endDate)
                           (length (map formatCandle allCandles))
                           (map formatCandle allCandles)
                           (optionalFetch (fetch_includeOrderbook request)
                                          (fetchOrderBook world))
                           (optionalFetch (fetch_includeTickers request)
                                          (fetchTicker world))))
            end).
  { intros fuel Hfuel. unfold fetchHandler. rewrite Hpost, Hbody. cbn.
    rewrite He, Hs, Ht, Hsd, Hed, Hinit, Htf, Hsince, Huntil.
    rewrite (Hresult fuel Hfuel). cbn. by destruct result. }
  destruct result as [allCandles|message].
  - eexists. split; [exact Hhandler|]. split; [done|]. right.
    split; [done|]. do 3 eexists. split; [reflexivity|].
    intros c Hc. apply list_elem_of_fmap in Hc as (bar & -> & _).
    by destruct bar as [[[[[t o] h] l] cl] v].
  - eexists. split; [exact Hhandler|]. split; [done|]. left.
    split; [done|]. by eexists.
Qed.

Lemma fetchHandler_download_witness :
  exists response,
    (forall fuel,
       (Z.to_nat ((14400000 - 0) / 3600000 + 1) <= fuel)%nat ->
       fetchHandler hourlyWorld fuel
         (mkEvent "POST"
            (BodyValue (mkFetchRequest (Some "kraken") (Some "BTC/USDT")
                          (Some "1h")
                          (Some (mkDateParam "1970-01-01T00:00Z" (Some 0)))
                          (Some (mkDateParam "1970-01-01T04:00Z" (Some 14400000)))
                          true true)))
       = Some response) /\
    fetch_headers response = corsHeaders /\
    ((fetch_statusCode response = 500%nat /\
      exists message,
        fetch_body response = FetchInternalError "Internal server error" message)
     \/
     (fetch_statusCode response = 200%nat /\
      exists ohlcv orderBook ticker,
        fetch_body response =
        FetchedData "kraken" "BTC/USDT" "1h"
                    (date_raw (mkDateParam "1970-01-01T00:00Z" (Some 0)))
                    (date_raw (mkDateParam "1970-01-01T04:00Z" (Some 14400000)))
                    (length ohlcv) ohlcv orderBook ticker /\
        forall c, c ∈ ohlcv ->
          datetime c = toISOString (timestamp c) /\
          interpolated c = None /\ outlierCorrected c = None /\
          originalTimestamp c = None /\ normalizedClose c = None)).
Proof.
  apply (fetchHandler_download hourlyWorld _
           (mkFetchRequest (Some "kraken") (Some "BTC/USDT") (Some "1h")
              (Some (mkDateParam "1970-01-01T00:00Z" (Some 0)))
              (Some (mkDateParam "1970-01-01T04:00Z" (Some 14400000)))
              true true)
           "kraken" "BTC/USDT" "1h" _ _ Kraken 0 14400000 3600000);
    try (vm_compute; reflexivity).
  exact hourlyWorld_answersFromSince.
Defined.

Example fetchHandler_hourlyWorld :
  fetchHandler hourlyWorld 5
    (mkEvent "POST"
       (BodyValue (mkFetchRequest (Some "kraken") (Some "BTC/USDT") (Some "1h")
                     (Some (mkDateParam "1970-01-01T00:00Z" (Some 0)))
                     (Some (mkDateParam "1970-01-01T04:00Z" (Some 14400000)))
                     true true)))
  = Some (mkFetchResponse 200 corsHeaders
            (FetchedData "kraken" "BTC/USDT" "1h" "1970-01-01T00:00Z"
               "1970-01-01T04:00Z" 4
               [rawCandle 0 100 105 98 102 10;
                rawCandle 3600000 102 108 101 106 12;
                rawCandle 7200000 100 105 98 102 10;
                rawCandle 10800000 102 108 101 106 12]
               (Answer "{}") (Failed "ticker unavailable"))).
Proof. vm_compute. reflexivity. Qed.

(** * The indicator handler on short inputs *)

Lemma imap_constant {A B : Type} (f : nat -> A -> B) (g : A -> B) (l : list A) :
  (forall i x, f i x = g x) -> imap f l = map g l.
Proof.
  intros Hfg. revert f Hfg. induction l as [|x l IH]; intros f Hfg; [done|].
  rewrite imap_cons, Hfg. cbn. f_equal. apply IH. intros i y. apply Hfg.
Qed.

(** With the default indicators and periods, fewer than 15 candles are too
    few for any of them: whatever the library, the handler answers 200 with
    three empty series, and the combined records, when asked for, carry the
    candles with [sma], [ema] and [rsi] undefined. *)
Theorem indicatorHandler_short_input `{!TechnicalIndicators}
    (event : Event IndicatorRequest) (candles : list Candle)
    (combine : option bool) :
  httpMethod event = "POST" ->
  body event =
    BodyValue (mkIndicatorRequest (DataArray candles) None
                 (Some (mkIndicatorParameters None None None None None None
                                              None None None None None combine))) ->
  (length candles < 15)%nat ->
  indicatorHandler event =
  mkResponse 200 corsHeaders
    (IndicatorsBody candles
       [("sma", Series []); ("ema", Series []); ("rsi", Series [])]
       (if bool_decide (combine = Some true)
        then Some (map (fun candle =>
                          mkCombinedCandle candle
                            [("sma", VUndefined); ("ema", VUndefined);
                             ("rsi", VUndefined)])
                       candles)
        else None)).
Proof.
  intros Hpost Hbody Hlen.
  assert (Hsma : calculateSMA candles 20 = Returns []).
  { unfold calculateSMA. by rewrite (proj2 (Nat.ltb_lt (length candles) 20)) by lia. }
  assert (Hema : calculateEMA candles 20 = Returns []).
  { unfold calculateEMA. by rewrite (proj2 (Nat.ltb_lt (length candles) 20)) by lia. }
  assert (Hrsi : calculateRSI candles 14 = Returns []).
  { unfold calculateRSI.
    by rewrite (proj2 (Nat.ltb_lt (length candles) (14 + 1))) by lia. }
  set (parameters := mkIndicatorParameters None None None None None None
                                           None None None None None combine)
    in *.
  assert (Hrun : computeIndicators candles (Some parameters)
                                   ["sma"; "ema"; "rsi"] []
                 = Returns [("sma", Series []); ("ema", Series []);
                            ("rsi", Series [])]).
  { cbn [computeIndicators]. unfold computeIndicator.
    cbn -[calculateSMA calculateEMA calculateRSI].
    rewrite Hsma. cbn -[calculateSMA calculateEMA calculateRSI].
    rewrite Hema. cbn -[calculateSMA calculateEMA calculateRSI].
    by rewrite Hrsi. }
  unfold indicatorHandler. rewrite Hpost, Hbody.
  cbn -[computeIndicators]. rewrite Hrun. cbn.
  do 2 f_equal. destruct (bool_decide (combine = Some true)); [|done].
  f_equal. by apply imap_constant.
Qed.

Lemma indicatorHandler_short_input_witness :
  @indicatorHandler Textbook.library
    (mkEvent "POST"
       (BodyValue (mkIndicatorRequest (DataArray hourlyWithGap) None
                     (Some (mkIndicatorParameters None None None None None None
                                                  None None None None None
                                                  (Some true))))))
  = mkResponse 200 corsHeaders
      (IndicatorsBody hourlyWithGap
         [("sma", Series []); ("ema", Series []); ("rsi", Series [])]
         (if bool_decide (Some true = Some true)
          then Some (map (fun candle =>
                            mkCombinedCandle candle
                              [("sma", VUndefined); ("ema", VUndefined);
                               ("rsi", VUndefined)])
                         hourlyWithGap)
          else None)).
Proof.
  apply (@indicatorHandler_short_input Textbook.library _ hourlyWithGap
           (Some true)).
  - reflexivity.
  - reflexivity.
  - cbn. lia.
Defined.

(** * Properties of the chunked loops *)

Local Open Scope Z_scope.

(** ** Slices and chunk counts *)

Lemma ceilDiv_covers (n k : nat) :
  (0 < k)%nat -> (n <= k * ceilDiv n k)%nat.
Proof.
  intros Hk. unfold ceilDiv.
  pose proof (Nat.div_mod_eq n k). pose proof (Nat.mod_upper_bound n k ltac:(lia)).
  destruct (n mod k =? 0)%nat eqn:Hmod.
  - apply Nat.eqb_eq in Hmod. lia.
  - lia.
Qed.

Lemma ceilDiv_least (n k j : nat) :
  (0 < k)%nat -> (j < ceilDiv n k)%nat -> (k * j < n)%nat.
Proof.
  intros Hk. unfold ceilDiv.
  pose proof (Nat.div_mod_eq n k). pose proof (Nat.mod_upper_bound n k ltac:(lia)).
  destruct (n mod k =? 0)%nat eqn:Hmod.
  - apply Nat.eqb_eq in Hmod. intros Hj. nia.
  - apply Nat.eqb_neq in Hmod. intros Hj. nia.
Qed.

Lemma arraySlice_length {A : Type} (from size : nat) (array : list A) :
  length (arraySlice from (from + size) array)
  = Nat.min size (length array - from).
Proof.
  unfold arraySlice. rewrite length_take, length_drop. f_equal. lia.
Qed.

Lemma arraySlice_clip {A : Type} (from size : nat) (array : list A) :
  arraySlice from (Nat.min (from + size) (length array)) array
  = arraySlice from (from + size) array.
Proof.
  unfold arraySlice.
  destruct (decide (from + size <= length array)%nat) as [Hle|Hgt].
  - by rewrite Nat.min_l by lia.
  - rewrite Nat.min_r by lia. rewrite !take_ge; [done| |]; rewrite length_drop; lia.
Qed.

Lemma concat_slices {A : Type} (size count : nat) (array : list A) :
  concat (map (fun j => arraySlice (size * j) (size * j + size) array)
              (seq 0 count))
  = take (size * count) array.
Proof.
  induction count as [|count IH].
  - by rewrite Nat.mul_0_r.
  - rewrite seq_S, map_app, concat_app, IH. cbn [map concat Nat.add].
    rewrite app_nil_r. unfold arraySlice.
    replace (size * count + size - size * count)%nat with size by lia.
    rewrite take_take_drop. f_equal. lia.
Qed.

(** ** Storing a dataset in chunks *)

Lemma storeChunks_spec {A : Type} (data : list A) (r : nat) :
  forall (j fuel : nat) (chunks : gmap nat (ChunkDocument A)),
    (j + r = ceilDiv (length data) chunkSize)%nat -> (r <= fuel)%nat ->
    exists stored,
      storeChunks fuel data (chunkSize * j) chunks = Some stored /\
      forall id, stored !! id =
                 if decide (j < id <= j + r)%nat
                 then Some (chunkDocument data id) else chunks !! id.
Proof.
  assert (Hsize : (0 < chunkSize)%nat) by (unfold chunkSize; lia).
  induction r as [|r IH]; intros j fuel chunks Hcount Hfuel.
  - exists chunks. split.
    + pose proof (ceilDiv_covers (length data) chunkSize Hsize) as Hcover.
      rewrite <- Hcount, Nat.add_0_r in Hcover.
      assert (Hend : (chunkSize * j <? length data)%nat = false)
        by (apply Nat.ltb_ge; lia).
      destruct fuel; cbn [storeChunks]; by rewrite Hend.
    + intros id. destruct (decide _); [lia|done].
  - destruct fuel as [|fuel]; [lia|].
    assert (Hlt : (chunkSize * j <? length data)%nat = true).
    { apply Nat.ltb_lt, ceilDiv_least; lia. }
    cbn [storeChunks]. rewrite Hlt.
    replace (chunkSize * j + chunkSize)%nat with (chunkSize * S j)%nat by lia.
    destruct (IH (S j) fuel
                (<[(chunkSize * j / chunkSize + 1)%nat :=
                     mkChunkDocument
                       (arraySlice (chunkSize * j) (chunkSize * S j) data)
                       (chunkSize * j)
                       (length (arraySlice (chunkSize * j) (chunkSize * S j)
                                           data))]> chunks)
                ltac:(lia) ltac:(lia)) as (stored & Hstored & Hlookup).
    exists stored. split; [exact Hstored|]. intros id. rewrite Hlookup.
    assert (Hid : (chunkSize * j / chunkSize + 1 = S j)%nat).
    { rewrite Nat.mul_comm, Nat.div_mul by lia. lia. }
    rewrite Hid.
    destruct (decide (S j < id <= S j + r)%nat), (decide (j < id <= j + S r)%nat);
      try lia; try done.
    + assert (id = S j) as -> by lia. rewrite lookup_insert_eq.
      unfold chunkDocument. cbn [Nat.sub]. rewrite Nat.sub_0_r.
      by replace (chunkSize * j + chunkSize)%nat with (chunkSize * S j)%nat by lia.
    + by rewrite lookup_insert_ne by lia.
Qed.

Lemma chunkDocument_count {A : Type} (data : list A) (id : nat) :
  (1 <= id <= ceilDiv (length data) chunkSize)%nat ->
  (1 <= chunk_count (chunkDocument data id) <= chunkSize)%nat.
Proof.
  intros Hid. unfold chunkDocument. cbn [chunk_count].
  rewrite arraySlice_length.
  pose proof (ceilDiv_least (length data) chunkSize (id - 1)
                ltac:(unfold chunkSize; lia) ltac:(lia)).
  unfold chunkSize in *. lia.
Qed.

(** Stored in a fresh sub-collection, a dataset of [n] records becomes
    [ceil(n / 500)] documents with ids 1, 2, ...: the count the function
    returns.  The document of id [k] holds the records from index
    [500 (k - 1)] on, between 1 and 500 of them, with that index and their
    number; read in the order of the ids, the documents give the dataset
    back. *)
Theorem storeInFirestore_round_trip {A : Type} (data : list A) :
  exists chunks : gmap nat (ChunkDocument A),
    (forall fuel, (ceilDiv (length data) chunkSize <= fuel)%nat ->
       storeInFirestore fuel data ∅
       = Some (chunks, ceilDiv (length data) chunkSize)) /\
    (forall id, is_Some (chunks !! id)
                <-> (1 <= id <= ceilDiv (length data) chunkSize)%nat) /\
    (forall id document,
       chunks !! id = Some document ->
       chunk_index document = (chunkSize * (id - 1))%nat /\
       chunk_data document
       = arraySlice (chunk_index document) (chunk_index document + chunkSize)
                    data /\
       chunk_count document = length (chunk_data document) /\
       (1 <= chunk_count document <= chunkSize)%nat) /\
    concat (map (fun id => default [] (chunk_data <$> chunks !! id))
                (seq 1 (ceilDiv (length data) chunkSize)))
    = data.
Proof.
  set (count := ceilDiv (length data) chunkSize).
  destruct (storeChunks_spec data count 0 count ∅ ltac:(lia) ltac:(lia))
    as (chunks & Hstored & Hlookup).
  assert (Hat : forall id, chunks !! id =
                  if decide (1 <= id <= count)%nat
                  then Some (chunkDocument data id) else None).
  { intros id. rewrite Hlookup, lookup_empty.
    destruct (decide (0 < id <= 0 + count)%nat), (decide (1 <= id <= count)%nat);
      try lia; done. }
  exists chunks. split; [|split; [|split]].
  - intros fuel Hfuel. unfold storeInFirestore.
    destruct (storeChunks_spec data count 0 fuel ∅ ltac:(lia) Hfuel)
      as (chunks' & Hstored' & Hlookup').
    rewrite Nat.mul_0_r in Hstored'. rewrite Hstored'. cbn. do 2 f_equal.
    apply map_eq. intros id. by rewrite Hlookup, Hlookup'.
  - intros id. rewrite Hat. by destruct (decide _).
  - intros id document. rewrite Hat.
    destruct (decide _) as [Hid|]; [|done]. intros [= <-].
    split; [done|]. split; [done|]. split; [done|].
    by apply chunkDocument_count.
  - transitivity (concat (map (fun j => arraySlice (chunkSize * j)
                                          (chunkSize * j + chunkSize) data)
                              (seq 0 count))).
    + f_equal. rewrite <- (fmap_S_seq 0 count), <- list_fmap_compose.
      apply list_fmap_ext. intros i j [-> Hi]%lookup_seq. cbn. rewrite Hat.
      destruct (decide _); [|lia]. cbn. by rewrite Nat.sub_0_r.
    + rewrite concat_slices. apply take_ge.
      apply ceilDiv_covers. unfold chunkSize. lia.
Qed.

(** Stored under an id whose sub-collection is not empty, the dataset
    overwrites the documents 1 to [ceil(n / 500)] and removes none: the
    sub-collection afterwards is the fresh one together with the earlier
    documents of other ids, so an earlier document of a larger id stays,
    beyond the count returned. *)
Theorem storeInFirestore_keeps_later_chunks {A : Type} (data : list A)
    (existing : gmap nat (ChunkDocument A)) :
  exists fresh stored : gmap nat (ChunkDocument A),
    (forall fuel, (ceilDiv (length data) chunkSize <= fuel)%nat ->
       storeInFirestore fuel data ∅
       = Some (fresh, ceilDiv (length data) chunkSize) /\
       storeInFirestore fuel data existing
       = Some (stored, ceilDiv (length data) chunkSize)) /\
    stored = fresh ∪ existing /\
    forall id document,
      (ceilDiv (length data) chunkSize < id)%nat ->
      existing !! id = Some document -> stored !! id = Some document.
Proof.
  set (count := ceilDiv (length data) chunkSize).
  destruct (storeChunks_spec data count 0 count ∅ ltac:(lia) ltac:(lia))
    as (fresh & _ & Hfresh).
  exists fresh, (fresh ∪ existing). split; [|split; [done|]].
  - intros fuel Hfuel. unfold storeInFirestore.
    destruct (storeChunks_spec data count 0 fuel ∅ ltac:(lia) Hfuel)
      as (fresh' & Hstored' & Hfresh').
    destruct (storeChunks_spec data count 0 fuel existing ltac:(lia) Hfuel)
      as (stored & Hstored & Hlookup).
    rewrite Nat.mul_0_r in Hstored, Hstored'. rewrite Hstored, Hstored'. cbn.
    split; do 2 f_equal; apply map_eq; intros id.
    + by rewrite Hfresh, Hfresh'.
    + rewrite Hlookup, lookup_union, Hfresh, lookup_empty.
      by destruct (decide _), (existing !! id).
  - intros id document Hid Hdoc.
    rewrite lookup_union, Hfresh, lookup_empty, Hdoc.
    destruct (decide _); [lia|done].
Qed.

Example storeInFirestore_shorter_dataset :
  storeInFirestore 1 [7] {[2%nat := mkChunkDocument [8; 9] 500 2]}
  = Some ({[1%nat := mkChunkDocument [7] 0 1;
            2%nat := mkChunkDocument [8; 9] 500 2]}, 1%nat).
Proof. vm_compute. reflexivity. Qed.

(** ** Processing an array in chunks *)





(** A chunk size of 0 is not refused: on an array that is not empty the
    loop then makes no progress and calls [processFunc] on nothing, so the
    promise never settles. *)
Theorem processArrayInChunks_zero_size {A B : Type} (array : list A)
    (processFunc : A -> option B) (fuel : nat) :
  array <> [] ->
  processArrayInChunks fuel array processFunc (Some 0%nat) = None.
Proof.
  intros Harray.
  change (processChunks processFunc 0 fuel array 0 [] = None).
  assert (Hlt : (0 <? length array)%nat = true).
  { apply Nat.ltb_lt. destruct array; [done|cbn; lia]. }
  generalize (@nil B) as results.
  induction fuel as [|fuel IH]; intros results; cbn [processChunks];
    rewrite Hlt; [done|].
  unfold promiseAll, arraySlice. cbn. apply IH.
Qed.

Lemma processArrayInChunks_zero_size_witness :
  processArrayInChunks 1000 [1; 2; 3] (fun x => Some (x + 1)) (Some 0%nat)
  = None.
Proof.
  apply (processArrayInChunks_zero_size [1; 2; 3] (fun x => Some (x + 1)) 1000).
  discriminate.
Defined.

(** ** Sampling a series for a chart *)

Lemma chunksOf_concat {A : Type} (size : nat) (array : list A) :
  (1 <= size)%nat -> concat (chunksOf size array) = array.
Proof.
  intros Hsize. unfold chunksOf. rewrite concat_slices.
  apply take_ge, ceilDiv_covers. lia.
Qed.

Lemma chunksOf_lookup {A : Type} (size : nat) (array : list A) (k : nat)
    (chunk : list A) :
  (1 <= size)%nat ->
  chunksOf size array !! k = Some chunk ->
  chunk = arraySlice (size * k) (size * k + size) array /\
  (size * k < length array)%nat /\
  (1 <= length chunk <= size)%nat.
Proof.
  intros Hsize Hk. unfold chunksOf in Hk.
  apply list_lookup_fmap_Some in Hk as (j & -> & Hj).
  apply lookup_seq in Hj as [-> Hlt]. cbn [Nat.add] in *.
  pose proof (ceilDiv_least (length array) size k ltac:(lia) Hlt).
  split; [done|]. split; [done|]. rewrite arraySlice_length. lia.
Qed.

Lemma fieldRange_components (field : Candle -> R) (data : list Candle) :
  fieldRange field data
  = (fold_left (fun lowest candle => js_min lowest (field candle))
               data PosInfinity,
     fold_left (fun highest candle => js_max highest (field candle))
               data NegInfinity).
Proof.
  unfold fieldRange. generalize PosInfinity NegInfinity.
  induction data as [|c data IH]; intros lowest highest; [done|]. cbn. apply IH.
Qed.

Local Open Scope R_scope.

Lemma fold_left_sum {A : Type} (f : A -> R) (l : list A) (a : R) :
  fold_left (fun total x => total + f x) l a
  = a + fold_left (fun total x => total + f x) l 0.
Proof.
  revert a. induction l as [|x l IH]; intros a; cbn; [lra|].
  rewrite (IH (a + f x)), (IH (0 + f x)). lra.
Qed.

Lemma totalVolume_app (l1 l2 : list Candle) :
  totalVolume (l1 ++ l2) = totalVolume l1 + totalVolume l2.
Proof.
  unfold totalVolume. rewrite fold_left_app. apply fold_left_sum.
Qed.

Lemma representative_spec (chunk : list Candle) :
  chunk <> [] ->
  exists (first lastCandle : Candle) (lowest highest : R),
    head chunk = Some first /\ last chunk = Some lastCandle /\
    representative chunk
    = Some (mkChartCandle (timestamp first) (datetime first) (open first)
                          (Finite highest) (Finite lowest) (close lastCandle)
                          (totalVolume chunk)) /\
    batchMin low chunk lowest /\ batchMax high chunk highest.
Proof.
  intros Hchunk.
  destruct (fieldRange_extrema low chunk Hchunk)
    as (lowest & highestLow & Hlow & Hmin & _).
  destruct (fieldRange_extrema high chunk Hchunk)
    as (lowestHigh & highest & Hhigh & _ & Hmax).
  rewrite fieldRange_components in Hlow, Hhigh.
  injection Hlow as Hlow _. injection Hhigh as _ Hhigh.
  destruct chunk as [|first rest]; [done|].
  destruct (last (first :: rest)) as [lastCandle|] eqn:Hlast.
  2: { by apply last_None in Hlast. }
  exists first, lastCandle, lowest, highest.
  split; [done|]. split; [done|]. split; [|done].
  unfold representative. rewrite Hlast. cbn [head].
  by rewrite Hlow, Hhigh.
Qed.

Local Close Scope R_scope.

Lemma sampleChunks_spec (data : list Candle) (interval r : nat) :
  (1 <= interval)%nat ->
  forall (j fuel : nat) (sampledData : list ChartCandle),
    (j + r = ceilDiv (length data) interval)%nat -> (r <= fuel)%nat ->
    exists rest,
      sampleChunks fuel data (Some interval) (interval * j) sampledData
      = Some (sampledData ++ rest) /\
      representatives
        (map (fun j' => arraySlice (interval * j') (interval * j' + interval)
                                   data) (seq j r))
        rest.
Proof.
  intros Hinterval.
  induction r as [|r IH]; intros j fuel sampledData Hcount Hfuel.
  - exists []. split; [|by constructor].
    pose proof (ceilDiv_covers (length data) interval ltac:(lia)) as Hcover.
    rewrite <- Hcount, Nat.add_0_r in Hcover.
    assert (Hend : (interval * j <? length data)%nat = false)
      by (apply Nat.ltb_ge; lia).
    rewrite app_nil_r. destruct fuel; cbn [sampleChunks]; by rewrite Hend.
  - destruct fuel as [|fuel]; [lia|].
    pose proof (ceilDiv_least (length data) interval j ltac:(lia) ltac:(lia))
      as Hj.
    assert (Hlt : (interval * j <? length data)%nat = true)
      by (by apply Nat.ltb_lt).
    cbn [sampleChunks]. rewrite Hlt, arraySlice_clip.
    destruct (representative_spec
                (arraySlice (interval * j) (interval * j + interval) data))
      as (first & lastCandle & lowest & highest & _ & _ & Hrep & _).
    { intros Hnil. apply (f_equal length) in Hnil.
      rewrite arraySlice_length in Hnil. cbn in Hnil. lia. }
    rewrite Hrep.
    set (candle := mkChartCandle _ _ _ _ _ _ _) in *.
    destruct (IH (S j) fuel (sampledData ++ [candle]) ltac:(lia) ltac:(lia))
      as (rest & Hrun & Hreps).
    replace (interval * S j)%nat with (interval * j + interval)%nat in Hrun
      by lia.
    exists (candle :: rest). split.
    + rewrite Hrun. by rewrite <- app_assoc.
    + cbn [seq map]. by constructor.
Qed.

Lemma samplingInterval_bounds (n maxPoints : nat) :
  (1 <= maxPoints)%nat -> (maxPoints < n)%nat ->
  (1 <= ceilDiv n maxPoints)%nat /\
  (1 <= ceilDiv n (ceilDiv n maxPoints) <= maxPoints)%nat.
Proof.
  intros Hmax Hn.
  pose proof (ceilDiv_covers n maxPoints ltac:(lia)) as Hcover.
  assert (Hinterval : (1 <= ceilDiv n maxPoints)%nat) by nia.
  split; [done|].
  pose proof (ceilDiv_covers n (ceilDiv n maxPoints) ltac:(lia)).
  split; [nia|].
  destruct (decide (ceilDiv n (ceilDiv n maxPoints) <= maxPoints)%nat)
    as [|Hgt]; [done|].
  pose proof (ceilDiv_least n (ceilDiv n maxPoints) maxPoints
                ltac:(lia) ltac:(lia)). nia.
Qed.

Lemma optimizeChartData_sampled (data : list Candle) (maxPoints : nat) :
  (1 <= maxPoints)%nat -> (maxPoints < length data)%nat ->
  exists sampledData,
    (forall fuel, (maxPoints <= fuel)%nat ->
       optimizeChartData fuel data (Some maxPoints)
       = Some (Sampled sampledData)) /\
    representatives (chunksOf (ceilDiv (length data) maxPoints) data)
                    sampledData.
Proof.
  intros Hmax Hn.
  destruct (samplingInterval_bounds (length data) maxPoints Hmax Hn)
    as [Hinterval [_ Hcount]].
  set (interval := ceilDiv (length data) maxPoints) in *.
  destruct (sampleChunks_spec data interval (ceilDiv (length data) interval)
              Hinterval 0 (ceilDiv (length data) interval) []
              ltac:(lia) ltac:(lia)) as (sampledData & _ & Hreps).
  exists sampledData. split; [|exact Hreps].
  intros fuel Hfuel.
  destruct (sampleChunks_spec data interval (ceilDiv (length data) interval)
              Hinterval 0 fuel [] ltac:(lia) ltac:(lia))
    as (sampledData' & Hrun & Hreps').
  assert (sampledData' = sampledData) as ->.
  { unfold representatives in *. apply list_eq. intros k.
    destruct (sampledData' !! k) as [c'|] eqn:Hc'.
    - destruct (Forall2_lookup_r _ _ _ _ _ Hreps' Hc') as (chunk & Hchunk & Hrep').
      destruct (Forall2_lookup_l _ _ _ _ _ Hreps Hchunk) as (c & Hc & Hrep).
      rewrite Hc. congruence.
    - apply lookup_ge_None in Hc'. symmetry. apply lookup_ge_None.
      rewrite <- (Forall2_length _ _ _ Hreps).
      by rewrite (Forall2_length _ _ _ Hreps'). }
  unfold optimizeChartData.
  change (default 1000%nat (Some maxPoints)) with maxPoints. cbv zeta.
  assert (Hbig : (length data <=? maxPoints)%nat = false)
    by (apply Nat.leb_gt; lia).
  rewrite Hbig. unfold samplingInterval.
  assert (Hpos : (maxPoints =? 0)%nat = false) by (apply Nat.eqb_neq; lia).
  rewrite Hpos. fold interval. rewrite Nat.mul_0_r in Hrun.
  by rewrite Hrun.
Qed.

(** Up to [maxPoints] candles the series is returned as it is.  A longer
    one is cut into chunks of [ceil(n / maxPoints)] candles and sampled to
    one candle per chunk: [ceil(n / ceil(n / maxPoints))] candles, at least
    1 and at most [maxPoints]; the loop takes as many turns. *)
Theorem optimizeChartData_count (data : list Candle) (maxPoints : nat) :
  (1 <= maxPoints)%nat ->
  ((length data <= maxPoints)%nat ->
   forall fuel, optimizeChartData fuel data (Some maxPoints)
                = Some (Unchanged data)) /\
  ((maxPoints < length data)%nat ->
   exists sampledData,
     (forall fuel, (maxPoints <= fuel)%nat ->
        optimizeChartData fuel data (Some maxPoints)
        = Some (Sampled sampledData)) /\
     length sampledData
     = ceilDiv (length data) (ceilDiv (length data) maxPoints) /\
     (1 <= length sampledData <= maxPoints)%nat).
Proof.
  intros Hmax. split.
  - intros Hsmall fuel. unfold optimizeChartData.
    change (default 1000%nat (Some maxPoints)) with maxPoints. cbv zeta.
    by rewrite (proj2 (Nat.leb_le _ _) Hsmall).
  - intros Hn.
    destruct (optimizeChartData_sampled data maxPoints Hmax Hn)
      as (sampledData & Hrun & Hreps).
    exists sampledData. split; [exact Hrun|].
    apply Forall2_length in Hreps. unfold chunksOf in Hreps.
    rewrite length_map, length_seq in Hreps. rewrite <- Hreps.
    split; [done|]. by apply samplingInterval_bounds.
Qed.

Lemma optimizeChartData_count_witness :
  exists sampledData,
    (forall fuel, (3 <= fuel)%nat ->
       optimizeChartData fuel fiveCandles (Some 3%nat)
       = Some (Sampled sampledData)) /\
    length sampledData = ceilDiv 5 (ceilDiv 5 3) /\
    (1 <= length sampledData <= 3)%nat.
Proof.
  apply (optimizeChartData_count fiveCandles 3); cbn; lia.
Defined.

Lemma representative_Some (chunk : list Candle) (candle : ChartCandle) :
  representative chunk = Some candle ->
  exists (first lastCandle : Candle) (lowest highest : R),
    head chunk = Some first /\ last chunk = Some lastCandle /\
    candle = mkChartCandle (timestamp first) (datetime first) (open first)
                           (Finite highest) (Finite lowest) (close lastCandle)
                           (totalVolume chunk) /\
    batchMin low chunk lowest /\ batchMax high chunk highest.
Proof.
  intros Hrep.
  destruct (representative_spec chunk)
    as (first & lastCandle & lowest & highest & Hhead & Hlast & Hspec & Hmin
        & Hmax).
  { intros ->. discriminate Hrep. }
  exists first, lastCandle, lowest, highest. rewrite Hspec in Hrep.
  by injection Hrep as <-.
Qed.

Lemma arraySlice_head {A : Type} (from size : nat) (array : list A) :
  (1 <= size)%nat ->
  head (arraySlice from (from + size) array) = array !! from.
Proof.
  intros Hsize. unfold arraySlice.
  replace (from + size - from)%nat with size by lia.
  destruct size as [|size]; [lia|].
  rewrite head_lookup, lookup_take_lt by lia.
  rewrite lookup_drop. f_equal. lia.
Qed.

Lemma concat_last {A : Type} (chunks : list (list A)) (chunk : list A) :
  last chunks = Some chunk -> chunk <> [] ->
  last (concat chunks) = last chunk.
Proof.
  intros Hlast Hchunk.
  destruct chunks as [|first rest] using rev_ind; [done|].
  rewrite last_snoc in Hlast. injection Hlast as ->.
  rewrite concat_app. cbn [concat]. rewrite app_nil_r.
  destruct chunk as [|x chunk] using rev_ind; [done|].
  by rewrite app_assoc, !last_snoc.
Qed.

Lemma chunksOf_elem_of {A : Type} (size : nat) (array chunk : list A) (x : A) :
  (1 <= size)%nat -> chunk ∈ chunksOf size array -> x ∈ chunk -> x ∈ array.
Proof.
  intros Hsize Hchunk Hx. rewrite <- (chunksOf_concat size array Hsize).
  apply list_elem_of_In, in_concat. exists chunk.
  split; by apply list_elem_of_In.
Qed.

Lemma chunksOf_cover {A : Type} (size : nat) (array : list A) (x : A) :
  (1 <= size)%nat -> x ∈ array ->
  exists chunk, chunk ∈ chunksOf size array /\ x ∈ chunk.
Proof.
  intros Hsize Hx. rewrite <- (chunksOf_concat size array Hsize) in Hx.
  apply list_elem_of_In, in_concat in Hx as (chunk & Hchunk & Hin).
  exists chunk. split; by apply list_elem_of_In.
Qed.

Local Open Scope R_scope.

Lemma sampledVolume_cons (candle : ChartCandle) (rest : list ChartCandle) :
  sampledVolume (candle :: rest) = chart_volume candle + sampledVolume rest.
Proof.
  unfold sampledVolume. cbn [fold_left]. rewrite fold_left_sum. lra.
Qed.

Lemma representatives_volume (chunks : list (list Candle))
    (sampledData : list ChartCandle) :
  representatives chunks sampledData ->
  sampledVolume sampledData = totalVolume (concat chunks).
Proof.
  induction 1 as [|chunk candle chunks sampledData Hrep _ IH]; [done|].
  cbn [concat]. rewrite sampledVolume_cons, totalVolume_app, IH.
  apply representative_Some in Hrep
    as (first & lastCandle & lowest & highest & _ & _ & -> & _). done.
Qed.

Local Close Scope R_scope.

(** Each sampled candle stands for one chunk of the series, the [k]-th for
    the candles from index [k * interval] on: it has the timestamp, date and
    open of the first candle of the chunk, the close of the last, the
    greatest high and the least low of the chunk (finite numbers) and the
    sum of its volumes. *)
Theorem optimizeChartData_representative (data : list Candle)
    (maxPoints : nat) :
  (1 <= maxPoints)%nat -> (maxPoints < length data)%nat ->
  exists sampledData,
    (forall fuel, (maxPoints <= fuel)%nat ->
       optimizeChartData fuel data (Some maxPoints)
       = Some (Sampled sampledData)) /\
    forall (k : nat) (candle : ChartCandle),
      sampledData !! k = Some candle ->
      exists (chunk : list Candle) (first lastCandle : Candle)
             (lowest highest : R),
        chunksOf (ceilDiv (length data) maxPoints) data !! k = Some chunk /\
        data !! (ceilDiv (length data) maxPoints * k)%nat = Some first /\
        last chunk = Some lastCandle /\
        chart_timestamp candle = timestamp first /\
        chart_datetime candle = datetime first /\
        chart_open candle = open first /\
        chart_close candle = close lastCandle /\
        chart_high candle = Finite highest /\ batchMax high chunk highest /\
        chart_low candle = Finite lowest /\ batchMin low chunk lowest /\
        chart_volume candle = totalVolume chunk.
Proof.
  intros Hmax Hn.
  destruct (samplingInterval_bounds (length data) maxPoints Hmax Hn)
    as [Hinterval _].
  destruct (optimizeChartData_sampled data maxPoints Hmax Hn)
    as (sampledData & Hrun & Hreps).
  exists sampledData. split; [exact Hrun|]. intros k candle Hk.
  destruct (Forall2_lookup_r _ _ _ _ _ Hreps Hk) as (chunk & Hchunk & Hrep).
  apply representative_Some in Hrep
    as (first & lastCandle & lowest & highest & Hhead & Hlast & -> & Hmin
        & Hmax').
  exists chunk, first, lastCandle, lowest, highest.
  destruct (chunksOf_lookup _ _ _ _ Hinterval Hchunk) as (Hslice & _ & _).
  rewrite Hslice, arraySlice_head in Hhead by done.
  repeat (split; [done|]). done.
Qed.

Lemma optimizeChartData_representative_witness :
  exists sampledData,
    (forall fuel, (3 <= fuel)%nat ->
       optimizeChartData fuel fiveCandles (Some 3%nat)
       = Some (Sampled sampledData)) /\
    forall (k : nat) (candle : ChartCandle),
      sampledData !! k = Some candle ->
      exists (chunk : list Candle) (first lastCandle : Candle)
             (lowest highest : R),
        chunksOf (ceilDiv (length fiveCandles) 3) fiveCandles !! k
        = Some chunk /\
        fiveCandles !! (ceilDiv (length fiveCandles) 3 * k)%nat = Some first /\
        last chunk = Some lastCandle /\
        chart_timestamp candle = timestamp first /\
        chart_datetime candle = datetime first /\
        chart_open candle = open first /\
        chart_close candle = close lastCandle /\
        chart_high candle = Finite highest /\ batchMax high chunk highest /\
        chart_low candle = Finite lowest /\ batchMin low chunk lowest /\
        chart_volume candle = totalVolume chunk.
Proof.
  apply (optimizeChartData_representative fiveCandles 3); cbn; lia.
Defined.

(** Sampling conserves the volume traded, the greatest high and the least
    low of the whole series, its first open and its last close. *)
Theorem optimizeChartData_conserves (data : list Candle) (maxPoints : nat) :
  (1 <= maxPoints)%nat -> (maxPoints < length data)%nat ->
  exists sampledData,
    (forall fuel, (maxPoints <= fuel)%nat ->
       optimizeChartData fuel data (Some maxPoints)
       = Some (Sampled sampledData)) /\
    sampledVolume sampledData = totalVolume data /\
    (forall highest, batchMax high data highest ->
       (exists candle, candle ∈ sampledData /\
                       chart_high candle = Finite highest) /\
       forall candle, candle ∈ sampledData ->
         exists h, chart_high candle = Finite h /\ (h <= highest)%R) /\
    (forall lowest, batchMin low data lowest ->
       (exists candle, candle ∈ sampledData /\
                       chart_low candle = Finite lowest) /\
       forall candle, candle ∈ sampledData ->
         exists l, chart_low candle = Finite l /\ (lowest <= l)%R) /\
    chart_open <$> head sampledData = open <$> head data /\
    chart_close <$> last sampledData = close <$> last data.
Proof.
  intros Hmax Hn.
  destruct (samplingInterval_bounds (length data) maxPoints Hmax Hn)
    as [Hinterval [Hcount _]].
  destruct (optimizeChartData_sampled data maxPoints Hmax Hn)
    as (sampledData & Hrun & Hreps).
  set (interval := ceilDiv (length data) maxPoints) in *.
  exists sampledData. split; [exact Hrun|].
  assert (Hof : forall candle, candle ∈ sampledData ->
            exists chunk first lastCandle lowest highest,
              chunk ∈ chunksOf interval data /\
              head chunk = Some first /\ last chunk = Some lastCandle /\
              candle = mkChartCandle (timestamp first) (datetime first)
                         (open first) (Finite highest) (Finite lowest)
                         (close lastCandle) (totalVolume chunk) /\
              batchMin low chunk lowest /\ batchMax high chunk highest).
  { intros candle [k Hk]%list_elem_of_lookup.
    destruct (Forall2_lookup_r _ _ _ _ _ Hreps Hk) as (chunk & Hchunk & Hrep).
    apply representative_Some in Hrep
      as (first & lastCandle & lowest & highest & Hrest).
    exists chunk, first, lastCandle, lowest, highest.
    split; [by eapply list_elem_of_lookup_2|exact Hrest]. }
  assert (Hto : forall chunk, chunk ∈ chunksOf interval data ->
            exists candle, candle ∈ sampledData /\
                           representative chunk = Some candle).
  { intros chunk [k Hk]%list_elem_of_lookup.
    destruct (Forall2_lookup_l _ _ _ _ _ Hreps Hk) as (candle & Hc & Hrep).
    exists candle. split; [by eapply list_elem_of_lookup_2|exact Hrep]. }
  split; [|split; [|split; [|split]]].
  - rewrite (representatives_volume _ _ Hreps).
    by rewrite chunksOf_concat.
  - intros highest [Hle (top & Htop & Hhigh)]. split.
    + destruct (chunksOf_cover interval data top Hinterval Htop)
        as (chunk & Hchunk & Hin).
      destruct (Hto chunk Hchunk) as (candle & Hcandle & Hrep).
      apply representative_Some in Hrep
        as (first & lastCandle & lowest & h & _ & _ & -> & _
            & [Hh (best & Hbest & Hbesth)]).
      exists (mkChartCandle (timestamp first) (datetime first) (open first)
                (Finite h) (Finite lowest) (close lastCandle)
                (totalVolume chunk)).
      split; [exact Hcandle|]. cbn. f_equal.
      pose proof (Hh top Hin).
      pose proof (Hle best (chunksOf_elem_of _ _ _ _ Hinterval Hchunk Hbest)).
      lra.
    + intros candle Hcandle.
      destruct (Hof candle Hcandle)
        as (chunk & first & lastCandle & lowest & h & Hchunk & _ & _ & -> & _
            & [_ (best & Hbest & Hbesth)]).
      exists h. split; [done|]. rewrite <- Hbesth.
      apply Hle. by apply (chunksOf_elem_of interval data chunk).
  - intros lowest [Hle (bottom & Hbottom & Hlow)]. split.
    + destruct (chunksOf_cover interval data bottom Hinterval Hbottom)
        as (chunk & Hchunk & Hin).
      destruct (Hto chunk Hchunk) as (candle & Hcandle & Hrep).
      apply representative_Some in Hrep
        as (first & lastCandle & l & highest & _ & _ & ->
            & [Hl (best & Hbest & Hbestl)] & _).
      exists (mkChartCandle (timestamp first) (datetime first) (open first)
                (Finite highest) (Finite l) (close lastCandle)
                (totalVolume chunk)).
      split; [exact Hcandle|]. cbn. f_equal.
      pose proof (Hl bottom Hin).
      pose proof (Hle best (chunksOf_elem_of _ _ _ _ Hinterval Hchunk Hbest)).
      lra.
    + intros candle Hcandle.
      destruct (Hof candle Hcandle)
        as (chunk & first & lastCandle & l & highest & Hchunk & _ & _ & ->
            & [_ (best & Hbest & Hbestl)] & _).
      exists l. split; [done|]. rewrite <- Hbestl.
      apply Hle. by apply (chunksOf_elem_of interval data chunk).
  - destruct sampledData as [|candle rest].
    { apply Forall2_length in Hreps. unfold chunksOf in Hreps.
      rewrite length_map, length_seq in Hreps. cbn in Hreps. lia. }
    destruct (Forall2_lookup_r _ _ _ _ _ Hreps (eq_refl : (candle :: rest) !! 0%nat = Some candle))
      as (chunk & Hchunk & Hrep).
    apply representative_Some in Hrep
      as (first & lastCandle & lowest & highest & Hhead & _ & -> & _).
    destruct (chunksOf_lookup _ _ _ _ Hinterval Hchunk) as (Hslice & _ & _).
    rewrite Hslice, arraySlice_head in Hhead by done.
    rewrite Nat.mul_0_r in Hhead. by rewrite (head_lookup data), Hhead.
  - destruct (last sampledData) as [candle|] eqn:Hlast.
    2: { apply last_None in Hlast as ->.
         apply Forall2_length in Hreps. unfold chunksOf in Hreps.
         rewrite length_map, length_seq in Hreps. cbn in Hreps. lia. }
    rewrite last_lookup in Hlast.
    destruct (Forall2_lookup_r _ _ _ _ _ Hreps Hlast) as (chunk & Hchunk & Hrep).
    rewrite <- (Forall2_length _ _ _ Hreps), <- last_lookup in Hchunk.
    apply representative_Some in Hrep
      as (first & lastCandle & lowest & highest & Hhead & Hlastc & -> & _).
    assert (Hdata : last (concat (chunksOf interval data)) = last chunk).
    { apply concat_last; [done|]. intros ->. discriminate Hhead. }
    rewrite chunksOf_concat in Hdata by done. by rewrite Hdata, Hlastc.
Qed.

Lemma optimizeChartData_conserves_witness :
  exists sampledData,
    (forall fuel, (3 <= fuel)%nat ->
       optimizeChartData fuel fiveCandles (Some 3%nat)
       = Some (Sampled sampledData)) /\
    sampledVolume sampledData = totalVolume fiveCandles /\
    (forall highest, batchMax high fiveCandles highest ->
       (exists candle, candle ∈ sampledData /\
                       chart_high candle = Finite highest) /\
       forall candle, candle ∈ sampledData ->
         exists h, chart_high candle = Finite h /\ (h <= highest)%R) /\
    (forall lowest, batchMin low fiveCandles lowest ->
       (exists candle, candle ∈ sampledData /\
                       chart_low candle = Finite lowest) /\
       forall candle, candle ∈ sampledData ->
         exists l, chart_low candle = Finite l /\ (lowest <= l)%R) /\
    chart_open <$> head sampledData = open <$> head fiveCandles /\
    chart_close <$> last sampledData = close <$> last fiveCandles.
Proof.
  apply (optimizeChartData_conserves fiveCandles 3); cbn; lia.
Defined.

(** A [maxPoints] of 0 is not refused: a series that is not empty is then
    sampled to one candle, the representative of the whole series. *)
Theorem optimizeChartData_zero_points (data : list Candle) :
  data <> [] ->
  exists candle,
    representative data = Some candle /\
    forall fuel, (1 <= fuel)%nat ->
      optimizeChartData fuel data (Some 0%nat) = Some (Sampled [candle]).
Proof.
  intros Hdata.
  destruct (representative_spec data Hdata)
    as (first & lastCandle & lowest & highest & _ & _ & Hrep & _).
  eexists. split; [exact Hrep|]. intros fuel Hfuel.
  destruct fuel as [|fuel]; [lia|]. unfold optimizeChartData.
  change (default 1000%nat (Some 0%nat)) with 0%nat. cbv zeta.
  assert (Hlen : (1 <= length data)%nat) by (destruct data; [done|cbn; lia]).
  rewrite (proj2 (Nat.leb_gt _ _)) by lia. cbn [samplingInterval Nat.eqb].
  cbn [sampleChunks]. rewrite (proj2 (Nat.ltb_lt _ _)) by lia.
  unfold arraySlice. rewrite Nat.sub_0_r, drop_0, take_ge by lia.
  by rewrite Hrep.
Qed.

Lemma optimizeChartData_zero_points_witness :
  exists candle,
    representative fiveCandles = Some candle /\
    forall fuel, (1 <= fuel)%nat ->
      optimizeChartData fuel fiveCandles (Some 0%nat) = Some (Sampled [candle]).
Proof.
  apply (optimizeChartData_zero_points fiveCandles). discriminate.
Defined.
